(** * Synchronous inference serving: executor, request preparer, endpoint

    A shallow embedding of
      - [inference_container/inferencer.py]  (class [Inferencer]), and
      - [inference_container/api_server.py]  ([_prepare_dataframe_for_inference],
        [predict]),
    followed by the properties of the serving subsystem.

    Conventions.
      - Python [int] is [Z]; Python [float] is the kernel's binary64 [float].
      - Timestamps and time deltas are [Z] nanoseconds (pandas' int64 view,
        timezone-naive UTC).
      - A raised exception is a value of [Py.exn]; code that can raise lives in
        the state-and-exception monad [Py.M].
      - Wall-clock measurements ([time.perf_counter], the [timings] dict) are
        left out; the counters they carry that matter here (predictor calls,
        log writes, duplicate skips) are recorded in the event log instead. *)

From Stdlib Require Import ZArith Lia Floats.
From stdpp Require Import gmap strings list pretty.

Local Open Scope Z_scope.

(** ** Python-level plumbing: exceptions and the monad *)

Module Py.

(** Exceptions, by the classes the code distinguishes in its [except]
    clauses.  [Exception cls msg] is any other subclass of [Exception]. *)
Inductive exn : Type :=
| KeyError (msg : string)
| HTTPException (status_code : Z) (detail : string)
| Exception (cls : string) (msg : string).

Inductive result (A : Type) : Type :=
| Ok (a : A)
| Raise (e : exn).

Arguments Ok {A} a.
Arguments Raise {A} e.

(** [exc.__class__.__name__] *)
Definition class_name (e : exn) : string :=
  match e with
  | KeyError _ => "KeyError"
  | HTTPException _ _ => "HTTPException"
  | Exception cls _ => cls
  end.

(** [str(exc)] *)
Definition str_exn (e : exn) : string :=
  match e with
  | KeyError msg => msg
  | HTTPException _ detail => detail
  | Exception _ msg => msg
  end.

(** Computations over a mutable state [S] that may raise.  The state
    survives a raise, as a Python object does. *)
Definition M (S A : Type) : Type := S -> result A * S.

Definition ret {S A} (a : A) : M S A := fun s => (Ok a, s).

Definition bind {S A B} (m : M S A) (k : A -> M S B) : M S B :=
  fun s =>
    match m s with
    | (Ok a, s') => k a s'
    | (Raise e, s') => (Raise e, s')
    end.

Definition raise {S A} (e : exn) : M S A := fun s => (Raise e, s).

Definition get {S} : M S S := fun s => (Ok s, s).

Definition modify {S} (f : S -> S) : M S unit := fun s => (Ok tt, f s).

(** Lift a pure fallible value. *)
Definition lift {S A} (r : result A) : M S A := fun s => (r, s).

(** [try: body except Exception as e: handler e] *)
Definition try_except {S A} (body : M S A) (handler : exn -> M S A) : M S A :=
  fun s =>
    match body s with
    | (Ok a, s') => (Ok a, s')
    | (Raise e, s') => handler e s'
    end.

(** [try: body finally: fin].  The [finally] block runs on every exit
    path; if it raises, its exception replaces the pending outcome. *)
Definition try_finally {S A} (body : M S A) (fin : M S unit) : M S A :=
  fun s =>
    match body s with
    | (r, s') =>
        match fin s' with
        | (Ok _, s'') => (r, s'')
        | (Raise e, s'') => (Raise e, s'')
        end
    end.

(** Sequencing of pure fallible values. *)
Definition and_then {A B} (r : result A) (k : A -> result B) : result B :=
  match r with
  | Ok a => k a
  | Raise e => Raise e
  end.

(** Sequence indexing [l[i]] with Python's negative indices. *)
Definition index {A} (l : list A) (i : Z) : result A :=
  let n := Z.of_nat (length l) in
  let j := if i <? 0 then n + i else i in
  if (0 <=? j) && (j <? n) then
    match l !! Z.to_nat j with
    | Some x => Ok x
    | None => Raise (Exception "IndexError" "index out of range")
    end
  else Raise (Exception "IndexError" "index out of range").

(** [range(n)] *)
Definition range (n : Z) : list Z := Z.of_nat <$> seq 0 (Z.to_nat n).

End Py.

Notation "x <- m ;; k" := (Py.bind m (fun x => k))
  (at level 100, m at next level, right associativity,
   format "'[v' x  <-  m  ;;  '/' k ']'").
Notation "'let*' x ':=' r 'in' k" := (Py.and_then r (fun x => k))
  (at level 10, x name, r at level 100, k at level 200).
Notation "m ;;; k" := (Py.bind m (fun _ => k))
  (at level 100, right associativity,
   format "'[v' m  ;;;  '/' k ']'").

(** ** Tables and arrays *)

Module Frame.
Import Py.

(** A [pandas.DataFrame] with a datetime index: one label per row, the
    column names, and the cells row by row. *)
Record DataFrame : Type := mkDataFrame {
  index : list Z;
  columns : list string;
  values : list (list float)
}.

(** [len(df.index)], also [df.shape[0]] and [len(df)] *)
Definition len (df : DataFrame) : Z := Z.of_nat (length (index df)).

(** [df.empty]: some axis has length zero *)
Definition is_empty (df : DataFrame) : bool :=
  (len df =? 0) || bool_decide (columns df = []).

(** [index.nunique()] *)
Definition nunique (idx : list Z) : Z := Z.of_nat (length (remove_dups idx)).

(** [pd.date_range(start=start, periods=periods, freq=freq)] *)
Definition date_range (start periods freq : Z) : result (list Z) :=
  if periods <? 0
  then Raise (Exception "ValueError" "Number of periods must be non-negative")
  else Ok ((fun k => start + k * freq) <$> range periods).

(** [pd.DataFrame(index=idx, columns=cols)]: every cell is NaN *)
Definition nan_frame (idx : list Z) (cols : list string) : DataFrame :=
  mkDataFrame idx cols (replicate (length idx) (replicate (length cols) nan)).

(** [pd.DataFrame(data, index=idx, columns=cols)] for a 2-D [data]: the
    shape of [data] has to agree with the two axes. *)
Definition shape_ok (data : list (list float)) (idx : list Z) (cols : list string) : bool :=
  bool_decide (length data = length idx)
  && forallb (fun r => bool_decide (length r = length cols)) data.

Definition mk_frame (data : list (list float)) (idx : list Z) (cols : list string)
  : result DataFrame :=
  if shape_ok data idx cols then Ok (mkDataFrame idx cols data)
  else Raise (Exception "ValueError" "Shape of passed values does not match the indices").

(** Position of a column label *)
Fixpoint col_pos (cols : list string) (c : string) : option nat :=
  match cols with
  | [] => None
  | c' :: rest => if bool_decide (c' = c) then Some O else S <$> col_pos rest c
  end.

Definition has_col (df : DataFrame) (c : string) : bool :=
  bool_decide (c ∈ columns df).

(** [df[c] = column]: overwrite the column in place when it exists, append
    it otherwise. *)
Definition set_column (df : DataFrame) (c : string) (column : list float) : DataFrame :=
  match col_pos (columns df) c with
  | Some j =>
      mkDataFrame (index df) (columns df)
        (zip_with (fun r v => <[j:=v]> r) (values df) column)
  | None =>
      mkDataFrame (index df) (columns df ++ [c])
        (zip_with (fun r v => r ++ [v]) (values df) column)
  end.

(** Write [vals] into the cells of one row at the columns [cols]. *)
Fixpoint write_cells (allcols : list string) (r : list float)
    (cols : list string) (vals : list float) : result (list float) :=
  match cols, vals with
  | c :: cols', v :: vals' =>
      match col_pos allcols c with
      | Some j => write_cells allcols (<[j:=v]> r) cols' vals'
      | None => Raise (KeyError c)
      end
  | [], [] => Ok r
  | _, _ => Raise (Exception "ValueError" "shape mismatch in assignment")
  end.

(** [df.loc[label, cols] = vals]: every row carrying [label] is written. *)
Fixpoint loc_rows (allcols : list string) (label : Z) (cols : list string)
    (vals : list float) (idx : list Z) (rows : list (list float))
  : result (list (list float)) :=
  match idx, rows with
  | t :: idx', r :: rows' =>
      match (if bool_decide (t = label) then write_cells allcols r cols vals else Ok r) with
      | Ok r' =>
          match loc_rows allcols label cols vals idx' rows' with
          | Ok rest => Ok (r' :: rest)
          | Raise e => Raise e
          end
      | Raise e => Raise e
      end
  | _, _ => Ok rows
  end.

Definition loc_set (df : DataFrame) (label : Z) (cols : list string) (vals : list float)
  : result DataFrame :=
  match loc_rows (columns df) label cols vals (index df) (values df) with
  | Ok rows => Ok (mkDataFrame (index df) (columns df) rows)
  | Raise e => Raise e
  end.

(** Keep from a row the cells whose column passes [keep]. *)
Fixpoint filter_cells (keep : string -> bool) (cols : list string) (r : list float)
  : list float :=
  match cols, r with
  | c :: cols', v :: r' =>
      if keep c then v :: filter_cells keep cols' r' else filter_cells keep cols' r'
  | _, _ => []
  end.

(** [df.drop(columns=cols)]: a label that is not a column is a [KeyError]. *)
Definition drop_columns (df : DataFrame) (cols : list string) : result DataFrame :=
  match List.filter (fun c => negb (has_col df c)) cols with
  | c :: _ => Raise (KeyError (c +:+ " not found in axis"))
  | [] =>
      let keep c := negb (bool_decide (c ∈ cols)) in
      Ok (mkDataFrame (index df)
            (List.filter keep (columns df))
            (filter_cells keep (columns df) <$> values df))
  end.

(** [df[cols]]: select columns, [KeyError] when one is missing. *)
Definition select (df : DataFrame) (cols : list string) : result DataFrame :=
  match List.filter (fun c => negb (has_col df c)) cols with
  | c :: _ => Raise (KeyError (c +:+ " not in index"))
  | [] =>
      Ok (mkDataFrame (index df) cols
            ((fun r => (fun c => default nan (j ← col_pos (columns df) c; r !! j)) <$> cols)
               <$> values df))
  end.

(** [df.head(n)] *)
Definition head_rows (n : nat) (df : DataFrame) : DataFrame :=
  mkDataFrame (take n (index df)) (columns df) (take n (values df)).

(** [numpy.ndarray] values as they reach the predictor: the 3-D window
    batch and its 2-D reshapes. *)
Inductive ndarray : Type :=
| Arr3 (a : list (list (list float)))
| Arr2 (a : list (list float)).

Definition ndim (a : ndarray) : Z :=
  match a with Arr3 _ => 3 | Arr2 _ => 2 end.

(** [a.shape[0]] *)
Definition shape0 (a : ndarray) : Z :=
  match a with
  | Arr3 x => Z.of_nat (length x)
  | Arr2 x => Z.of_nat (length x)
  end.

(** [a.squeeze(0)] on a 3-D array with a leading singleton dimension *)
Definition squeeze0 (a : ndarray) : result ndarray :=
  match a with
  | Arr3 [w] => Ok (Arr2 w)
  | _ => Raise (Exception "ValueError" "cannot select an axis to squeeze out which has size not equal to one")
  end.

(** [a.reshape(1, -1)] *)
Definition reshape_flat (a : ndarray) : ndarray :=
  match a with
  | Arr3 x => Arr2 [concat (concat x)]
  | Arr2 x => Arr2 [concat x]
  end.

End Frame.

(** ** [inferencer.py] *)

Module Inferencer.
Import Py Frame.

(** [TIME_FEATURES]: the sine columns, then the cosine columns. *)
Definition TIME_FEATURES : list string :=
  [ "min_of_day_sin"; "day_of_week_sin"; "day_of_year_sin";
    "min_of_day_cos"; "day_of_week_cos"; "day_of_year_cos" ].

(** What [self.current_model.predict] is handed, per model class: a window
    array (pytorch), the time-feature frame (prophet), or the
    [{"h", "X", "level": None}] dict (statsforecast). *)
Inductive payload : Type :=
| PArray (a : ndarray)
| PFrame (df : DataFrame)
| PForecast (h : Z) (X : option DataFrame).

(** What a predictor hands back. *)
Inductive pred_out : Type :=
| OArray (a : ndarray)
| OFrame (df : DataFrame)
| ONone.

(** The loaded MLflow pyfunc model. *)
Record Predictor : Type := mkPredictor {
  predict : payload -> result pred_out
}.

(** The fitted sklearn scaler. *)
Record Scaler : Type := mkScaler {
  feature_names_in_ : list string;
  feature_names : list string;
  inverse_transform : DataFrame -> result (list (list float))
}.

(** The JSON object appended to the inference log, one per batch. *)
Record LogRecord : Type := mkLogRecord {
  rec_identifier : string;
  rec_run_id : string;
  rec_model_type : string;
  rec_config_hash : option string;
  rec_status : string;
  rec_overlap : string;              (* overlap metrics and samples, rendered *)
  rec_step_mae : list (Z * float);
  rec_prediction_hash : string;
  rec_rows_predicted : Z
}.

(** A scalar as the response loop of the endpoint meets it in
    [row[col]].  Which one it is depends on the dtype pandas gave the
    frame: a cell of a [float64] frame is a [numpy.float64], which is a
    Python [float]; a cell of any other numeric dtype is a numpy scalar
    that is not; a column of dtype [object] holds the objects
    themselves. *)
Inductive pyobj : Type :=
| PyFloat (x : float)        (* [float], [numpy.float64] *)
| NpScalar (x : float)       (* [numpy.float32], [numpy.int64], ...: [float(val)] is [x] *)
| PyInt (z : Z)              (* [int], [bool] *)
| PyNone                     (* [None], [NaT], [pd.NA] *)
| PyStr (s : string)
| PyObject (repr : string).  (* any other scalar, a [Timestamp] say: [float(val)] is a [TypeError] *)

(** A cell of the response: [None], a float, or the object as it was. *)
Inductive cell_value : Type :=
| CellNull
| CellNumber (x : float)
| CellObject (val : pyobj).

(** The response object of the prediction endpoint. *)
Record Entry : Type := mkEntry {
  entry_ts : string;
  entry_cells : list (string * cell_value)
}.

Record Response : Type := mkResponse {
  status : string;
  identifier : string;
  run_id : option string;
  predictions : list Entry;
  req_id : string;
  cached : bool
}.

(** [last_prediction_response] holds whichever dict was stored last. *)
Inductive last_payload : Type :=
| LastRecord (r : LogRecord)
| LastResponse (r : Response).

(** The attributes of an [Inferencer] instance. *)
Record Inferencer : Type := mkInferencer {
  df : option DataFrame;
  input_seq_len : Z;
  output_seq_len : Z;
  current_model : option Predictor;
  current_scaler : option Scaler;
  current_run_id : option string;     (* absent until a model is loaded *)
  current_run_name : string;
  current_config_hash : option string;
  model_type : string;
  model_class : string;
  params : gmap string string;
  expected_feature_columns : option (list string);   (* set by the loader, if at all *)
  _emitted_prediction_keys : gset (string * string);
  _active_jobs : Z;
  _last_per_step_errors : list (Z * float);
  last_prediction_response : option last_payload;
  simulate_delay_secs : float
}.

(** What the instance prints, calls and writes. *)
Inductive event : Type :=
| Print (ev : string)
| PredictCall (p : payload)
| GetFile (bucket key : string)
| PostFile (bucket key body : string) (ok : bool)
| PublishError (operation : string)
| ProduceMessage (topic : string).

(** The instance together with the world it acts on: standard output and
    collaborator calls in order, the log bucket, and the outcomes the
    gateway will give to the coming [post_file] and [get_file] calls
    ([true] = raises; past the end of a list every call succeeds). *)
Record World : Type := mkWorld {
  self : Inferencer;
  events : list event;
  objects : gmap (string * string) string;
  post_file_faults : list bool;
  get_file_faults : list bool
}.

Definition with_self (f : Inferencer -> Inferencer) (w : World) : World :=
  mkWorld (f (self w)) (events w) (objects w) (post_file_faults w) (get_file_faults w).

Definition emit (e : event) : M World unit :=
  modify (fun w => mkWorld (self w) (events w ++ [e]) (objects w) (post_file_faults w)
                           (get_file_faults w)).

Definition print (ev : string) : M World unit := emit (Print ev).

Definition set_active_jobs (n : Z) (i : Inferencer) : Inferencer :=
  mkInferencer (df i) (input_seq_len i) (output_seq_len i) (current_model i)
    (current_scaler i) (current_run_id i) (current_run_name i)
    (current_config_hash i) (model_type i) (model_class i) (params i)
    (expected_feature_columns i)
    (_emitted_prediction_keys i) n (_last_per_step_errors i)
    (last_prediction_response i) (simulate_delay_secs i).

Definition set_emitted_prediction_keys (k : gset (string * string)) (i : Inferencer)
  : Inferencer :=
  mkInferencer (df i) (input_seq_len i) (output_seq_len i) (current_model i)
    (current_scaler i) (current_run_id i) (current_run_name i)
    (current_config_hash i) (model_type i) (model_class i) (params i)
    (expected_feature_columns i)
    k (_active_jobs i) (_last_per_step_errors i)
    (last_prediction_response i) (simulate_delay_secs i).

Definition set_last_per_step_errors (l : list (Z * float)) (i : Inferencer)
  : Inferencer :=
  mkInferencer (df i) (input_seq_len i) (output_seq_len i) (current_model i)
    (current_scaler i) (current_run_id i) (current_run_name i)
    (current_config_hash i) (model_type i) (model_class i) (params i)
    (expected_feature_columns i)
    (_emitted_prediction_keys i) (_active_jobs i) l
    (last_prediction_response i) (simulate_delay_secs i).

Definition set_last_prediction_response (p : option last_payload) (i : Inferencer)
  : Inferencer :=
  mkInferencer (df i) (input_seq_len i) (output_seq_len i) (current_model i)
    (current_scaler i) (current_run_id i) (current_run_name i)
    (current_config_hash i) (model_type i) (model_class i) (params i)
    (expected_feature_columns i)
    (_emitted_prediction_keys i) (_active_jobs i) (_last_per_step_errors i) p
    (simulate_delay_secs i).

Definition set_simulate_delay_secs (delay : float) (i : Inferencer) : Inferencer :=
  mkInferencer (df i) (input_seq_len i) (output_seq_len i) (current_model i)
    (current_scaler i) (current_run_id i) (current_run_name i)
    (current_config_hash i) (model_type i) (model_class i) (params i)
    (expected_feature_columns i)
    (_emitted_prediction_keys i) (_active_jobs i) (_last_per_step_errors i)
    (last_prediction_response i) delay.

(** [_mark_job_started] *)
Definition _mark_job_started : M World unit :=
  modify (with_self (fun i => set_active_jobs (_active_jobs i + 1) i)).

(** [_mark_job_finished] *)
Definition _mark_job_finished : M World unit :=
  modify (with_self (fun i => set_active_jobs (Z.max 0 (_active_jobs i - 1)) i)).

(** [active_inference_jobs] *)
Definition active_inference_jobs (i : Inferencer) : Z := _active_jobs i.

(** [get_df_copy] *)
Definition get_df_copy (i : Inferencer) : option DataFrame := df i.

(** [get_last_prediction_copy] *)
Definition get_last_prediction_copy (i : Inferencer) : option last_payload :=
  last_prediction_response i.

(** [set_last_prediction] *)
Definition set_last_prediction (p : last_payload) : M World unit :=
  modify (with_self (set_last_prediction_response (Some p))).

(** *** Collaborators

    [data_utils], [client_utils], torch, numpy, pandas' string parsers and
    the process environment are not part of the sources; the executor is
    written against them as a record of parameters. *)

(** [X_eval] as [window_data] returns it: the windows, each of shape
    [(input_seq_len, n_features)], and [X_eval.shape[-1]]. *)
Record Windows : Type := mkWindows {
  X : list (list (list float));
  n_features : Z
}.

Record Deps : Type := mkDeps {
  (* module constants read from the environment at import *)
  SAMPLE_IDX : Z;
  INFERENCE_LENGTH : Z;
  USE_KAFKA : bool;
  (* environment read per call *)
  PREDICT_PROGRESS_INTERVAL : Z;
  PREDICT_MAX_ERROR_STEPS : option Z;      (* [None]: not an integer *)
  INFERENCE_DISABLE_LOG_UPLOAD : bool;
  IDENTIFIER : option string;
  INFERENCE_LOG_BUCKET : string;
  SIMULATE_DELAY_SECS : string;             (* [os.getenv("SIMULATE_DELAY_SECS", "0")] *)
  utc_date : string;                        (* [datetime.utcnow().strftime("%Y%m%d")] *)
  (* data_utils *)
  check_uniform : DataFrame -> result Z;
  time_feature : string -> Z -> float;
  window_data : DataFrame -> list string -> Z -> Z -> result Windows;
  subset_scaler : Scaler -> list string -> list string -> result Scaler;
  (* torch / numpy / pandas / hashlib / json *)
  float32 : float -> float;                 (* [.float()], [dtype=torch.float32] *)
  mean_abs_diff : list float -> list float -> float;
  Timedelta : string -> result Z;           (* [pd.Timedelta(str)] in ns *)
  sha256_16 : DataFrame -> result string;   (* [sha256(str(d.to_dict()))[:16]] *)
  overlap_block : DataFrame -> option DataFrame -> option Scaler -> string;
  json_dumps : LogRecord -> string;
  (* builtins *)
  python_float : string -> option float     (* [float(s)] of a [str]; [None]: [ValueError] *)
}.

(** **** Float helpers for the resampled horizon *)

(** An int64 nanosecond count as a double (round to nearest). *)
Definition float_of_int (z : Z) : float :=
  if z <? 0 then PrimFloat.opp (PrimFloat.of_uint63 (Uint63.of_Z (- z)))
  else PrimFloat.of_uint63 (Uint63.of_Z z).

(** [int(np.ceil(x))] *)
Definition int_ceil (x : float) : result Z :=
  match Prim2SF x with
  | S754_zero _ => Ok 0
  | S754_finite s m e =>
      let n := if s then Z.neg m else Z.pos m in
      if 0 <=? e then Ok (n * 2 ^ e)
      else Ok (- ((- n) / 2 ^ (- e)))
  | S754_infinity _ =>
      Raise (Exception "OverflowError" "cannot convert float infinity to integer")
  | S754_nan =>
      Raise (Exception "ValueError" "cannot convert float NaN to integer")
  end.

Definition int64_ok (z : Z) : bool := (- 2 ^ 63 <? z) && (z <? 2 ^ 63).

(** [int(np.ceil(n * frequency / downsampling))] on two [pd.Timedelta]s:
    the product is again a [Timedelta] (int64 nanoseconds), the quotient
    of two [Timedelta]s is a double. *)
Definition resampled_length (n frequency downsampling : Z) : result Z :=
  if negb (int64_ok (n * frequency))
  then Raise (Exception "OutOfBoundsTimedelta" "Cannot cast to unit='ns' without overflow")
  else if downsampling =? 0
  then Raise (Exception "ZeroDivisionError" "float division")
  else int_ceil (PrimFloat.div (float_of_int (n * frequency)) (float_of_int downsampling)).

(** *** The executor *)

Section Executor.
Variable D : Deps.

(** Modelled from the spec: [data_utils.time_to_feature] is not part of the
    sources.  It derives the cyclical time features from the index and
    appends them; the six columns are [TIME_FEATURES], their values come
    from the collaborator [time_feature]. *)
Definition time_to_feature (d : DataFrame) : DataFrame :=
  foldl (fun acc name => set_column acc name (time_feature D name <$> index acc))
        d TIME_FEATURES.

(** [self.current_model.predict(payload)], counted as one predictor call *)
Definition _timed_predict (p : payload) : M World pred_out :=
  w <- get ;;
  match current_model (self w) with
  | None => raise (Exception "AttributeError" "'NoneType' object has no attribute 'predict'")
  | Some m => emit (PredictCall p) ;;; lift (predict m p)
  end.

(** The predictor call of one block (lines 546-576): as given; on an
    exception, with the leading batch dimension squeezed out; then
    flattened to one row; the original exception if no attempt produced a
    value. *)
Definition predict_with_fallbacks (data_np : ndarray) : M World pred_out :=
  try_except (_timed_predict (PArray data_np))
    (fun e_pred =>
       print "pyfunc_predict_error" ;;;
       r1 <- try_except
               (if (ndim data_np =? 3) && (shape0 data_np =? 1) then
                  alt <- lift (squeeze0 data_np) ;;
                  r <- _timed_predict (PArray alt) ;;
                  print "pyfunc_predict_fallback_squeeze" ;;;
                  ret r
                else ret ONone)
               (fun e2 => print "pyfunc_predict_fallback_squeeze_fail" ;;; ret ONone) ;;
       r2 <- match r1 with
             | ONone =>
                 try_except
                   (r <- _timed_predict (PArray (reshape_flat data_np)) ;;
                    print "pyfunc_predict_fallback_flatten" ;;;
                    ret r)
                   (fun e3 => print "pyfunc_predict_fallback_flatten_fail" ;;; ret ONone)
             | _ => ret r1
             end ;;
       match r2 with
       | ONone => raise e_pred
       | _ => ret r2
       end).

(** [multi_step_pred[:, i, :].flatten()] *)
Definition slice_step (out : pred_out) (i : Z) : result (list float) :=
  match out with
  | OArray (Arr3 a) =>
      foldr (fun b acc =>
               match Py.index b i, acc with
               | Ok row, Ok rest => Ok (row ++ rest)
               | Raise e, _ => Raise e
               | _, Raise e => Raise e
               end) (Ok []) a
  | OArray (Arr2 _) => Raise (Exception "IndexError" "too many indices for array")
  | OFrame _ => Raise (Exception "InvalidIndexError" "(slice, int, slice)")
  | ONone => Raise (Exception "TypeError" "'NoneType' object is not subscriptable")
  end.

(** The variables of the forecasting loop that change from step to step. *)
Record LoopState : Type := mkLoop {
  df_predictions : DataFrame;
  current_sequence : list (list float);
  current_pred : option (list float);      (* unbound before the first block *)
  per_step_errors : list (Z * float)
}.

(** What the loop reads but does not change. *)
Record LoopCtx : Type := mkCtx {
  df_eval : DataFrame;
  FEATURES : list string;
  target_col : string;
  X_eval_tensor : Windows;
  available_future_steps : Z;
  local_inference_length : Z;
  in_len : Z;
  out_len : Z
}.

(** Recursive mode (lines 606-624): the next row of the window is the
    prediction, padded with the last known values of the other features. *)
Definition extend_sequence (feature_dim : Z) (seq : list (list float)) (pred : list float)
  : result (list (list float)) :=
  let pred_dim := Z.of_nat (length pred) in
  if feature_dim <? pred_dim
  then Raise (Exception "RuntimeError" "The expanded size of the tensor must match the existing size")
  else
    match (if pred_dim <? feature_dim
           then match last seq with
                | Some r => Ok (drop (Z.to_nat pred_dim) r)
                | None => Raise (Exception "IndexError" "index -1 is out of bounds for dimension 1 with size 0")
                end
           else Ok []) with
    | Ok exo => Ok (drop 1 seq ++ [(float32 D <$> pred) ++ exo])
    | Raise e => Raise e
    end.

(** One pass of the inner loop [for i in range(steps_to_use)]; the flag
    says whether the pass ended in [break]. *)
Definition block_step (c : LoopCtx) (multi_step_pred : pred_out) (step i : Z)
    (st : LoopState) : M World (LoopState * bool) :=
  let absolute_step := step + i in
  if local_inference_length c <=? absolute_step then ret (st, true) else
  pred <- lift (slice_step multi_step_pred i) ;;
  let n := Z.of_nat (length pred) in
  dfp <- (if n =? Z.of_nat (length (FEATURES c)) then
            label <- lift (Py.index (index (df_predictions st)) absolute_step) ;;
            lift (loc_set (df_predictions st) label (FEATURES c) pred)
          else if n =? 1 then
            label <- lift (Py.index (index (df_predictions st)) absolute_step) ;;
            lift (loc_set (df_predictions st) label [target_col c] pred)
          else
            print "unexpected_pred_dim" ;;; ret (df_predictions st)) ;;
  let next_step_idx := SAMPLE_IDX D + absolute_step + 1 in
  if next_step_idx <? Z.of_nat (length (X (X_eval_tensor c))) then
    window <- lift (Py.index (X (X_eval_tensor c)) next_step_idx) ;;
    ret (mkLoop dfp window (Some pred) (per_step_errors st), false)
  else
    let extension_idx := absolute_step + 1 - available_future_steps c in
    if extension_idx <? len dfp then
      let feature_dim := n_features (X_eval_tensor c) in
      window <- lift (extend_sequence feature_dim (current_sequence st) pred) ;;
      (if negb (n =? feature_dim) then print "recursive_extension_pad" else ret tt) ;;;
      ret (mkLoop dfp window (Some pred) (per_step_errors st), false)
    else
      print "df_predictions extension exhausted" ;;;
      ret (mkLoop dfp (current_sequence st) (Some pred) (per_step_errors st), true).

Fixpoint block_loop (c : LoopCtx) (multi_step_pred : pred_out) (step : Z)
    (todo : list Z) (st : LoopState) : M World LoopState :=
  match todo with
  | [] => ret st
  | i :: rest =>
      r <- block_step c multi_step_pred step i st ;;
      if snd r then ret (fst r) else block_loop c multi_step_pred step rest (fst r)
  end.

(** [df.iloc[i][cols]] *)
Definition iloc_cols (d : DataFrame) (i : Z) (cols : list string) : result (list float) :=
  match Py.index (values d) i with
  | Ok r =>
      foldr (fun c acc =>
               match col_pos (columns d) c, acc with
               | Some j, Ok rest => Ok (default nan (r !! j) :: rest)
               | None, _ => Raise (KeyError c)
               | _, Raise e => Raise e
               end) (Ok []) cols
  | Raise e => Raise e
  end.

(** The per-step error bookkeeping (lines 630-644).  It sits in a
    [try/except Exception: pass], so any failure leaves the list as it
    was. *)
Definition record_step_error (c : LoopCtx) (step : Z) (st : LoopState) : list (Z * float) :=
  if step <? available_future_steps c then
    let actual_idx := SAMPLE_IDX D + in_len c + step in
    if actual_idx <? len (df_eval c) then
      match current_pred st with
      | None => per_step_errors st
      | Some pred =>
          let compare_cols :=
            if Z.of_nat (length pred) =? Z.of_nat (length (FEATURES c)) then FEATURES c
            else if has_col (df_eval c) (target_col c)
                    && has_col (df_predictions st) (target_col c)
                 then [target_col c] else [] in
          match compare_cols with
          | [] => per_step_errors st
          | _ =>
              match iloc_cols (df_eval c) actual_idx compare_cols,
                    iloc_cols (df_predictions st) step compare_cols with
              | Ok actual_row, Ok pred_row =>
                  per_step_errors st ++ [(step, mean_abs_diff D pred_row actual_row)]
              | _, _ => per_step_errors st
              end
          end
      end
    else per_step_errors st
  else per_step_errors st.

(** The body of [for step in range(local_inference_length)].  The closing
    [step += steps_to_use - 1] rebinds a name that [range] overwrites on
    the next pass, so it has no effect on the iteration. *)
Definition step_body (c : LoopCtx) (step : Z) (st : LoopState) : M World LoopState :=
  multi_step_pred <- predict_with_fallbacks (Arr3 [current_sequence st]) ;;
  let steps_to_use := Z.min (out_len c) (local_inference_length c - step) in
  st1 <- block_loop c multi_step_pred step (range steps_to_use) st ;;
  let st2 := mkLoop (df_predictions st1) (current_sequence st1) (current_pred st1)
                    (record_step_error c step st1) in
  (if (0 <? PREDICT_PROGRESS_INTERVAL D)
      && ((step + 1) mod PREDICT_PROGRESS_INTERVAL D =? 0)
   then print "progress" else ret tt) ;;;
  ret st2.

Fixpoint forecast_loop (c : LoopCtx) (steps : list Z) (st : LoopState) : M World LoopState :=
  match steps with
  | [] => ret st
  | step :: rest => st' <- step_body c step st ;; forecast_loop c rest st'
  end.

(** Inverse scaling as the pytorch branch does it (lines 663-688): inside
    [try/except], falling back to the raw frame. *)
Definition inverse_scale_guarded (dfp : DataFrame) : M World DataFrame :=
  w <- get ;;
  match current_scaler (self w) with
  | Some sc =>
      try_except
        (let original_cols :=
           match feature_names_in_ sc with [] => feature_names sc | l => l end in
         sub_scaler <- match original_cols with
                       | [] => ret sc
                       | _ => lift (subset_scaler D sc original_cols (columns dfp))
                       end ;;
         inv <- lift (inverse_transform sub_scaler dfp) ;;
         lift (mk_frame inv (index dfp) (columns dfp)))
        (fun e =>
           print "[Warning] inverse scaling failed; returning raw predictions." ;;;
           ret dfp)
  | None =>
      print "[Warning] current_scaler is None. Returning raw predictions." ;;;
      ret dfp
  end.

(** Inverse scaling as the prophet and statsforecast branches do it
    (lines 729-743 and 796-810): no [try] around the scaler. *)
Definition inverse_scale_plain (dfp : DataFrame) : M World DataFrame :=
  w <- get ;;
  match current_scaler (self w) with
  | Some sc =>
      inv <- lift (inverse_transform sc dfp) ;;
      lift (mk_frame inv (index dfp) (columns dfp))
  | None =>
      print "[Warning] current_scaler is None. Returning raw predictions." ;;;
      ret dfp
  end.

(** [l[:n]] *)
Definition slice_to {A} (l : list A) (n : Z) : list A :=
  if n <? 0 then take (length l - Z.to_nat (- n)) l else take (Z.to_nat n) l.

(** [_perform_pytorch_inference] *)
Definition _perform_pytorch_inference (d dfp0 : DataFrame) (n : Z) : M World DataFrame :=
  w <- get ;;
  let features := List.filter (fun c => negb (bool_decide (c ∈ TIME_FEATURES)))
                              (remove_dups (columns d)) in
  let target := if has_col d "value" then "value" else "down" in
  let dfp1 := if has_col dfp0 target then dfp0
              else set_column dfp0 target (replicate (length (index dfp0)) nan) in
  X_eval <- lift (window_data D d TIME_FEATURES (input_seq_len (self w)) (output_seq_len (self w))) ;;
  let tensor := mkWindows (map (map (map (float32 D))) (X X_eval)) (n_features X_eval) in
  let remaining_real_data := Z.of_nat (length (X X_eval)) - SAMPLE_IDX D in
  let c := mkCtx d features target tensor (Z.min remaining_real_data n) n
                 (input_seq_len (self w)) (output_seq_len (self w)) in
  first <- lift (Py.index (X tensor) (SAMPLE_IDX D)) ;;
  st <- forecast_loop c (range n) (mkLoop dfp1 first None []) ;;
  dfp2 <- lift (drop_columns (df_predictions st) TIME_FEATURES) ;;
  out <- inverse_scale_guarded dfp2 ;;
  print "PyTorch Inference completed" ;;;
  print "inference_shape_summary" ;;;
  modify (with_self (set_last_per_step_errors
            match PREDICT_MAX_ERROR_STEPS D with
            | Some k => slice_to (per_step_errors st) k
            | None => per_step_errors st
            end)) ;;;
  ret out.

(** A predictor of the prophet or statsforecast class answers with a
    frame; anything else fails at the first attribute access. *)
Definition as_frame (o : pred_out) : result DataFrame :=
  match o with
  | OFrame f => Ok f
  | OArray _ => Raise (Exception "AttributeError" "'numpy.ndarray' object has no attribute 'index'")
  | ONone => Raise (Exception "AttributeError" "'NoneType' object has no attribute 'index'")
  end.

(** [_perform_prophet_inference] *)
Definition _perform_prophet_inference (d dfp0 : DataFrame) (n : Z) : M World DataFrame :=
  o <- _timed_predict (PFrame dfp0) ;;
  dfp <- lift (as_frame o) ;;
  out <- inverse_scale_plain dfp ;;
  print "Prophet Inference completed" ;;;
  ret out.

(** [self.params[key]] *)
Definition param (key : string) : M World string :=
  w <- get ;;
  match params (self w) !! key with
  | Some v => ret v
  | None => raise (KeyError key)
  end.

(** [_perform_statsforecast_inference].  [TIME_FEATURES] is a non-empty
    constant, so the [if TIME_FEATURES] tests take their first branch. *)
Definition _perform_statsforecast_inference (d dfp0 : DataFrame) (n : Z) : M World DataFrame :=
  ds <- param "downsampling" ;;
  no_resampling <- (if bool_decide (ds = "0") then ret true
                    else fr <- param "frequency" ;; ret (bool_decide (ds = fr))) ;;
  input_dict <-
    (if no_resampling : bool then
       exog_df <- lift (select dfp0 TIME_FEATURES) ;;
       ret (PForecast (INFERENCE_LENGTH D) (Some exog_df))
     else
       ds' <- param "downsampling" ;;
       downsampling <- lift (Timedelta D ds') ;;
       fr' <- param "frequency" ;;
       frequency <- lift (Timedelta D fr') ;;
       inf_len <- lift (resampled_length n frequency downsampling) ;;
       start <- lift (Py.index (index d) (SAMPLE_IDX D)) ;;
       idx <- lift (date_range start inf_len frequency) ;;
       let dfp := time_to_feature (nan_frame idx (columns d)) in
       exog_df <- lift (select dfp TIME_FEATURES) ;;
       ret (PForecast inf_len (Some exog_df))) ;;
  o <- _timed_predict input_dict ;;
  dfp <- lift (as_frame o) ;;
  out <- inverse_scale_plain dfp ;;
  print "StatsForecast Inference completed" ;;;
  ret out.

(** *** The simulated delay *)

(** [_read_simulated_delay]; the last line is [max(0.0, value)], which
    answers [0.0] unless [value > 0.0]. *)
Definition _read_simulated_delay : M World float :=
  match python_float D (SIMULATE_DELAY_SECS D) with
  | None =>
      print "Invalid SIMULATE_DELAY_SECS value; defaulting to 0" ;;;
      ret 0%float
  | Some value => ret (if PrimFloat.ltb 0 value then value else 0%float)
  end.

(** [simulate_delay_if_enabled] up to its [await asyncio.sleep(delay)]:
    the answer tells whether the coroutine goes to sleep there. *)
Definition simulate_delay_if_enabled : M World bool :=
  delay <- _read_simulated_delay ;;
  modify (with_self (set_simulate_delay_secs delay)) ;;;
  if PrimFloat.leb delay 0 then ret false
  else
    print "Simulating inference delay" ;;;
    ret true.

(** *** The log sink *)

(** Modelled from the spec: [client_utils.get_file] and
    [client_utils.post_file] are not part of the sources.  The log sink
    keeps one object per (bucket, key); [get_file] answers with the stored
    object, or nothing when there is none, unless the gateway fails this
    call, which raises. *)
Definition get_file (bucket key : string) : M World (option string) :=
  fun w =>
    match get_file_faults w with
    | true :: rest =>
        (Raise (Exception "ConnectionError" "gateway unreachable"),
         mkWorld (self w) (events w ++ [GetFile bucket key]) (objects w)
                 (post_file_faults w) rest)
    | _ :: rest =>
        (Ok (objects w !! (bucket, key)),
         mkWorld (self w) (events w ++ [GetFile bucket key]) (objects w)
                 (post_file_faults w) rest)
    | [] =>
        (Ok (objects w !! (bucket, key)),
         mkWorld (self w) (events w ++ [GetFile bucket key]) (objects w)
                 (post_file_faults w) [])
    end.

(** Modelled from the spec: [post_file] replaces the stored object, unless
    the gateway fails this call, which raises and leaves the object
    alone. *)
Definition post_file (bucket key body : string) : M World unit :=
  fun w =>
    match post_file_faults w with
    | true :: rest =>
        (Raise (Exception "ConnectionError" "gateway unreachable"),
         mkWorld (self w) (events w ++ [PostFile bucket key body false]) (objects w) rest
                 (get_file_faults w))
    | _ :: rest =>
        (Ok tt,
         mkWorld (self w) (events w ++ [PostFile bucket key body true])
                 (<[(bucket, key) := body]> (objects w)) rest (get_file_faults w))
    | [] =>
        (Ok tt,
         mkWorld (self w) (events w ++ [PostFile bucket key body true])
                 (<[(bucket, key) := body]> (objects w)) [] (get_file_faults w))
    end.

(** The line feed, code 10 *)
Definition newline : string :=
  String (Ascii.Ascii false true false true false false false false) EmptyString.

(** The append loop (lines 978-1032): fetch, append one line, re-upload;
    [break] on the first success, at most [max_retries = 3] attempts. *)
Fixpoint upload_attempts (bucket object_key line : string) (attempts : list Z)
  : M World unit :=
  match attempts with
  | [] => ret tt
  | attempt :: rest =>
      written <-
        try_except
          (existing_obj <- try_except (get_file bucket object_key) (fun _ => ret None) ;;
           let existing_bytes := default "" existing_obj in
           post_file bucket object_key (existing_bytes +:+ line) ;;;
           print "inference_log_write" ;;;
           ret true)
          (fun e =>
             (if attempt =? 3
              then (if USE_KAFKA D then emit (PublishError "Inference Log Write") else ret tt)
              else print "[Warning] inference JSONL log write attempt failed") ;;;
             ret false) ;;
      if written : bool then ret tt else upload_attempts bucket object_key line rest
  end.

Definition nonempty (s : string) : bool := negb (bool_decide (s = "")).

(** [_save_and_publish_predictions] *)
Definition _save_and_publish_predictions (df_transformed_predictions : DataFrame)
    (d : option DataFrame) : M World unit :=
  if INFERENCE_DISABLE_LOG_UPLOAD D then ret tt else
  w <- get ;;
  let ident := match IDENTIFIER D with
               | Some s => if nonempty s then s else "default"
               | None => "default"
               end in
  let bucket := INFERENCE_LOG_BUCKET D in
  let object_key := ident +:+ "/" +:+ utc_date D +:+ "/results.jsonl" in
  let overlap := overlap_block D df_transformed_predictions d (current_scaler (self w)) in
  let pred_hash := match sha256_16 D (head_rows 3 df_transformed_predictions) with
                   | Ok h => h
                   | Raise _ => ""
                   end in
  let run := default "" (current_run_id (self w)) in
  let pred_key := (run, pred_hash) in
  if nonempty run && nonempty pred_hash
     && bool_decide (pred_key ∈ _emitted_prediction_keys (self w))
  then
    print "duplicate_prediction_skip" ;;;
    ret tt
  else
    (if nonempty run && nonempty pred_hash
     then modify (with_self (fun i =>
            set_emitted_prediction_keys ({[ pred_key ]} ∪ _emitted_prediction_keys i) i))
     else ret tt) ;;;
    let record :=
      mkLogRecord ident run
        (if nonempty (model_type (self w)) then model_type (self w)
         else current_run_name (self w))
        (current_config_hash (self w)) "SUCCESS" overlap
        (_last_per_step_errors (self w)) pred_hash
        (len df_transformed_predictions) in
    let line := json_dumps D record +:+ newline in
    upload_attempts bucket object_key line [1; 2; 3] ;;;
    if USE_KAFKA D then
      emit (ProduceMessage "Inference")
    else
      set_last_prediction (LastRecord record).

(** *** [perform_inference] *)

(** The guarded part of [perform_inference] (the [try] block, lines
    407-494). *)
Definition run_inference (d : DataFrame) (n : Z) : M World (option DataFrame) :=
  w <- get ;;
  let total_rows := len d in
  let min_needed := input_seq_len (self w) + output_seq_len (self w) in
  if (0 <? input_seq_len (self w)) && (total_rows <? min_needed) then
    print "insufficient_rows" ;;;
    ret None
  else
    let required_index := SAMPLE_IDX D + input_seq_len (self w) in
    if total_rows =? 0 then
      print "[Inferencer] Empty dataframe passed to inference; aborting." ;;;
      ret None
    else
      adjusted_start_pos <-
        (if total_rows <=? required_index
         then print "adjust_start_index" ;;; ret (total_rows - 1)
         else ret required_index) ;;
      print "[DEBUG] rows, first timestamps, unique timestamps" ;;;
      timedelta <- lift (check_uniform D d) ;;
      start_timestamp <- lift (Py.index (index d) adjusted_start_pos) ;;
      idx <- lift (date_range start_timestamp n timedelta) ;;
      let dfp := time_to_feature (nan_frame idx (columns d)) in
      out <-
        (if bool_decide (model_class (self w) = "pytorch")
         then _perform_pytorch_inference d dfp n
         else if bool_decide (model_class (self w) = "prophet")
         then _perform_prophet_inference d dfp n
         else if bool_decide (model_class (self w) = "statsforecast")
         then _perform_statsforecast_inference d dfp n
         else raise (Exception "ValueError" "Unsupported model class")) ;;
      _save_and_publish_predictions out (Some d) ;;;
      print "predict_inference_end" ;;;
      print "inference_stage_timings" ;;;
      ret (Some out).

(** [perform_inference]: [None] is the answer when there is no data, no
    model, or not enough rows. *)
Definition perform_inference (df_eval : option DataFrame) (inference_length : option Z)
  : M World (option DataFrame) :=
  w <- get ;;
  match (match df_eval with Some d => Some d | None => df (self w) end) with
  | None =>
      print "No data provided for inference and service dataframe is empty." ;;;
      ret None
  | Some d =>
      match current_model (self w) with
      | None =>
          print "[INFO] Model not loaded yet. Deferring inference (no DLQ)." ;;;
          ret None
      | Some _ =>
          let local_inference_length := default (INFERENCE_LENGTH D) inference_length in
          _mark_job_started ;;;
          print "predict_inference_start" ;;;
          try_finally (run_inference d local_inference_length) _mark_job_finished
      end
  end.

End Executor.

End Inferencer.

(** ** [api_server.py] *)

Module ApiServer.
Import Py Frame Inferencer.

(** A JSON value inside a [data] array *)
Inductive json : Type :=
| JNum (x : float)
| JStr (s : string)
| JBool (b : bool)
| JNull.

(** [PredictRequest] *)
Record PredictRequest : Type := mkPredictRequest {
  inference_length : option Z;
  data : option (list (string * list json));
  index_col : option string
}.

Definition TIME_FEATURE_COLUMNS : list string :=
  [ "min_of_day_sin"; "min_of_day_cos"; "day_of_week_sin";
    "day_of_week_cos"; "day_of_year_sin"; "day_of_year_cos" ].

(** *** String helpers *)

(** [sorted(strings)], by code point *)
Fixpoint insert_sorted (s : string) (l : list string) : list string :=
  match l with
  | [] => [s]
  | t :: rest => if String.leb s t then s :: l else t :: insert_sorted s rest
  end.

Definition sorted (l : list string) : list string := foldr insert_sorted [] l.

(** [sep.join(parts)] *)
Fixpoint join (sep : string) (parts : list string) : string :=
  match parts with
  | [] => ""
  | [p] => p
  | p :: rest => p +:+ sep +:+ join sep rest
  end.

Definition chars (s : string) : list Ascii.ascii := String.list_ascii_of_string s.
Definition text (l : list Ascii.ascii) : string := String.string_of_list_ascii l.

Definition code (c : Ascii.ascii) : N := Ascii.N_of_ascii c.

(** The ASCII characters [str.strip()] removes *)
Definition is_space (c : Ascii.ascii) : bool :=
  ((9 <=? code c) && (code c <=? 13) || (28 <=? code c) && (code c <=? 32))%N.

Definition is_quote (c : Ascii.ascii) : bool :=
  ((code c =? 39) || (code c =? 34))%N.

Definition is_space_or_apostrophe (c : Ascii.ascii) : bool :=
  ((code c =? 32) || (code c =? 39))%N.

Fixpoint drop_while {A} (p : A -> bool) (l : list A) : list A :=
  match l with
  | [] => []
  | x :: rest => if p x then drop_while p rest else l
  end.

(** [s.strip(chars)] on character lists *)
Definition strip (p : Ascii.ascii -> bool) (l : list Ascii.ascii) : list Ascii.ascii :=
  reverse (drop_while p (reverse (drop_while p l))).

(** [s.split(",")] *)
Fixpoint split_on (sep : N) (l : list Ascii.ascii) (cur : list Ascii.ascii)
  : list (list Ascii.ascii) :=
  match l with
  | [] => [reverse cur]
  | c :: rest =>
      if (code c =? sep)%N then reverse cur :: split_on sep rest []
      else split_on sep rest (c :: cur)
  end.

(** [s.find(c, start)] for a one-character needle; [None] is [-1]. *)
Fixpoint find_from (needle : N) (l : list Ascii.ascii) (pos start : nat) : option nat :=
  match l with
  | [] => None
  | c :: rest =>
      if bool_decide (start ≤ pos)%nat && (code c =? needle)%N then Some pos
      else find_from needle rest (S pos) start
  end.

Fixpoint starts_with (p l : list Ascii.ascii) : bool :=
  match p, l with
  | [], _ => true
  | a :: p', b :: l' => (code a =? code b)%N && starts_with p' l'
  | _ :: _, [] => false
  end.

(** [s.replace(old, "")] for a non-empty [old]; the fuel is the length of
    [s], enough for every character to be consumed. *)
Fixpoint remove_all (fuel : nat) (old l : list Ascii.ascii) : list Ascii.ascii :=
  match fuel with
  | O => l
  | S fuel' =>
      match l with
      | [] => []
      | c :: rest =>
          if starts_with old l then remove_all fuel' old (drop (length old) l)
          else c :: remove_all fuel' old rest
      end
  end.

(** [_format_missing_columns_error] on the argument of the [KeyError] *)
Definition _format_missing_columns_error (raw : string) : string :=
  let l := chars raw in
  let bracketed :=
    match find_from 91 l 0 0 with
    | Some start =>
        match find_from 93 l 0 (start + 1) with
        | Some stop =>
            let cols_fragment := take (stop - (start + 1)) (drop (start + 1) l) in
            (fun col => text (strip is_quote (strip is_space col)))
              <$> List.filter (fun col => negb (bool_decide (strip is_space col = [])))
                              (split_on 44 cols_fragment [])
        | None => []
        end
    | None => []
    end in
  match bracketed with
  | _ :: _ => join ", " bracketed
  | [] =>
      let cleaned :=
        strip is_space_or_apostrophe
              (remove_all (length l) (chars "not found in axis") l) in
      match cleaned with
      | _ :: _ => text cleaned
      | [] => "'" +:+ raw +:+ "'"
      end
  end.

(** [_expected_feature_columns]: the base feature columns required for
    inference, time features excluded.  The Python value is a set; every
    use sorts it first, so it is kept here as its sorted list. *)
Definition _expected_feature_columns (service : option Inferencer) : list string :=
  match service with
  | None => []
  | Some svc =>
      let from_df := match df svc with
                     | Some base_df => if is_empty base_df then [] else columns base_df
                     | None => []
                     end in
      let extra := default [] (expected_feature_columns svc) in
      sorted (List.filter (fun col => negb (bool_decide (col ∈ TIME_FEATURE_COLUMNS)))
                          (remove_dups (from_df ++ extra)))
  end.

(** *** Collaborators of the endpoint *)

(** The request table while its cells are still JSON values: the index
    (UTC nanoseconds once assigned) and the columns in payload order. *)
Record RawFrame : Type := mkRawFrame {
  raw_index : list Z;
  raw_columns : list (string * list json)
}.

Record ApiDeps : Type := mkApiDeps {
  ENABLE_PREDICT_CACHE : bool;              (* [_cache_enabled()] *)
  PREDICT_FORCE_OK : bool;
  (* pandas *)
  to_datetime : list json -> result (list (option Z));   (* [errors="coerce"], [None] is NaT *)
  to_numeric : list json -> result (list float);         (* [errors="raise"] *)
  str_timestamp : Z -> string;                           (* [str(Timestamp)] *)
  isoformat : Z -> string;                               (* [Timestamp.isoformat()] *)
  row_cell : DataFrame -> string -> float -> pyobj;      (* [row[col]] for the cell the
                                                            table holds as this double *)
  (* data_utils *)
  strip_timezones : RawFrame -> result RawFrame
}.

Section Endpoint.
Variable D : Deps.
Variable A : ApiDeps.

(** *** [_prepare_dataframe_for_inference] *)

Definition bad_request {T} (detail : string) : result T := Raise (HTTPException 400 detail).

(** [pd.DataFrame(data)]: the arrays must agree in length; the answer is
    the number of rows. *)
Definition frame_rows (cols : list (string * list json)) : result nat :=
  match cols with
  | [] => Ok O
  | (_, a) :: rest =>
      if forallb (fun p => bool_decide (length (snd p) = length a)) rest
      then Ok (length a)
      else Raise (Exception "ValueError" "All arrays must be of the same length")
  end.

Definition column_names (cols : list (string * list json)) : list string := fst <$> cols.

Fixpoint get_column (cols : list (string * list json)) (c : string) : option (list json) :=
  match cols with
  | [] => None
  | (c', a) :: rest => if bool_decide (c' = c) then Some a else get_column rest c
  end.

Definition drop_column (cols : list (string * list json)) (c : string)
  : list (string * list json) :=
  List.filter (fun p => negb (bool_decide (fst p = c))) cols.

(** The candidates for the timestamp column: [index_col], then the fixed
    priority list. *)
Definition index_candidates (req_obj : PredictRequest) (cols : list (string * list json))
  : list string :=
  let explicit := match index_col req_obj with
                  | Some c => if nonempty c then [c] else []
                  | None => []
                  end in
  explicit ++
  List.filter (fun c => bool_decide (c ∈ column_names cols) && negb (bool_decide (c ∈ explicit)))
              ["ts"; "timestamp"; "time"; "date"].

(** The loop over the candidates (lines 496-525): the first candidate that
    is a column and parses becomes the index. *)
Fixpoint assign_index (cols : list (string * list json)) (candidates : list string)
  : result (option RawFrame) :=
  match candidates with
  | [] => Ok None
  | candidate :: rest =>
      match get_column cols candidate with
      | None => assign_index cols rest
      | Some col =>
          match to_datetime A col with
          | Raise _ => assign_index cols rest
          | Ok idx =>
              if existsb (fun t => bool_decide (t = None)) idx
              then bad_request ("Column '" +:+ candidate +:+ "' contains invalid timestamps")
              else Ok (Some (mkRawFrame (omap id idx) (drop_column cols candidate)))
          end
      end
  end.

(** [df.sort_index()]: the row positions in ascending timestamp order
    (ties keep their payload order). *)
Fixpoint insert_by_ts (x : Z * nat) (l : list (Z * nat)) : list (Z * nat) :=
  match l with
  | [] => [x]
  | y :: rest => if fst x <=? fst y then x :: l else y :: insert_by_ts x rest
  end.

Definition argsort (idx : list Z) : list nat :=
  snd <$> foldr insert_by_ts [] (zip idx (seq 0 (length idx))).

Definition take_rows {T} (perm : list nat) (col : list T) : list T :=
  omap (fun i => col !! i) perm.

Definition sort_index (r : RawFrame) : RawFrame :=
  let perm := argsort (raw_index r) in
  mkRawFrame (take_rows perm (raw_index r))
             ((fun p => (fst p, take_rows perm (snd p))) <$> raw_columns r).

(** [df.empty] on the request table *)
Definition raw_empty (r : RawFrame) : bool :=
  bool_decide (raw_index r = []) || bool_decide (raw_columns r = []).

(** Lines 470-539: from the payload to the sorted, timezone-normalised
    table. *)
Definition normalize_request (req_obj : PredictRequest) : result RawFrame :=
  match data req_obj with
  | None | Some [] => bad_request "Request payload must include a non-empty 'data' object"
  | Some cols =>
      match frame_rows cols with
      | Raise exc => bad_request ("Failed to interpret 'data' payload: " +:+ str_exn exc)
      | Ok O => bad_request "Request data must include at least one row"
      | Ok (S _) =>
          match index_candidates req_obj cols with
          | [] => bad_request "Request must include a timestamp column (index_col or ts/time/timestamp)"
          | candidates =>
              let* assigned := assign_index cols candidates in
              match assigned with
              | None => bad_request "Unable to determine a valid datetime index from request data"
              | Some df_tmp =>
                  let* stripped := strip_timezones A (sort_index df_tmp) in
                  if raw_empty stripped
                  then bad_request "Request data must include at least one row after normalization"
                  else Ok stripped
              end
          end
      end
  end.

(** The numeric table of the converted columns *)
Definition frame_of_columns (idx : list Z) (cols : list (string * list float)) : DataFrame :=
  mkDataFrame idx (fst <$> cols)
    ((fun i => (fun p => default nan (snd p !! i)) <$> cols) <$> seq 0 (length idx)).

(** Lines 541-574: the duplicate-timestamp guard, numeric coercion, the
    required columns, the time features. *)
Definition validate_normalized (df_tmp : RawFrame) (service : option Inferencer)
  : result (DataFrame * list string) :=
  let unique_timestamps := nunique (raw_index df_tmp) in
  let total_rows := Z.of_nat (length (raw_index df_tmp)) in
  if (unique_timestamps =? 1) && (1 <? total_rows) then
    let* first := Py.index (raw_index df_tmp) 0 in
    bad_request ("All " +:+ pretty total_rows +:+ " timestamps are identical ("
                 +:+ str_timestamp A first
                 +:+ "). Expected unique timestamps for time-series inference.")
  else
    let converted := (fun p => (fst p, to_numeric A (snd p))) <$> raw_columns df_tmp in
    let conversion_failures :=
      omap (fun p => match snd p with Raise _ => Some (fst p) | Ok _ => None end) converted in
    match conversion_failures with
    | _ :: _ =>
        bad_request ("Columns contain non-numeric values: "
                     +:+ join ", " (sorted conversion_failures))
    | [] =>
        let numeric :=
          omap (fun p => match snd p with Ok v => Some (fst p, v) | Raise _ => None end)
               converted in
        let required_base := _expected_feature_columns service in
        let missing_base :=
          List.filter (fun col => negb (bool_decide (col ∈ column_names (raw_columns df_tmp))))
                      required_base in
        match missing_base with
        | _ :: _ =>
            bad_request ("Missing required feature columns: "
                         +:+ join ", " (sorted missing_base))
        | [] =>
            Ok (time_to_feature D (frame_of_columns (raw_index df_tmp) numeric),
                required_base)
        end
    end.

(** [_prepare_dataframe_for_inference] *)
Definition _prepare_dataframe_for_inference (req_obj : PredictRequest)
    (service : option Inferencer) : result (DataFrame * list string) :=
  let* df_tmp := normalize_request req_obj in
  validate_normalized df_tmp service.

End Endpoint.

(** *** Endpoint state *)

(** The counters of [queue_metrics]; the duration aggregates are left
    out, their sample counters kept. *)
Record QueueMetrics : Type := mkQueueMetrics {
  enqueued : Z;
  active : Z;
  completed : Z;
  served_cached : Z;
  wait_samples : Z;
  exec_samples : Z;
  prep_samples : Z;
  error_500_total : Z;
  last_error_type : option string
}.

Inductive api_event : Type :=
| QueueLog (ev : string)
| Acquire
| Release.

(** The process: the shared [Inferencer] and its world, whether
    [from main import inferencer] succeeds, the free slots of
    [_CONCURRENCY_SEMAPHORE], the metrics, and the endpoint's own log. *)
Record Server : Type := mkServer {
  world : World;
  inferencer_importable : bool;
  semaphore : Z;
  queue_metrics : QueueMetrics;
  api_log : list api_event
}.

Definition with_metrics (f : QueueMetrics -> QueueMetrics) : M Server unit :=
  modify (fun s => mkServer (world s) (inferencer_importable s) (semaphore s)
                            (f (queue_metrics s)) (api_log s)).

Definition _queue_log (ev : string) : M Server unit :=
  modify (fun s => mkServer (world s) (inferencer_importable s) (semaphore s)
                            (queue_metrics s) (api_log s ++ [QueueLog ev])).

(** Run a method of the shared instance. *)
Definition on_inferencer {T} (m : M World T) : M Server T :=
  fun s =>
    match m (world s) with
    | (r, w') => (r, mkServer w' (inferencer_importable s) (semaphore s)
                              (queue_metrics s) (api_log s))
    end.

(** [_get_inferencer()], with the [try/except] of the call sites *)
Definition get_service (s : Server) : option Inferencer :=
  if inferencer_importable s then Some (self (world s)) else None.

Definition count_cached (q : QueueMetrics) : QueueMetrics :=
  mkQueueMetrics (enqueued q) (active q) (completed q) (served_cached q + 1)
    (wait_samples q) (exec_samples q) (prep_samples q) (error_500_total q)
    (last_error_type q).

Definition count_prep (q : QueueMetrics) : QueueMetrics :=
  mkQueueMetrics (enqueued q) (active q) (completed q) (served_cached q)
    (wait_samples q) (exec_samples q) (prep_samples q + 1) (error_500_total q)
    (last_error_type q).

Definition count_enqueued (q : QueueMetrics) : QueueMetrics :=
  mkQueueMetrics (enqueued q + 1) (active q) (completed q) (served_cached q)
    (wait_samples q) (exec_samples q) (prep_samples q) (error_500_total q)
    (last_error_type q).

(** Lines 906-914: [active += 1] and the wait sample *)
Definition count_active (q : QueueMetrics) : QueueMetrics :=
  mkQueueMetrics (enqueued q) (active q + 1) (completed q) (served_cached q)
    (wait_samples q + 1) (exec_samples q) (prep_samples q) (error_500_total q)
    (last_error_type q).

(** Lines 996-997: [active = max(0, active - 1)] *)
Definition uncount_active (q : QueueMetrics) : QueueMetrics :=
  mkQueueMetrics (enqueued q) (Z.max 0 (active q - 1)) (completed q) (served_cached q)
    (wait_samples q) (exec_samples q) (prep_samples q) (error_500_total q)
    (last_error_type q).

Definition count_error_500 (kind : string) (q : QueueMetrics) : QueueMetrics :=
  mkQueueMetrics (enqueued q) (active q) (completed q) (served_cached q)
    (wait_samples q) (exec_samples q) (prep_samples q) (error_500_total q + 1)
    (Some kind).

Definition note_error (kind : string) (q : QueueMetrics) : QueueMetrics :=
  mkQueueMetrics (enqueued q) (active q) (completed q) (served_cached q)
    (wait_samples q) (exec_samples q) (prep_samples q) (error_500_total q)
    (Some kind).

Definition count_completed (q : QueueMetrics) : QueueMetrics :=
  mkQueueMetrics (enqueued q) (active q) (completed q + 1) (served_cached q)
    (wait_samples q) (exec_samples q + 1) (prep_samples q) (error_500_total q)
    None.

(** [await semaphore.acquire()]: takes a free slot, or has to wait. *)
Definition acquire (s : Server) : option Server :=
  if 0 <? semaphore s
  then Some (mkServer (world s) (inferencer_importable s) (semaphore s - 1)
                      (queue_metrics s) (api_log s ++ [Acquire]))
  else None.

(** [semaphore.release()] *)
Definition release : M Server unit :=
  modify (fun s => mkServer (world s) (inferencer_importable s) (semaphore s + 1)
                            (queue_metrics s) (api_log s ++ [Release])).

(** *** [predict] *)

(** What the handler returns with status 200. *)
Inductive reply : Type :=
| Fresh (r : Response)
| Cached (p : last_payload) (req_id : string)      (* status SUCCESS_CACHED *)
| ForcedOk (identifier : string).                  (* PREDICT_FORCE_OK *)

(** Where a request stands when it reaches [await semaphore.acquire()]. *)
Inductive before_gate : Type :=
| Answered (r : reply)
| Queued (df_for_inference : DataFrame) (effective_inference_length : Z).

Section Predict.
Variable D : Deps.
Variable A : ApiDeps.

Definition api_identifier : string :=
  match IDENTIFIER D with
  | Some s => if nonempty s then s else "default"
  | None => "default"
  end.

Definition falsy_data (req : PredictRequest) : bool :=
  match data req with
  | None | Some [] => true
  | Some (_ :: _) => false
  end.

(** Lines 826-845: the direct cache short-circuit *)
Definition cache_lookup (req : option PredictRequest) (inference_length : option Z)
    (s : Server) : option last_payload :=
  if ENABLE_PREDICT_CACHE A
     && match req with
        | None => true
        | Some r => falsy_data r
                    && bool_decide (inference_length = None)
                    && bool_decide (ApiServer.inference_length r = None)
        end
  then match get_service s with
       | Some inf_cached => get_last_prediction_copy inf_cached
       | None => None
       end
  else None.

(** Lines 851-900: preparation, up to the point where the request is
    counted as enqueued. *)
Definition prepare_request (req : option PredictRequest) (inference_length : option Z)
  : M Server before_gate :=
  s <- get ;;
  let service := get_service s in
  prepared <-
    match req with
    | Some r =>
        if falsy_data r then ret None
        else match _prepare_dataframe_for_inference D A r service with
             | Ok p => ret (Some p)
             | Raise (HTTPException c d) => raise (HTTPException c d)
             | Raise exc =>
                 raise (HTTPException 400 ("Failed to parse provided data: " +:+ str_exn exc))
             end
    | None => ret None
    end ;;
  let body_inference_length :=
    match req with Some r => ApiServer.inference_length r | None => None end in
  let effective_inference_length :=
    match inference_length with
    | Some n => n
    | None => default 1 body_inference_length
    end in
  df_for_inference <-
    match prepared with
    | Some p => ret (fst p)
    | None =>
        match service with
        | None => raise (HTTPException 400 "No cached dataframe available and no data provided")
        | Some svc =>
            match get_df_copy svc with
            | Some d => ret d
            | None => raise (HTTPException 400 "No cached dataframe available and no data provided")
            end
        end
    end ;;
  let required_base_columns := match prepared with Some p => snd p | None => [] end in
  match List.filter (fun col => negb (has_col df_for_inference col)) required_base_columns with
  | _ :: _ as missing_base =>
      raise (HTTPException 400 ("Missing required feature columns: "
                                +:+ join ", " (sorted missing_base)))
  | [] =>
      with_metrics count_prep ;;;
      with_metrics count_enqueued ;;;
      ret (Queued df_for_inference effective_inference_length)
  end.

(** Lines 810-900: everything the handler does before it asks for a
    slot. *)
Definition predict_before_gate (req : option PredictRequest) (inference_length : option Z)
    (req_id : string) : M Server before_gate :=
  s <- get ;;
  match cache_lookup req inference_length s with
  | Some last_response =>
      with_metrics count_cached ;;;
      _queue_log "predict_served_cached_direct" ;;;
      ret (Answered (Cached last_response req_id))
  | None =>
      if PREDICT_FORCE_OK A then
        _queue_log "predict_force_ok" ;;;
        ret (Answered (ForcedOk api_identifier))
      else prepare_request req inference_length
  end.

(** [isinstance(val, float)], [isinstance(val, (int, float))] *)
Definition isinstance_float (val : pyobj) : bool :=
  match val with PyFloat _ => true | _ => false end.

Definition isinstance_int_or_float (val : pyobj) : bool :=
  match val with PyFloat _ | PyInt _ => true | _ => false end.

(** [math.isnan(val)], [math.isinf(val)] on a [float] *)
Definition math_isnan (val : pyobj) : bool :=
  match val with PyFloat x => PrimFloat.is_nan x | _ => false end.

Definition math_isinf (val : pyobj) : bool :=
  match val with PyFloat x => PrimFloat.is_infinity x | _ => false end.

(** [pd.isna(val)] on a scalar *)
Definition pd_isna (val : pyobj) : bool :=
  match val with
  | PyNone => true
  | PyFloat x | NpScalar x => PrimFloat.is_nan x
  | PyInt _ | PyStr _ | PyObject _ => false
  end.

(** [float(z)] of an [int]: the nearest double, [OverflowError] when
    there is none *)
Definition float_of_pyint (z : Z) : option float :=
  let x := SF2Prim (binary_normalize prec emax z 0 false) in
  if PrimFloat.is_infinity x then None else Some x.

(** [float(val)] *)
Definition py_float (val : pyobj) : result float :=
  match val with
  | PyFloat x | NpScalar x => Ok x
  | PyInt z =>
      match float_of_pyint z with
      | Some x => Ok x
      | None => Raise (Exception "OverflowError" "int too large to convert to float")
      end
  | PyStr s =>
      match python_float D s with
      | Some x => Ok x
      | None => Raise (Exception "ValueError" "could not convert string to float")
      end
  | PyNone | PyObject _ =>
      Raise (Exception "TypeError" "float() argument must be a string or a real number")
  end.

(** Lines 1019-1034: one cell of a prediction row *)
Definition json_cell (val : pyobj) : cell_value :=
  let guarded : result cell_value :=
    if match val with PyNone => true | _ => false end
       || (isinstance_float val && math_isnan val) || pd_isna val
    then Ok CellNull
    else if isinstance_int_or_float val then
      if isinstance_float val && math_isinf val then Ok CellNull
      else
        let* x := py_float val in
        Ok (CellNumber x)
    else
      match py_float val with
      | Ok x => Ok (CellNumber x)
      | Raise (Exception cls _ as e) =>
          if bool_decide (cls = "TypeError") || bool_decide (cls = "ValueError")
          then Ok (CellObject val)
          else Raise e
      | Raise e => Raise e
      end in
  match guarded with
  | Ok cell => cell
  | Raise _ => CellNull
  end.

(** Lines 1010-1035: the prediction rows of the response *)
Definition serialize (result_df : DataFrame) : list Entry :=
  let cols := if has_col result_df "value" then ["value"] else columns result_df in
  zip_with (fun ts row =>
              mkEntry (isoformat A ts)
                ((fun col =>
                    (col, json_cell
                            (row_cell A result_df col
                               (default nan (j ← col_pos (columns result_df) col;
                                             row !! j))))) <$> cols))
           (index result_df) (values result_df).

(** The [try] block of lines 937-971 *)
Definition execute (df_for_inference : DataFrame) (effective_inference_length : Z)
  : M Server DataFrame :=
  s <- get ;;
  match get_service s with
  | None =>
      with_metrics (count_error_500 "InferencerUnavailable") ;;;
      _queue_log "predict_inline_no_inferencer" ;;;
      raise (HTTPException 503 "Inference service not ready")
  | Some _ =>
      result_df <- on_inferencer
                     (perform_inference D (Some df_for_inference)
                                        (Some effective_inference_length)) ;;
      match result_df with
      | None =>
          with_metrics (count_error_500 "InferenceSkipped") ;;;
          _queue_log "predict_inline_skipped" ;;;
          raise (HTTPException 500 "Inference skipped (see server logs)")
      | Some res =>
          with_metrics count_completed ;;;
          ret res
      end
  end.

(** The [except] clauses of lines 972-994 *)
Definition on_execute_error (exc : exn) : M Server DataFrame :=
  match exc with
  | HTTPException c d => raise (HTTPException c d)
  | KeyError raw =>
      with_metrics (note_error "MissingColumns") ;;;
      let detail := _format_missing_columns_error raw in
      raise (HTTPException 400
               (if nonempty detail
                then "Missing required columns for inference: " +:+ detail
                else "Missing required columns for inference"))
  | Exception cls msg =>
      with_metrics (count_error_500 cls) ;;;
      _queue_log "predict_inline_error" ;;;
      raise (HTTPException 500 "Inference execution failed")
  end.

(** The [finally] clause of lines 995-1006 *)
Definition leave_gate : M Server unit :=
  with_metrics uncount_active ;;;
  release ;;;
  _queue_log "predict_inline_active_update".

(** Lines 926-931: the optional delay, taken with the slot held and
    before the [try/finally] that gives it back.  The answer tells
    whether the task sleeps in [asyncio.sleep]. *)
Definition delay_block : M Server bool :=
  try_except
    (s <- get ;;
     match get_service s with
     | Some _ => on_inferencer (simulate_delay_if_enabled D)
     | None => ret false
     end)
    (fun _ => ret false).

(** Lines 905-931: from the slot to the [try/finally] *)
Definition enter_gate : M Server bool :=
  with_metrics count_active ;;;
  _queue_log "predict_inline_start" ;;;
  delay_block.

(** Lines 905-1069: the handler from the moment it holds a slot, when
    its task is left to run. *)
Definition predict_after_gate (df_for_inference : DataFrame)
    (effective_inference_length : Z) (req_id : string) : M Server reply :=
  enter_gate ;;;
  result_df <- try_finally
                 (try_except (execute df_for_inference effective_inference_length)
                             on_execute_error)
                 leave_gate ;;
  s <- get ;;
  let response_payload :=
    mkResponse "SUCCESS" api_identifier
      (match get_service s with Some svc => current_run_id svc | None => None end)
      (serialize result_df) req_id false in
  on_inferencer (set_last_prediction (LastResponse response_payload)) ;;;
  _queue_log "predict_inline_success" ;;;
  ret (Fresh response_payload).

(** [predict]: [None] when the request has to wait at the gate. *)
Definition predict (req : option PredictRequest) (inference_length : option Z)
    (req_id : string) (s : Server) : option (result reply * Server) :=
  match predict_before_gate req inference_length req_id s with
  | (Ok (Answered r), s1) => Some (Ok r, s1)
  | (Ok (Queued df_for_inference n), s1) =>
      match acquire s1 with
      | Some s2 => Some (predict_after_gate df_for_inference n req_id s2)
      | None => None
      end
  | (Raise e, s1) => Some (Raise e, s1)
  end.

(** The task is cancelled while it sleeps in the delay (the client went
    away, the server shuts down): [CancelledError] is raised in
    [asyncio.sleep]; it is not an [Exception], so the [except] of lines
    930-931 lets it through, and the [try/finally] of lines 937-1006 has
    not been entered.  The handler ends there, in the state it went to
    sleep in.  [None]: the task does not sleep there. *)
Definition cancelled_in_delay (s : Server) : option Server :=
  match enter_gate s with
  | (Ok true, s') => Some s'
  | _ => None
  end.

(** [predict] for a task that is cancelled in the delay; [None] when the
    request does not get that far. *)
Definition predict_cancelled_in_delay (req : option PredictRequest)
    (inference_length : option Z) (req_id : string) (s : Server) : option Server :=
  match predict_before_gate req inference_length req_id s with
  | (Ok (Queued _ _), s1) =>
      match acquire s1 with
      | Some s2 => cancelled_in_delay s2
      | None => None
      end
  | _ => None
  end.

End Predict.

End ApiServer.

(** ** A concrete deployment, for running the definitions *)

Module Demo.
Import Py Frame Inferencer ApiServer.

Definition minute : Z := 60000000000.

(** 2024-01-01T00:00:00 in nanoseconds since the epoch *)
Definition t0 : Z := 1704067200000000000.

(** A frequency check in the manner of [check_uniform]: the gap between
    the first two rows, refused when it is zero. *)
Definition demo_check_uniform (d : DataFrame) : result Z :=
  match index d with
  | a :: b :: _ =>
      if b - a =? 0 then Raise (Exception "ValueError" "Time frequency is zero")
      else Ok (b - a)
  | _ => Raise (Exception "ValueError" "Need at least two rows")
  end.

(** Sliding windows over all columns, [input + output] rows per sample. *)
Definition demo_window_data (d : DataFrame) (exog : list string) (n_in n_out : Z)
  : result Windows :=
  let rows := values d in
  let samples := Z.to_nat (len d - (n_in + n_out) + 1) in
  Ok (mkWindows ((fun i => take (Z.to_nat n_in) (drop i rows)) <$> seq 0 samples)
                (Z.of_nat (length (columns d)))).

Definition demo_timedelta (s : string) : result Z :=
  if bool_decide (s = "1min") then Ok minute
  else if bool_decide (s = "2min") then Ok (2 * minute)
  else if bool_decide (s = "5min") then Ok (5 * minute)
  else Raise (Exception "ValueError" "unit abbreviation w/o a number").

(** [float(s)] on the few texts the deployment meets *)
Definition demo_float (s : string) : option float :=
  if bool_decide (s = "0") then Some 0%float
  else if bool_decide (s = "2") then Some 2%float
  else if bool_decide (s = "-1") then Some (-1)%float
  else if bool_decide (s = "inf") then Some infinity
  else None.

Definition deps : Deps :=
  {| SAMPLE_IDX := 0;
     INFERENCE_LENGTH := 1;
     USE_KAFKA := false;
     PREDICT_PROGRESS_INTERVAL := 25;
     PREDICT_MAX_ERROR_STEPS := Some 200;
     INFERENCE_DISABLE_LOG_UPLOAD := false;
     IDENTIFIER := None;
     INFERENCE_LOG_BUCKET := "inference-logs";
     SIMULATE_DELAY_SECS := "0";
     utc_date := "20240101";
     check_uniform := demo_check_uniform;
     time_feature := fun _ _ => 0%float;
     window_data := demo_window_data;
     subset_scaler := fun sc _ _ => Ok sc;
     float32 := fun x => x;
     mean_abs_diff := fun _ _ => 0%float;
     Timedelta := demo_timedelta;
     sha256_16 := fun d => Ok ("rows" +:+ pretty (len d));
     overlap_block := fun _ _ _ => "{}";
     json_dumps := fun r => rec_run_id r +:+ ":" +:+ rec_prediction_hash r;
     python_float := demo_float |}.

(** The same deployment with [SIMULATE_DELAY_SECS=2]. *)
Definition delayed_deps : Deps :=
  {| SAMPLE_IDX := SAMPLE_IDX deps;
     INFERENCE_LENGTH := INFERENCE_LENGTH deps;
     USE_KAFKA := USE_KAFKA deps;
     PREDICT_PROGRESS_INTERVAL := PREDICT_PROGRESS_INTERVAL deps;
     PREDICT_MAX_ERROR_STEPS := PREDICT_MAX_ERROR_STEPS deps;
     INFERENCE_DISABLE_LOG_UPLOAD := INFERENCE_DISABLE_LOG_UPLOAD deps;
     IDENTIFIER := IDENTIFIER deps;
     INFERENCE_LOG_BUCKET := INFERENCE_LOG_BUCKET deps;
     SIMULATE_DELAY_SECS := "2";
     utc_date := utc_date deps;
     check_uniform := check_uniform deps;
     time_feature := time_feature deps;
     window_data := window_data deps;
     subset_scaler := subset_scaler deps;
     float32 := float32 deps;
     mean_abs_diff := mean_abs_diff deps;
     Timedelta := Timedelta deps;
     sha256_16 := sha256_16 deps;
     overlap_block := overlap_block deps;
     json_dumps := json_dumps deps;
     python_float := python_float deps |}.

(** ISO timestamps of the first minutes of 2024, numbers as nanoseconds. *)
Definition demo_to_datetime (col : list json) : result (list (option Z)) :=
  Ok ((fun j => match j with
                | JStr s =>
                    if bool_decide (s = "2024-01-01T00:00:00") then Some t0
                    else if bool_decide (s = "2024-01-01T00:01:00") then Some (t0 + minute)
                    else if bool_decide (s = "2024-01-01T00:02:00") then Some (t0 + 2 * minute)
                    else None
                | _ => None
                end) <$> col).

Definition demo_to_numeric (col : list json) : result (list float) :=
  foldr (fun j acc =>
           match j, acc with
           | JNum x, Ok rest => Ok (x :: rest)
           | _, Raise e => Raise e
           | _, _ => Raise (Exception "ValueError" "Unable to parse string")
           end) (Ok []) col.

Definition api_deps : ApiDeps :=
  {| ENABLE_PREDICT_CACHE := false;
     PREDICT_FORCE_OK := false;
     to_datetime := demo_to_datetime;
     to_numeric := demo_to_numeric;
     str_timestamp := fun t => if bool_decide (t = t0) then "2024-01-01 00:00:00" else pretty t;
     isoformat := fun t => pretty t;
     row_cell := fun _ _ x => PyFloat x;
     strip_timezones := fun r => Ok r |}.

(** A sequence model that answers one step of one value. *)
Definition sequence_model : Predictor :=
  mkPredictor (fun p =>
       match p with
       | PArray (Arr3 _) => Ok (OArray (Arr3 [[[1%float]]]))
       | _ => Raise (Exception "ValueError" "expected a 3-D batch")
       end).

(** A statistical model that answers [h] rows, one minute apart. *)
Definition stats_model : Predictor :=
  mkPredictor (fun p =>
       match p with
       | PForecast h _ =>
           Ok (OFrame (mkDataFrame ((fun k => t0 + k * minute) <$> range h) ["value"]
                                   (replicate (Z.to_nat h) [1%float])))
       | _ => Raise (Exception "TypeError" "expected a forecast request")
       end).

(** A seasonal model that answers one value per row of the frame. *)
Definition seasonal_model : Predictor :=
  mkPredictor (fun p =>
       match p with
       | PFrame f => Ok (OFrame (mkDataFrame (index f) ["value"] ((fun _ => [1%float]) <$> index f)))
       | _ => Raise (Exception "TypeError" "expected a frame")
       end).

(** A predictor that rejects every input shape. *)
Definition failing_model : Predictor :=
  mkPredictor (fun p =>
       match p with
       | PArray (Arr3 _) => Raise (Exception "ValueError" "as given")
       | PArray (Arr2 [_]) => Raise (Exception "ValueError" "flattened")
       | _ => Raise (Exception "ValueError" "squeezed")
       end).

(** A scaler whose inverse transform fails. *)
Definition broken_scaler : Scaler :=
  {| feature_names_in_ := [];
     feature_names := [];
     inverse_transform := fun _ =>
       Raise (Exception "ValueError" "X has 1 features, but MinMaxScaler is expecting 2 features as input") |}.

(** A freshly constructed [Inferencer] ([__init__]) *)
Definition fresh : Inferencer :=
  {| df := None;
     input_seq_len := 0;
     output_seq_len := 0;
     current_model := None;
     current_scaler := None;
     current_run_id := None;
     current_run_name := "";
     current_config_hash := None;
     model_type := "";
     model_class := "";
     params := ∅;
     expected_feature_columns := None;
     _emitted_prediction_keys := ∅;
     _active_jobs := 0;
     _last_per_step_errors := [];
     last_prediction_response := None;
     simulate_delay_secs := 0 |}.

(** The instance after a load (the fields the loaders set). *)
Definition loaded (m : Predictor) (sc : option Scaler) (cls : string) (n_in n_out : Z)
    (ps : gmap string string) : Inferencer :=
  {| df := None;
     input_seq_len := n_in;
     output_seq_len := n_out;
     current_model := Some m;
     current_scaler := sc;
     current_run_id := Some "run123";
     current_run_name := "model";
     current_config_hash := None;
     model_type := "";
     model_class := cls;
     params := ps;
     expected_feature_columns := None;
     _emitted_prediction_keys := ∅;
     _active_jobs := 0;
     _last_per_step_errors := [];
     last_prediction_response := None;
     simulate_delay_secs := 0 |}.

Definition world_of (i : Inferencer) (faults : list bool) : World :=
  {| self := i; events := []; objects := ∅; post_file_faults := faults;
     get_file_faults := [] |}.

Definition zero_metrics : QueueMetrics :=
  {| enqueued := 0; active := 0; completed := 0; served_cached := 0;
     wait_samples := 0; exec_samples := 0; prep_samples := 0;
     error_500_total := 0; last_error_type := None |}.

Definition server_of (i : Inferencer) (slots : Z) : Server :=
  {| world := world_of i [];
     inferencer_importable := true;
     semaphore := slots;
     queue_metrics := zero_metrics;
     api_log := [] |}.

(** Three rows, one minute apart, one feature. *)
Definition table3 : DataFrame :=
  mkDataFrame [t0; t0 + minute; t0 + 2 * minute] ["value"]
              [[1%float]; [2%float]; [3%float]].

Definition payload3 : PredictRequest :=
  {| ApiServer.inference_length := Some 3;
     data := Some [ ("ts", [JStr "2024-01-01T00:00:00"; JStr "2024-01-01T00:01:00";
                            JStr "2024-01-01T00:02:00"]);
                    ("value", [JNum 1%float; JNum 2%float; JNum 3%float]) ];
     index_col := None |}.

(** [table3] as the request preparer hands it on *)
Definition prepared3 : DataFrame := time_to_feature deps table3.

(** The prediction frame for a horizon of five steps after [table3], and
    its time-feature columns. *)
Definition horizon5 : DataFrame :=
  time_to_feature deps (nan_frame ((fun k => t0 + k * minute) <$> range 5) ["value"]).

Definition exog5 : DataFrame :=
  mkDataFrame ((fun k => t0 + k * minute) <$> range 5) TIME_FEATURES
              (replicate 5 (replicate 6 0%float)).

(** Three rows, all at the same instant. *)
Definition payload_same_instant : PredictRequest :=
  {| ApiServer.inference_length := None;
     data := Some [ ("ts", [JStr "2024-01-01T00:00:00"; JStr "2024-01-01T00:00:00";
                            JStr "2024-01-01T00:00:00"]);
                    ("value", [JNum 1%float; JNum 2%float; JNum 3%float]) ];
     index_col := None |}.


(** A world whose log sink holds one line under the key of the day, and
    whose gateway answers the coming fetches as listed. *)
Definition world_with_log (i : Inferencer) (old : string) (fetches : list bool) : World :=
  {| self := i; events := [];
     objects := {[ ("inference-logs", "default/20240101/results.jsonl") := old ]};
     post_file_faults := []; get_file_faults := fetches |}.

End Demo.

(** ** Runs of the process and the assertion language *)

Module Runs.
Import Py Frame Inferencer ApiServer.

(** What can happen to the process, one step at a time: the phases of a
    request, a direct executor call (the prewarm path), and the bare
    counter updates in any order. *)
Inductive step : Type :=
| StepBeforeGate (req : option PredictRequest) (inference_length : option Z) (req_id : string)
| StepAcquire
| StepAfterGate (df_for_inference : DataFrame) (n : Z) (req_id : string)
| StepInference (df_eval : option DataFrame) (n : option Z)
| StepRequestStarted
| StepRequestFinished
| StepJobStarted
| StepJobFinished.

Definition do_step (D : Deps) (A : ApiDeps) (st : step) (s : Server) : Server :=
  match st with
  | StepBeforeGate req n req_id => snd (predict_before_gate D A req n req_id s)
  | StepAcquire => default s (acquire s)
  | StepAfterGate d n req_id => snd (predict_after_gate D A d n req_id s)
  | StepInference d n => snd (on_inferencer (perform_inference D d n) s)
  | StepRequestStarted => snd (with_metrics count_active s)
  | StepRequestFinished => snd (with_metrics uncount_active s)
  | StepJobStarted => snd (on_inferencer _mark_job_started s)
  | StepJobFinished => snd (on_inferencer _mark_job_finished s)
  end.

Definition run (D : Deps) (A : ApiDeps) (steps : list step) (s : Server) : Server :=
  foldl (fun acc st => do_step D A st acc) s steps.

(** [preserves I m]: running [m] from a state in [I] ends in a state in
    [I], whether it returns or raises. *)
Definition preserves {S T} (I : S -> Prop) (m : M S T) : Prop :=
  forall s, I s -> I (snd (m s)).

(** [ensures m Q]: what holds of the outcome and final state of [m], from
    any state. *)
Definition ensures {S T} (P : S -> Prop) (m : M S T) (Q : result T -> S -> Prop) : Prop :=
  forall s, P s -> Q (fst (m s)) (snd (m s)).

(** [returns m P]: whenever [m] returns a value, the value satisfies
    [P]. *)
Definition returns {S T} (m : M S T) (P : T -> Prop) : Prop :=
  forall s a s', m s = (Ok a, s') -> P a.

(** [returns_in I m P]: the same, for runs that start in a state that
    satisfies [I]. *)
Definition returns_in {S T} (I : S -> Prop) (m : M S T) (P : T -> Prop) : Prop :=
  forall s a s', I s -> m s = (Ok a, s') -> P a.

(** The loaded model of the world is the one of the instance [i]. *)
Definition same_model (i : Inferencer) (w : World) : Prop :=
  current_model (self w) = current_model i
  /\ current_scaler (self w) = current_scaler i
  /\ model_class (self w) = model_class i
  /\ params (self w) = params i
  /\ input_seq_len (self w) = input_seq_len i
  /\ output_seq_len (self w) = output_seq_len i.

(** A frame over the index [idx] with one row of cells per label. *)
Definition over_index (idx : list Z) (f : DataFrame) : Prop :=
  index f = idx /\ length (values f) = length idx.

(** Both counters are non-negative. *)
Definition jobs_nonneg (w : World) : Prop := 0 <= active_inference_jobs (self w).

Definition counters_nonneg (s : Server) : Prop :=
  0 <= active (queue_metrics s) /\ jobs_nonneg (world s).

(** How often the endpoint's log shows a slot being taken, and given
    back. *)
Definition acquisitions (l : list api_event) : nat :=
  length (List.filter (fun e => match e with Acquire => true | _ => false end) l).

Definition releases (l : list api_event) : nat :=
  length (List.filter (fun e => match e with Release => true | _ => false end) l).

(** The gate and the shared instance are as they were in [s0]. *)
Definition gate_as (s0 s : Server) : Prop :=
  semaphore s = semaphore s0
  /\ acquisitions (api_log s) = acquisitions (api_log s0)
  /\ releases (api_log s) = releases (api_log s0)
  /\ inferencer_importable s = inferencer_importable s0.

(** The 503-equivalent answer of the endpoint *)
Definition service_not_ready (r : result reply) : Prop :=
  exists detail, r = Raise (HTTPException 503 detail).

(** The payloads that reached the predictor, in call order *)
Definition predictor_calls (l : list event) : list payload :=
  omap (fun e => match e with PredictCall p => Some p | _ => None end) l.

(** The shape strategies of the spec, in its order: the window as given
    ([1, input_window_len, feature_count]), with the leading singleton
    dimension removed, flattened to 2-D. *)
Definition as_given (window : list (list float)) : payload := PArray (Arr3 [window]).
Definition squeezed (window : list (list float)) : payload := PArray (Arr2 window).
Definition flattened (window : list (list float)) : payload := PArray (Arr2 [concat window]).

(** The spec's words for the tolerant predictor call: try the strategies
    in order, stop at the first that works, and surface the first error
    if none does.  A fallback that comes back without a value counts as
    failed.  The answer comes with the list of payloads tried. *)
Definition tolerant_predict (m : Predictor) (window : list (list float))
  : result pred_out * list payload :=
  match Inferencer.predict m (as_given window) with
  | Ok r => (Ok r, [as_given window])
  | Raise first_error =>
      match Inferencer.predict m (squeezed window) with
      | Ok (OArray a) => (Ok (OArray a), [as_given window; squeezed window])
      | Ok (OFrame f) => (Ok (OFrame f), [as_given window; squeezed window])
      | _ =>
          match Inferencer.predict m (flattened window) with
          | Ok (OArray a) =>
              (Ok (OArray a), [as_given window; squeezed window; flattened window])
          | Ok (OFrame f) =>
              (Ok (OFrame f), [as_given window; squeezed window; flattened window])
          | _ => (Raise first_error, [as_given window; squeezed window; flattened window])
          end
      end
  end.

(** No resampling is configured: [downsampling] is ["0"] or equals the
    native [frequency]. *)
Definition no_resampling (ps : gmap string string) : Prop :=
  ps !! "downsampling" = Some "0"
  \/ exists f, ps !! "downsampling" = Some f /\ ps !! "frequency" = Some f.

(** The log-sink appends performed: the [post_file] calls that went
    through. *)
Definition appends (l : list event) : nat :=
  length (List.filter (fun e => match e with PostFile _ _ _ true => true | _ => false end) l).

(** Whether one of the next [k] calls of [post_file] goes through. *)
Fixpoint some_attempt_succeeds (faults : list bool) (k : nat) {struct k} : bool :=
  match k with
  | O => false
  | S k' =>
      match faults with
      | true :: rest => some_attempt_succeeds rest k'
      | _ => true
      end
  end.

(** The rows of a returned prediction table [t], per model class, for the
    instance [i] and the horizon [n]:
    - sequence: exactly [n] rows;
    - seasonal: the predictor was handed a frame of [n] rows, and [t] has
      the index of the frame it answered with;
    - multi-horizon-stats: [t] has the index of the frame the predictor
      answered with; with resampling configured the predictor was asked
      for [int(ceil(n * frequency / downsampling))] steps over a frame of
      that many rows. *)
Definition rows_as_designed (D : Deps) (i : Inferencer) (n : Z) (t : DataFrame) : Prop :=
  (model_class i = "pytorch" -> len t = n /\ length (values t) = Z.to_nat n)
  /\ (model_class i = "prophet" ->
      exists m dfp f,
        current_model i = Some m
        /\ len dfp = n
        /\ Inferencer.predict m (PFrame dfp) = Ok (OFrame f)
        /\ index t = index f)
  /\ (model_class i = "statsforecast" ->
      exists m h X f,
        current_model i = Some m
        /\ Inferencer.predict m (PForecast h X) = Ok (OFrame f)
        /\ index t = index f
        /\ (~ no_resampling (params i) ->
            exists ds fr downsampling frequency exog,
              params i !! "downsampling" = Some ds
              /\ params i !! "frequency" = Some fr
              /\ Timedelta D ds = Ok downsampling
              /\ Timedelta D fr = Ok frequency
              /\ resampled_length n frequency downsampling = Ok h
              /\ X = Some exog /\ len exog = h)).

(** The predictor calls a completed request has caused *)
Definition calls_after (o : option (result reply * Server)) : option (list payload) :=
  (fun p => predictor_calls (events (world (snd p)))) <$> o.

(** The answer of a completed request, and the endpoint log after it *)
Definition answer (o : option (result reply * Server)) : option (result reply) :=
  fst <$> o.



End Runs.

Module Observations.
Import Py Frame Inferencer ApiServer Runs.

(** Every object of the first store is still there in the second, with
    its old content as a prefix of the new. *)
Definition log_extends (o o' : gmap (string * string) string) : Prop :=
  forall key old, o !! key = Some old -> exists suffix, o' !! key = Some (old +:+ suffix).

(** None of the coming fetches from the log sink fails. *)
Definition fetches_succeed (w : World) : Prop :=
  Forall (fun fault => fault = false) (get_file_faults w).

(** [raises m P]: whenever [m] raises, the exception satisfies [P]. *)
Definition raises {S T} (m : M S T) (P : exn -> Prop) : Prop :=
  forall s e s', m s = (Raise e, s') -> P e.

(** The 400-equivalent answers *)
Definition bad_request_error (e : exn) : Prop :=
  exists detail, e = HTTPException 400 detail.

End Observations.

(** ** [api_server.py]: the probes *)

Module Probes.
Import Py Frame Inferencer ApiServer.

(** The body of [/healthz]; [startup_ready_ms], a wall-clock reading, is
    left out. *)
Record Health : Type := mkHealth {
  health_status : string;
  health_service : string;
  health_model_ready : bool;
  health_queue_length : Z
}.

(** [_safe_queue_size] *)
Definition _safe_queue_size : Z := 0.

(** [inf.current_model is not None], [False] when the instance cannot be
    imported *)
Definition model_ready (s : Server) : bool :=
  match get_service s with
  | Some inf => bool_decide (is_Some (current_model inf))
  | None => false
  end.

(** [healthz] *)
Definition healthz (s : Server) : Health :=
  mkHealth "ok" "inference-api" (model_ready s) _safe_queue_size.

(** [ready]: the status code and the [status] field of the body *)
Definition ready (s : Server) : Z * string :=
  if model_ready s then (200, "ready") else (503, "not_ready").

(** The body of [/predict_ping] when the instance is there *)
Record Ping : Type := mkPing {
  ping_model_loaded : bool;
  ping_has_df : bool;
  ping_busy : bool;
  ping_active_jobs : Z;
  ping_input_seq_len : Z;
  ping_output_seq_len : Z
}.

(** [predict_ping]: [None] is the [{"status": "error"}] answer *)
Definition predict_ping (s : Server) : option Ping :=
  match get_service s with
  | Some inf =>
      let active_jobs := active_inference_jobs inf in
      Some (mkPing (bool_decide (is_Some (current_model inf)))
                   (bool_decide (is_Some (df inf)))
                   (0 <? active_jobs)
                   active_jobs
                   (input_seq_len inf)
                   (output_seq_len inf))
  | None => None
  end.

End Probes.

(** * Properties *)

Import Py Frame Inferencer ApiServer Runs.

(** ** Reasoning rules for the monad *)

Section Rules.
Context {S : Type}.
Implicit Types I : S -> Prop.

Lemma preserves_ret {T} I (a : T) : preserves I (ret a).
Proof. intros s H; exact H. Qed.

Lemma preserves_raise {T} I e : preserves I (@raise S T e).
Proof. intros s H; exact H. Qed.

Lemma preserves_lift {T} I (r : result T) : preserves I (lift r).
Proof. intros s H; exact H. Qed.

Lemma preserves_get I : preserves I (@get S).
Proof. intros s H; exact H. Qed.

Lemma preserves_modify I (f : S -> S) :
  (forall s, I s -> I (f s)) -> preserves I (modify f).
Proof. intros Hf s H; apply Hf, H. Qed.

Lemma preserves_bind {T U} I (m : M S T) (k : T -> M S U) :
  preserves I m -> (forall a, preserves I (k a)) -> preserves I (bind m k).
Proof.
  intros Hm Hk s H. unfold bind. specialize (Hm s H).
  destruct (m s) as [[a|e] s1]; simpl in *; [apply Hk, Hm | exact Hm].
Qed.

Lemma preserves_try_except {T} I (body : M S T) (handler : exn -> M S T) :
  preserves I body -> (forall e, preserves I (handler e)) ->
  preserves I (try_except body handler).
Proof.
  intros Hb Hh s H. unfold try_except. specialize (Hb s H).
  destruct (body s) as [[a|e] s1]; simpl in *; [exact Hb | apply Hh, Hb].
Qed.

Lemma preserves_try_finally {T} I (body : M S T) (fin : M S unit) :
  preserves I body -> preserves I fin -> preserves I (try_finally body fin).
Proof.
  intros Hb Hf s H. unfold try_finally. specialize (Hb s H).
  destruct (body s) as [r s1]; simpl in *. specialize (Hf s1 Hb).
  destruct (fin s1) as [[u|e] s2]; simpl in *; exact Hf.
Qed.

End Rules.

(** Syntax-directed use of the rules: binds, handlers and the pure
    leaves; a [match] or [if] in the program is split on its scrutinee. *)
Ltac preserve_step :=
  lazymatch goal with
  | |- preserves _ (bind _ _) => apply preserves_bind; [|intros ?]
  | |- preserves _ (ret _) => apply preserves_ret
  | |- preserves _ (raise _) => apply preserves_raise
  | |- preserves _ (lift _) => apply preserves_lift
  | |- preserves _ get => apply preserves_get
  | |- preserves _ (try_except _ _) => apply preserves_try_except; [|intros ?]
  | |- preserves _ (try_finally _ _) => apply preserves_try_finally
  | |- preserves _ (match ?x with _ => _ end) => destruct x
  | |- preserves _ (if ?x then _ else _) => destruct x
  end.

Ltac preserve := repeat preserve_step.

(** ** The simulated delay *)

Section Delay.
Variable D : Deps.

(** The delay never raises and writes one attribute of the instance; it
    sleeps only for a positive number of seconds. *)
Lemma simulate_delay_run w :
  exists b delay w',
    simulate_delay_if_enabled D w = (Ok b, w')
    /\ self w' = set_simulate_delay_secs delay (self w)
    /\ objects w' = objects w
    /\ post_file_faults w' = post_file_faults w
    /\ get_file_faults w' = get_file_faults w
    /\ b = negb (PrimFloat.leb delay 0).
Proof.
  unfold simulate_delay_if_enabled, _read_simulated_delay.
  destruct (python_float D (SIMULATE_DELAY_SECS D)) as [value|];
    unfold bind, print, emit, modify, ret; cbv beta iota.
  - destruct (PrimFloat.ltb 0 value);
      match goal with |- context [PrimFloat.leb ?x 0] =>
        exists (negb (PrimFloat.leb x 0)), x; destruct (PrimFloat.leb x 0) end;
      eexists; (split; [reflexivity|]); repeat split.
  - exists false, 0%float. eexists. split; [reflexivity|]. repeat split.
Qed.



(** The delay block of the handler: it never raises, and touches the
    instance only. *)
Lemma delay_block_run s :
  exists b w',
    delay_block D s = (Ok b, mkServer w' (inferencer_importable s) (semaphore s)
                                      (queue_metrics s) (api_log s))
    /\ (if inferencer_importable s
        then simulate_delay_if_enabled D (world s) = (Ok b, w')
        else b = false /\ w' = world s).
Proof.
  unfold delay_block, try_except, bind, get, get_service. cbv beta iota.
  destruct (inferencer_importable s) eqn:Hi.
  - unfold on_inferencer.
    destruct (simulate_delay_run (world s)) as (b & delay & w' & E & _).
    rewrite E, Hi. exists b, w'. split; reflexivity.
  - unfold ret. exists false, (world s). destruct s; simpl in *. subst. repeat split.
Qed.

Lemma enter_gate_run s :
  exists b w',
    enter_gate D s = (Ok b, mkServer w' (inferencer_importable s) (semaphore s)
                                     (count_active (queue_metrics s))
                                     (api_log s ++ [QueueLog "predict_inline_start"]))
    /\ (if inferencer_importable s
        then simulate_delay_if_enabled D (world s) = (Ok b, w')
        else b = false /\ w' = world s).
Proof.
  unfold enter_gate, bind, with_metrics, _queue_log, modify. cbv beta iota.
  match goal with |- context [delay_block D ?st] =>
    destruct (delay_block_run st) as (b & w' & E & H); rewrite E end.
  exists b, w'. split; [reflexivity | exact H].
Qed.

Lemma simulate_delay_instance (P : Inferencer -> Prop) :
  (forall x i, P i -> P (set_simulate_delay_secs x i)) ->
  preserves (fun w => P (self w)) (simulate_delay_if_enabled D).
Proof.
  intros HP w H.
  destruct (simulate_delay_run w) as (b & delay & w' & E & Hs & _).
  rewrite E. simpl. rewrite Hs. apply HP, H.
Qed.

End Delay.

(** ** The counters are never negative *)

Section CounterInvariant.
Variable D : Deps.
Variable A : ApiDeps.

Lemma emit_jobs e : preserves jobs_nonneg (emit e).
Proof. apply preserves_modify. intros w H; exact H. Qed.

Lemma mark_job_started_jobs : preserves jobs_nonneg _mark_job_started.
Proof.
  apply preserves_modify. intros w H.
  unfold jobs_nonneg, active_inference_jobs in *. simpl. lia.
Qed.

(** The decrement clamps at zero, whatever the counter was. *)
Lemma mark_job_finished_jobs w : jobs_nonneg (snd (_mark_job_finished w)).
Proof. unfold jobs_nonneg, active_inference_jobs. simpl. lia. Qed.

Lemma perform_inference_jobs df_eval n :
  preserves jobs_nonneg (perform_inference D df_eval n).
Proof.
  unfold perform_inference.
  apply preserves_bind; [apply preserves_get | intros w; cbv beta].
  destruct (match df_eval with Some d => Some d | None => df (self w) end) as [d|].
  - destruct (current_model (self w)).
    + intros s _. unfold bind, _mark_job_started, print, emit, modify, try_finally. simpl.
      match goal with |- context [run_inference D d ?k ?s0] =>
        destruct (run_inference D d k s0) as [r s3] end.
      simpl. unfold jobs_nonneg, active_inference_jobs. simpl. lia.
    + apply preserves_bind; [apply emit_jobs | intros ?; apply preserves_ret].
  - apply preserves_bind; [apply emit_jobs | intros ?; apply preserves_ret].
Qed.

Lemma simulate_delay_jobs : preserves jobs_nonneg (simulate_delay_if_enabled D).
Proof.
  apply (simulate_delay_instance D (fun i => 0 <= active_inference_jobs i)).
  intros x i H; exact H.
Qed.

Lemma on_inferencer_counters {T} (m : M World T) :
  preserves jobs_nonneg m -> preserves counters_nonneg (on_inferencer m).
Proof.
  intros Hm s [Ha Hj]. unfold on_inferencer. specialize (Hm (world s) Hj).
  destruct (m (world s)) as [r w']. split; [exact Ha | exact Hm].
Qed.

Lemma with_metrics_counters (f : QueueMetrics -> QueueMetrics) :
  (forall q, 0 <= active q -> 0 <= active (f q)) ->
  preserves counters_nonneg (with_metrics f).
Proof.
  intros Hf. apply preserves_modify. intros s [Ha Hj]. split; [apply Hf, Ha | exact Hj].
Qed.

(** The endpoint's decrement clamps at zero as well. *)
Lemma uncount_active_nonneg q : 0 <= active (uncount_active q).
Proof. simpl. lia. Qed.

Lemma queue_log_counters ev : preserves counters_nonneg (_queue_log ev).
Proof. apply preserves_modify. intros s H; exact H. Qed.

Lemma release_counters : preserves counters_nonneg release.
Proof. apply preserves_modify. intros s H; exact H. Qed.

Ltac counters_leaf :=
  first
    [ apply queue_log_counters
    | apply release_counters
    | apply with_metrics_counters; intros q Hq; simpl; lia
    | apply on_inferencer_counters ].

Lemma before_gate_counters req n rid :
  preserves counters_nonneg (predict_before_gate D A req n rid).
Proof.
  unfold predict_before_gate, prepare_request.
  repeat (preserve_step; cbv beta); try counters_leaf.
Qed.

Lemma after_gate_counters d n rid :
  preserves counters_nonneg (predict_after_gate D A d n rid).
Proof.
  unfold predict_after_gate, enter_gate, delay_block, execute, on_execute_error, leave_gate.
  repeat (preserve_step; cbv beta); try counters_leaf;
    first [apply perform_inference_jobs | apply simulate_delay_jobs].
Qed.

Lemma acquire_counters s : counters_nonneg s -> counters_nonneg (default s (acquire s)).
Proof. unfold acquire. destruct (0 <? semaphore s); intros H; exact H. Qed.

Lemma do_step_counters st s : counters_nonneg s -> counters_nonneg (do_step D A st s).
Proof.
  intros H. destruct st; unfold do_step.
  - exact (before_gate_counters _ _ _ s H).
  - exact (acquire_counters s H).
  - exact (after_gate_counters _ _ _ s H).
  - exact (on_inferencer_counters _ (perform_inference_jobs _ _) s H).
  - refine (with_metrics_counters _ _ s H). intros q Hq; simpl; lia.
  - refine (with_metrics_counters _ _ s H). intros q Hq; apply uncount_active_nonneg.
  - exact (on_inferencer_counters _ mark_job_started_jobs s H).
  - refine (on_inferencer_counters _ _ s H). intros w _. apply mark_job_finished_jobs.
Qed.

Lemma run_counters steps s : counters_nonneg s -> counters_nonneg (run D A steps s).
Proof.
  revert s. induction steps as [|st steps IH]; intros s H; simpl; [exact H|].
  apply IH, do_step_counters, H.
Qed.

(** C10. Both the endpoint's [active] counter and the executor's
    [_active_jobs] counter start at zero and are never negative: after
    every prefix of every sequence of request phases, executor calls and
    bare starts and finishes, in any order and on every exit path, both
    are at least zero, because each decrement is [max(0, n - 1)]. *)
Theorem counters_never_negative (steps : list step) (s : Server) (k : nat) :
  active (queue_metrics s) = 0 ->
  active_inference_jobs (self (world s)) = 0 ->
  0 <= active (queue_metrics (run D A (take k steps) s))
  /\ 0 <= active_inference_jobs (self (world (run D A (take k steps) s))).
Proof.
  intros Ha Hj. apply run_counters. split; [lia | unfold jobs_nonneg; lia].
Qed.

End CounterInvariant.

Lemma counters_never_negative_witness :
  let s := Demo.server_of Demo.fresh 1 in
  let steps := [ StepRequestFinished; StepJobFinished;
                 StepBeforeGate (Some Demo.payload3) None "r1"; StepAcquire;
                 StepAfterGate Demo.table3 3 "r1"; StepJobFinished ] in
  active (queue_metrics s) = 0
  /\ active_inference_jobs (self (world s)) = 0
  /\ 0 <= active (queue_metrics (run Demo.deps Demo.api_deps (take 6 steps) s))
  /\ 0 <= active_inference_jobs
            (self (world (run Demo.deps Demo.api_deps (take 6 steps) s))).
Proof.
  split; [reflexivity|]. split; [reflexivity|].
  apply (counters_never_negative Demo.deps Demo.api_deps); reflexivity.
Defined.

(** ** Too few rows: skipped, not raised *)

Section Precheck.
Variable D : Deps.

(** C6. For every input table with [input_seq_len > 0] and fewer than
    [input_seq_len + output_seq_len] rows, [perform_inference] returns
    [None] (skipped) and does not raise; it calls no predictor and writes
    nothing to the log sink: all it does is print. *)
Theorem insufficient_rows_skipped (w : World) (df_eval : option DataFrame)
    (d : DataFrame) (n : option Z) :
  match df_eval with Some d' => Some d' | None => df (self w) end = Some d ->
  0 < input_seq_len (self w) ->
  len d < input_seq_len (self w) + output_seq_len (self w) ->
  fst (perform_inference D df_eval n w) = Ok None
  /\ objects (snd (perform_inference D df_eval n w)) = objects w
  /\ exists lines,
       events (snd (perform_inference D df_eval n w)) = events w ++ (Print <$> lines).
Proof.
  intros Hd Hin Hrows.
  unfold perform_inference, bind, get. simpl. rewrite Hd.
  destruct (current_model (self w)) as [m|]; simpl.
  - unfold try_finally, run_inference, bind, get. simpl.
    assert (Hguard : (0 <? input_seq_len (self w))
                     && (len d <? input_seq_len (self w) + output_seq_len (self w)) = true).
    { apply andb_true_intro. split; [apply Z.ltb_lt, Hin | apply Z.ltb_lt, Hrows]. }
    rewrite Hguard. simpl.
    split; [reflexivity|]. split; [reflexivity|].
    exists ["predict_inference_start"; "insufficient_rows"].
    rewrite <- app_assoc. reflexivity.
  - split; [reflexivity|]. split; [reflexivity|].
    exists ["[INFO] Model not loaded yet. Deferring inference (no DLQ)."]. reflexivity.
Qed.

End Precheck.

Lemma insufficient_rows_skipped_witness :
  let w := Demo.world_of (Demo.loaded Demo.sequence_model None "pytorch" 12 1 ∅) [] in
  match Some Demo.table3 with Some d' => Some d' | None => df (self w) end = Some Demo.table3
  /\ 0 < input_seq_len (self w)
  /\ len Demo.table3 < input_seq_len (self w) + output_seq_len (self w)
  /\ fst (perform_inference Demo.deps (Some Demo.table3) (Some 5) w) = Ok None.
Proof.
  split; [reflexivity|]. split; [reflexivity|]. split; [reflexivity|].
  apply (insufficient_rows_skipped Demo.deps _ (Some Demo.table3) Demo.table3 (Some 5));
    reflexivity.
Defined.

(** ** The gate: taken after validation, always given back *)

Section Gate.
Variable D : Deps.
Variable A : ApiDeps.

Lemma acquisitions_snoc l e :
  acquisitions (l ++ [e]) = (acquisitions l + match e with Acquire => 1 | _ => 0 end)%nat.
Proof.
  unfold acquisitions. rewrite List.filter_app, length_app. destruct e; reflexivity.
Qed.

Lemma releases_snoc l e :
  releases (l ++ [e]) = (releases l + match e with Release => 1 | _ => 0 end)%nat.
Proof.
  unfold releases. rewrite List.filter_app, length_app. destruct e; reflexivity.
Qed.

Lemma with_metrics_gate s0 f : preserves (gate_as s0) (with_metrics f).
Proof. apply preserves_modify. intros s H; exact H. Qed.

Lemma queue_log_gate s0 ev : preserves (gate_as s0) (_queue_log ev).
Proof.
  apply preserves_modify. intros s (Hs & Ha & Hr & Hi). unfold gate_as; simpl.
  rewrite acquisitions_snoc, releases_snoc. repeat split; try assumption; lia.
Qed.

Lemma on_inferencer_gate {T} s0 (m : M World T) : preserves (gate_as s0) (on_inferencer m).
Proof.
  intros s H. unfold on_inferencer. destruct (m (world s)) as [r w']. exact H.
Qed.

Ltac gate_leaf :=
  first [ apply with_metrics_gate | apply queue_log_gate | apply on_inferencer_gate ].

(** Nothing before [await semaphore.acquire()] touches the gate. *)
Lemma before_gate_gate s0 req n rid :
  preserves (gate_as s0) (predict_before_gate D A req n rid).
Proof.
  unfold predict_before_gate, prepare_request.
  repeat (preserve_step; cbv beta); gate_leaf.
Qed.

Lemma before_gate_world req n rid s :
  world (snd (predict_before_gate D A req n rid s)) = world s.
Proof.
  assert (H : preserves (fun s' => world s' = world s) (predict_before_gate D A req n rid)).
  { unfold predict_before_gate, prepare_request.
    repeat (preserve_step; cbv beta); apply preserves_modify; intros s' H'; exact H'. }
  apply H. reflexivity.
Qed.

(** The guarded block of the handler leaves the gate alone... *)
Lemma execute_gate s0 d n :
  preserves (gate_as s0) (try_except (execute D d n) on_execute_error).
Proof.
  unfold execute, on_execute_error.
  repeat (preserve_step; cbv beta); gate_leaf.
Qed.

(** ... and its [finally] clause gives the slot back, exactly once,
    whatever the outcome. *)
Lemma after_gate_releases d n rid s r s' :
  predict_after_gate D A d n rid s = (r, s') ->
  semaphore s' = semaphore s + 1
  /\ acquisitions (api_log s') = acquisitions (api_log s)
  /\ releases (api_log s') = S (releases (api_log s))
  /\ inferencer_importable s' = inferencer_importable s.
Proof.
  unfold predict_after_gate. unfold bind at 1.
  destruct (enter_gate_run D s) as (b & w' & -> & _). cbv beta iota.
  match goal with |- context [try_finally ?b leave_gate] => set (body := b) end.
  match goal with |- context [bind (try_finally body leave_gate) ?k ?st] =>
    set (rest := k); set (s1 := st) end.
  assert (H1 : gate_as s s1).
  { unfold gate_as, s1; simpl. rewrite acquisitions_snoc, releases_snoc.
    repeat split; lia. }
  pose proof (execute_gate s d n s1 H1) as Hb. fold body in Hb.
  unfold bind, try_finally.
  destruct (body s1) as [r0 sb]. simpl in Hb. destruct Hb as (Hs & Ha & Hr & Hi).
  unfold leave_gate, bind, with_metrics, release, _queue_log, modify. simpl.
  destruct r0 as [res|e]; simpl.
  - unfold rest, bind, get, on_inferencer, set_last_prediction, _queue_log, modify, ret. simpl.
    intros E. inversion E; subst; clear E. simpl.
    rewrite !acquisitions_snoc, !releases_snoc. simpl. repeat split; first [lia | assumption].
  - intros E. inversion E; subst; clear E. simpl.
    rewrite !acquisitions_snoc, !releases_snoc. simpl. repeat split; first [lia | assumption].
Qed.

Lemma acquire_spec s :
  acquire s = if 0 <? semaphore s
              then Some (mkServer (world s) (inferencer_importable s) (semaphore s - 1)
                                  (queue_metrics s) (api_log s ++ [Acquire]))
              else None.
Proof. reflexivity. Qed.


(** No model: the executor answers [None], the endpoint 500. *)
Lemma perform_inference_no_model df_eval n w :
  current_model (self w) = None ->
  fst (perform_inference D df_eval n w) = Ok None.
Proof.
  intros Hm. unfold perform_inference, bind, get. simpl.
  destruct (match df_eval with Some d => Some d | None => df (self w) end); [rewrite Hm|];
    reflexivity.
Qed.

Lemma after_gate_no_model d n rid s :
  inferencer_importable s = true ->
  current_model (self (world s)) = None ->
  fst (predict_after_gate D A d n rid s)
    = Raise (HTTPException 500 "Inference skipped (see server logs)")
  /\ last_error_type (queue_metrics (snd (predict_after_gate D A d n rid s)))
    = Some "InferenceSkipped".
Proof.
  intros Hi Hm.
  destruct (predict_after_gate D A d n rid s) as [r s'] eqn:E. simpl.
  unfold predict_after_gate in E. unfold bind at 1 in E.
  destruct (enter_gate_run D s) as (b & w' & Eg & Hd). rewrite Eg in E. cbv beta iota in E.
  rewrite Hi in Hd.
  assert (Hm' : current_model (self w') = None).
  { destruct (simulate_delay_run D (world s)) as (b0 & delay & w0 & E0 & Hs & _).
    rewrite E0 in Hd. injection Hd as _ <-. rewrite Hs. exact Hm. }
  unfold bind, try_finally, try_except, execute, bind, get, get_service in E. simpl in E.
  rewrite Hi in E. simpl in E.
  unfold on_inferencer, perform_inference, bind, get in E. simpl in E.
  rewrite Hm' in E. simpl in E.
  injection E as <- <-. split; reflexivity.
Qed.

Lemma after_gate_no_inferencer d n rid s :
  inferencer_importable s = false ->
  fst (predict_after_gate D A d n rid s)
    = Raise (HTTPException 503 "Inference service not ready").
Proof.
  intros Hi.
  unfold predict_after_gate. unfold bind at 1.
  destruct (enter_gate_run D s) as (b & w' & -> & _). cbv beta iota.
  unfold bind, try_finally, try_except, execute, bind, get, get_service. simpl. rewrite Hi.
  reflexivity.
Qed.





(** C1 (amended). While no model is loaded, the executor returns [None]
    for every table and horizon, without raising.  For every request that
    passes validation and finds a free slot, the endpoint answers with the
    500-equivalent "Inference skipped (see server logs)", recorded as
    [InferenceSkipped], and gives the slot back.  The 503-equivalent
    answer is the one given while the inferencer instance itself is
    unavailable. *)
Theorem no_model_inference_skipped (req : option PredictRequest) (q : option Z)
    (rid : string) (s : Server) (d : DataFrame) (n : Z) :
  fst (predict_before_gate D A req q rid s) = Ok (Queued d n) ->
  0 < semaphore s ->
  inferencer_importable s = true ->
  current_model (self (world s)) = None ->
  (forall df_eval k, fst (perform_inference D df_eval k (world s)) = Ok None)
  /\ (exists s',
        predict D A req q rid s
          = Some (Raise (HTTPException 500 "Inference skipped (see server logs)"), s')
        /\ semaphore s' = semaphore s
        /\ last_error_type (queue_metrics s') = Some "InferenceSkipped")
  /\ (forall s2, inferencer_importable s2 = false ->
        fst (predict_after_gate D A d n rid s2)
          = Raise (HTTPException 503 "Inference service not ready")).
Proof.
  intros Hq Hfree Hi Hm.
  split; [intros; apply perform_inference_no_model, Hm|].
  split; [|intros s2 H2; apply after_gate_no_inferencer, H2].
  pose proof (before_gate_gate s req q rid s) as Hg.
  assert (Hs : gate_as s s) by (repeat split).
  specialize (Hg Hs).
  pose proof (before_gate_world req q rid s) as Hw.
  unfold predict.
  destruct (predict_before_gate D A req q rid s) as [r1 s1]; simpl in *. subst r1.
  destruct Hg as (Hsem & Hacq & Hrel & Himp).
  rewrite acquire_spec, Hsem.
  apply Z.ltb_lt in Hfree. rewrite Hfree.
  match goal with |- context [predict_after_gate D A d n rid ?st] => set (s2 := st) end.
  assert (Hi2 : inferencer_importable s2 = true) by (unfold s2; simpl; congruence).
  assert (Hm2 : current_model (self (world s2)) = None) by (unfold s2; simpl; rewrite Hw; exact Hm).
  destruct (after_gate_no_model d n rid s2 Hi2 Hm2) as [Hr Hl].
  destruct (predict_after_gate D A d n rid s2) as [r s'] eqn:E. simpl in Hr, Hl. subst r.
  exists s'. split; [reflexivity|].
  destruct (after_gate_releases _ _ _ _ _ _ E) as (Hs' & _).
  unfold s2 in Hs'. simpl in Hs'. split; [lia | exact Hl].
Qed.

End Gate.


(** With [SIMULATE_DELAY_SECS=2] a request that is cancelled while the
    handler sleeps leaves the gate one slot short: of the two slots one
    stays taken, nothing is released, and the request stays counted as
    active. *)
Lemma slot_held_when_cancelled_in_delay :
  let s := Demo.server_of (Demo.loaded Demo.sequence_model None "pytorch" 1 1 ∅) 2 in
  exists s',
    predict_cancelled_in_delay Demo.delayed_deps Demo.api_deps (Some Demo.payload3) None "r1" s
      = Some s'
    /\ semaphore s = 2 /\ semaphore s' = 1
    /\ acquisitions (api_log s') = 1%nat /\ releases (api_log s') = 0%nat
    /\ active (queue_metrics s') = 1.
Proof.
  intros s.
  destruct (predict_cancelled_in_delay Demo.delayed_deps Demo.api_deps (Some Demo.payload3)
              None "r1" s) as [s'|] eqn:E; [|exfalso; vm_compute in E; discriminate E].
  exists s'. split; [reflexivity|].
  assert (H : (semaphore s', acquisitions (api_log s'), releases (api_log s'),
               active (queue_metrics s')) = (1, 1%nat, 0%nat, 1)).
  { unfold predict_cancelled_in_delay in E.
    change s' with (default s (Some s')). rewrite <- E. vm_compute. reflexivity. }
  injection H as -> -> -> ->. repeat split.
Qed.


Lemma no_model_inference_skipped_witness :
  fst (predict_before_gate Demo.deps Demo.api_deps (Some Demo.payload3) None "r1"
         (Demo.server_of Demo.fresh 2)) = Ok (Queued Demo.prepared3 3)
  /\ 0 < semaphore (Demo.server_of Demo.fresh 2)
  /\ inferencer_importable (Demo.server_of Demo.fresh 2) = true
  /\ current_model (self (world (Demo.server_of Demo.fresh 2))) = None
  /\ exists s',
       predict Demo.deps Demo.api_deps (Some Demo.payload3) None "r1" (Demo.server_of Demo.fresh 2)
         = Some (Raise (HTTPException 500 "Inference skipped (see server logs)"), s')
       /\ semaphore s' = semaphore (Demo.server_of Demo.fresh 2)
       /\ last_error_type (queue_metrics s') = Some "InferenceSkipped".
Proof.
  assert (H1 : fst (predict_before_gate Demo.deps Demo.api_deps (Some Demo.payload3) None "r1"
                      (Demo.server_of Demo.fresh 2)) = Ok (Queued Demo.prepared3 3))
    by (vm_compute; reflexivity).
  split; [exact H1|]. split; [reflexivity|]. split; [reflexivity|]. split; [reflexivity|].
  exact (proj1 (proj2 (no_model_inference_skipped Demo.deps Demo.api_deps
                         (Some Demo.payload3) None "r1" (Demo.server_of Demo.fresh 2)
                         Demo.prepared3 3 H1 eq_refl eq_refl eq_refl))).
Defined.

(** The claim as stated fails: no model is loaded, the payload is well
    formed, and the answer is the 500-equivalent, not the 503-equivalent
    [ServiceNotReady]. *)
Lemma no_model_is_not_503 :
  current_model (self (world (Demo.server_of Demo.fresh 2))) = None
  /\ answer (predict Demo.deps Demo.api_deps (Some Demo.payload3) None "r1"
               (Demo.server_of Demo.fresh 2))
     = Some (Raise (HTTPException 500 "Inference skipped (see server logs)"))
  /\ ~ service_not_ready (Raise (HTTPException 500 "Inference skipped (see server logs)")).
Proof.
  split; [reflexivity|]. split; [vm_compute; reflexivity|].
  intros [detail H]. discriminate H.
Qed.

(** ** The tolerant predictor call *)

Section Fallbacks.
Variable D : Deps.

Lemma predictor_calls_app l1 l2 :
  predictor_calls (l1 ++ l2) = predictor_calls l1 ++ predictor_calls l2.
Proof. unfold predictor_calls. apply omap_app. Qed.

Lemma flattened_reshape window :
  PArray (reshape_flat (Arr3 [window])) = flattened window.
Proof. unfold flattened. simpl. rewrite app_nil_r. reflexivity. Qed.

(** C7. In the sequence branch the predictor call of a block tries
    exactly the three shape strategies in order (the window as given,
    shape [1, input_window_len, feature_count]; then with the leading
    singleton dimension removed; then flattened to 2-D), stops at the
    first that works, and if all three fail raises the first, original
    error, which is also what the loop body raises to its caller. *)
Theorem predict_with_fallbacks_refines (w : World) (m : Predictor)
    (window : list (list float)) :
  current_model (self w) = Some m ->
  fst (predict_with_fallbacks (Arr3 [window]) w) = fst (tolerant_predict m window)
  /\ predictor_calls (events (snd (predict_with_fallbacks (Arr3 [window]) w)))
     = predictor_calls (events w) ++ snd (tolerant_predict m window)
  /\ (forall e1 e2 e3,
        Inferencer.predict m (as_given window) = Raise e1 ->
        Inferencer.predict m (squeezed window) = Raise e2 ->
        Inferencer.predict m (flattened window) = Raise e3 ->
        fst (predict_with_fallbacks (Arr3 [window]) w) = Raise e1
        /\ snd (tolerant_predict m window)
           = [as_given window; squeezed window; flattened window]
        /\ forall c step st,
             current_sequence st = window ->
             fst (step_body D c step st w) = Raise e1).
Proof.
  intros Hm.
  assert (Hmain :
    fst (predict_with_fallbacks (Arr3 [window]) w) = fst (tolerant_predict m window)
    /\ predictor_calls (events (snd (predict_with_fallbacks (Arr3 [window]) w)))
       = predictor_calls (events w) ++ snd (tolerant_predict m window)).
  { unfold predict_with_fallbacks. rewrite flattened_reshape.
    unfold tolerant_predict, try_except, _timed_predict, as_given, squeezed.
    unfold bind, get, emit, print, modify, lift, ret, raise. simpl. rewrite Hm. simpl.
    destruct (Inferencer.predict m (PArray (Arr3 [window]))) as [r|e1]; simpl.
    { rewrite predictor_calls_app. split; reflexivity. }
    rewrite Hm. simpl.
    destruct (Inferencer.predict m (PArray (Arr2 window))) as [[a|f|]|e2]; simpl;
      try (rewrite !predictor_calls_app; simpl; rewrite <- !app_assoc; split; reflexivity).
    - rewrite Hm. simpl.
      destruct (Inferencer.predict m (flattened window)) as [[a|f|]|e3]; simpl;
        rewrite !predictor_calls_app; simpl; rewrite <- !app_assoc; split; reflexivity.
    - rewrite Hm. simpl.
      destruct (Inferencer.predict m (flattened window)) as [[a|f|]|e3]; simpl;
        rewrite !predictor_calls_app; simpl; rewrite <- !app_assoc; split; reflexivity. }
  destruct Hmain as [Hres Hcalls]. split; [exact Hres|]. split; [exact Hcalls|].
  intros e1 e2 e3 H1 H2 H3.
  assert (Ht : tolerant_predict m window
               = (Raise e1, [as_given window; squeezed window; flattened window])).
  { unfold tolerant_predict. rewrite H1, H2, H3. reflexivity. }
  rewrite Ht in Hres. simpl in Hres.
  split; [exact Hres|]. split; [rewrite Ht; reflexivity|].
  intros c step st Hw. unfold step_body, bind. rewrite Hw.
  destruct (predict_with_fallbacks (Arr3 [window]) w) as [r w']. simpl in Hres. subst r.
  reflexivity.
Qed.

End Fallbacks.

Lemma predict_with_fallbacks_refines_witness :
  let w := Demo.world_of (Demo.loaded Demo.failing_model None "pytorch" 2 1 ∅) [] in
  let window := [[1%float; 2%float]; [3%float; 4%float]] in
  current_model (self w) = Some Demo.failing_model
  /\ fst (predict_with_fallbacks (Arr3 [window]) w) = Raise (Exception "ValueError" "as given")
  /\ predictor_calls (events (snd (predict_with_fallbacks (Arr3 [window]) w)))
     = [ PArray (Arr3 [[[1%float; 2%float]; [3%float; 4%float]]]);
         PArray (Arr2 [[1%float; 2%float]; [3%float; 4%float]]);
         PArray (Arr2 [[1%float; 2%float; 3%float; 4%float]]) ].
Proof.
  intros w window.
  destruct (predict_with_fallbacks_refines Demo.deps w Demo.failing_model window eq_refl)
    as (Hres & Hcalls & _).
  split; [reflexivity|]. split; [rewrite Hres; reflexivity | rewrite Hcalls; reflexivity].
Defined.

(** ** Duplicate timestamps are rejected *)

Section Preparer.
Variable D : Deps.
Variable A : ApiDeps.




End Preparer.



(** ** The horizon handed to a statistical model *)

Section StatsHorizon.
Variable D : Deps.

Lemma inverse_scale_plain_calls dfp w :
  predictor_calls (events (snd (inverse_scale_plain dfp w))) = predictor_calls (events w).
Proof.
  unfold inverse_scale_plain, bind, get, lift, print, emit, modify, ret. simpl.
  destruct (current_scaler (self w)) as [sc|]; simpl.
  - destruct (inverse_transform sc dfp) as [inv|e]; simpl; [|reflexivity].
    destruct (mk_frame inv (index dfp) (columns dfp)); reflexivity.
  - rewrite predictor_calls_app. simpl. apply app_nil_r.
Qed.

(** After the predictor call of the statistical branch nothing calls the
    predictor again. *)
Lemma stats_tail_calls (m : Predictor) (input_dict : payload) (w : World) :
  current_model (self w) = Some m ->
  predictor_calls
    (events (snd ((o <- _timed_predict input_dict ;;
                   dfp <- lift (as_frame o) ;;
                   out <- inverse_scale_plain dfp ;;
                   print "StatsForecast Inference completed" ;;;
                   ret out) w)))
  = predictor_calls (events w) ++ [input_dict].
Proof.
  intros Hm. unfold bind at 1. unfold _timed_predict, bind, get, emit, modify, lift. simpl.
  rewrite Hm. simpl.
  destruct (Inferencer.predict m input_dict) as [o|e]; simpl;
    [|rewrite predictor_calls_app; reflexivity].
  destruct (as_frame o) as [dfp|e]; simpl; [|rewrite predictor_calls_app; reflexivity].
  match goal with |- context [inverse_scale_plain dfp ?w1] =>
    pose proof (inverse_scale_plain_calls dfp w1) as Hc;
    destruct (inverse_scale_plain dfp w1) as [[out|e] w2] end; simpl in *.
  - unfold print, emit, modify, ret. simpl.
    rewrite predictor_calls_app, Hc, predictor_calls_app. simpl. rewrite app_nil_r. reflexivity.
  - rewrite Hc, predictor_calls_app. reflexivity.
Qed.

(** C3, what the code does.  When no resampling is configured, the
    statistical branch calls the predictor exactly once, over the
    time-feature frame of the request, with [h] equal to the module
    constant [INFERENCE_LENGTH]: the horizon [n] of the request does not
    enter the call. *)
Theorem stats_horizon_without_resampling (w : World) (m : Predictor)
    (d dfp0 exog : DataFrame) (n : Z) :
  current_model (self w) = Some m ->
  no_resampling (params (self w)) ->
  select dfp0 TIME_FEATURES = Ok exog ->
  predictor_calls (events (snd (_perform_statsforecast_inference D d dfp0 n w)))
  = predictor_calls (events w) ++ [PForecast (INFERENCE_LENGTH D) (Some exog)].
Proof.
  intros Hm Hno Hsel.
  unfold _perform_statsforecast_inference.
  unfold bind at 1. unfold param at 1. unfold bind at 1. unfold get at 1. simpl.
  destruct Hno as [H0 | (f & Hd & Hf)].
  - rewrite H0. simpl. unfold bind at 1. simpl. unfold bind at 1.
    unfold bind at 1. unfold lift at 1. rewrite Hsel. simpl.
    apply (stats_tail_calls m _ w Hm).
  - rewrite Hd. simpl. unfold bind at 1.
    destruct (bool_decide (f = "0")) eqn:E0; simpl.
    + unfold bind at 1. unfold bind at 1. unfold lift at 1. rewrite Hsel. simpl.
      apply (stats_tail_calls m _ w Hm).
    + unfold bind at 1. unfold param at 1. unfold bind at 1. unfold get at 1. simpl.
      rewrite Hf. simpl. rewrite bool_decide_eq_true_2 by reflexivity.
      unfold bind at 1. unfold bind at 1. unfold lift at 1. rewrite Hsel. simpl.
      apply (stats_tail_calls m _ w Hm).
Qed.

End StatsHorizon.

Lemma stats_horizon_without_resampling_witness :
  current_model (self (Demo.world_of
      (Demo.loaded Demo.stats_model None "statsforecast" 0 0 {[ "downsampling" := "0" ]}) []))
    = Some Demo.stats_model
  /\ no_resampling ({[ "downsampling" := "0" ]} : gmap string string)
  /\ select Demo.horizon5 TIME_FEATURES = Ok Demo.exog5
  /\ predictor_calls
       (events (snd (_perform_statsforecast_inference Demo.deps Demo.table3 Demo.horizon5 5
          (Demo.world_of
             (Demo.loaded Demo.stats_model None "statsforecast" 0 0
                          {[ "downsampling" := "0" ]}) []))))
     = [PForecast 1 (Some Demo.exog5)].
Proof.
  assert (Hno : no_resampling ({[ "downsampling" := "0" ]} : gmap string string))
    by (left; vm_compute; reflexivity).
  assert (Hsel : select Demo.horizon5 TIME_FEATURES = Ok Demo.exog5)
    by (vm_compute; reflexivity).
  split; [reflexivity|]. split; [exact Hno|]. split; [exact Hsel|].
  exact (stats_horizon_without_resampling Demo.deps
           (Demo.world_of
              (Demo.loaded Demo.stats_model None "statsforecast" 0 0
                           {[ "downsampling" := "0" ]}) [])
           Demo.stats_model Demo.table3 Demo.horizon5 Demo.exog5 5 eq_refl Hno Hsel).
Defined.

(** The same through the endpoint: a request for five steps, the process
    default being one step, reaches the predictor with [h = 1] and is
    answered with one row. *)
Example stats_request_horizon_ignored :
  INFERENCE_LENGTH Demo.deps = 1
  /\ calls_after
       (predict Demo.deps Demo.api_deps (Some Demo.payload3) (Some 5) "r1"
          (Demo.server_of
             (Demo.loaded Demo.stats_model None "statsforecast" 0 0
                          {[ "downsampling" := "0" ]}) 2))
     = Some [PForecast 1 (Some Demo.exog5)].
Proof. split; [reflexivity | vm_compute; reflexivity]. Qed.

(** With resampling configured the horizon is recomputed: five steps at
    one minute for a model trained at five minutes are one step; seven
    steps at two minutes are three. *)
Example resampled_length_examples :
  resampled_length 5 Demo.minute (5 * Demo.minute) = Ok 1
  /\ resampled_length 7 (2 * Demo.minute) (5 * Demo.minute) = Ok 3
  /\ resampled_length 10 Demo.minute (5 * Demo.minute) = Ok 2.
Proof. repeat split; vm_compute; reflexivity. Qed.

(** ** Failure of the inverse transform *)

Section InverseScaling.
Variable D : Deps.

(** The sequence branch never fails in its inverse-scaling block. *)
Lemma inverse_scale_guarded_total dfp w :
  exists out, fst (inverse_scale_guarded D dfp w) = Ok out.
Proof.
  unfold inverse_scale_guarded, bind, get, try_except, lift, print, emit, modify, ret. simpl.
  destruct (current_scaler (self w)) as [sc|]; simpl; [|eexists; reflexivity].
  destruct (match feature_names_in_ sc with [] => feature_names sc | _ => _ end) as [|c cs];
    simpl.
  - destruct (inverse_transform sc dfp) as [inv|e]; simpl; [|eexists; reflexivity].
    destruct (mk_frame inv (index dfp) (columns dfp)); simpl; eexists; reflexivity.
  - destruct (subset_scaler D sc (c :: cs) (columns dfp)) as [sub|e]; simpl;
      [|eexists; reflexivity].
    destruct (inverse_transform sub dfp) as [inv|e]; simpl; [|eexists; reflexivity].
    destruct (mk_frame inv (index dfp) (columns dfp)); simpl; eexists; reflexivity.
Qed.

(** When the scaler itself raises there, the raw frame is returned and
    the failure is logged. *)
Lemma inverse_scale_guarded_raw dfp w sc e :
  current_scaler (self w) = Some sc ->
  feature_names_in_ sc = [] -> feature_names sc = [] ->
  inverse_transform sc dfp = Raise e ->
  inverse_scale_guarded D dfp w
  = (Ok dfp,
     mkWorld (self w)
             (events w ++ [Print "[Warning] inverse scaling failed; returning raw predictions."])
             (objects w) (post_file_faults w) (get_file_faults w)).
Proof.
  intros Hs H1 H2 He.
  unfold inverse_scale_guarded, bind, get, try_except, lift, print, emit, modify, ret. simpl.
  rewrite Hs, H1, H2. simpl. rewrite He. reflexivity.
Qed.

(** A missing scaler gives the raw frame and a warning, in both forms of
    the block. *)
Lemma inverse_scale_missing_scaler dfp w :
  current_scaler (self w) = None ->
  fst (inverse_scale_guarded D dfp w) = Ok dfp
  /\ fst (inverse_scale_plain dfp w) = Ok dfp
  /\ events (snd (inverse_scale_plain dfp w))
     = events w ++ [Print "[Warning] current_scaler is None. Returning raw predictions."].
Proof.
  intros Hs.
  unfold inverse_scale_guarded, inverse_scale_plain, bind, get, print, emit, modify, ret.
  simpl. rewrite Hs. repeat split; reflexivity.
Qed.

Lemma stats_tail_raises (m : Predictor) (sc : Scaler) (input_dict : payload)
    (f : DataFrame) (e : exn) (w : World) :
  current_model (self w) = Some m ->
  current_scaler (self w) = Some sc ->
  Inferencer.predict m input_dict = Ok (OFrame f) ->
  inverse_transform sc f = Raise e ->
  fst ((o <- _timed_predict input_dict ;;
        dfp <- lift (as_frame o) ;;
        out <- inverse_scale_plain dfp ;;
        print "StatsForecast Inference completed" ;;;
        ret out) w) = Raise e.
Proof.
  intros Hm Hs Hp He.
  unfold _timed_predict, inverse_scale_plain, bind, get, emit, modify, lift. simpl.
  rewrite Hm. simpl. rewrite Hp. simpl. rewrite Hs. simpl. rewrite He. reflexivity.
Qed.

(** C8, what the code does.  In the seasonal and the multi-horizon-stats
    branch the inverse transform is called outside any [try]: when it
    raises, the branch raises the same exception and the request fails.
    Only the sequence branch contains the failure. *)
Theorem inverse_scaling_failure_propagates (w : World) (m : Predictor) (sc : Scaler)
    (f : DataFrame) (e : exn) (d dfp0 : DataFrame) (n : Z) :
  current_model (self w) = Some m ->
  current_scaler (self w) = Some sc ->
  inverse_transform sc f = Raise e ->
  (Inferencer.predict m (PFrame dfp0) = Ok (OFrame f) ->
   fst (_perform_prophet_inference d dfp0 n w) = Raise e)
  /\ (forall exog,
        no_resampling (params (self w)) ->
        select dfp0 TIME_FEATURES = Ok exog ->
        Inferencer.predict m (PForecast (INFERENCE_LENGTH D) (Some exog)) = Ok (OFrame f) ->
        fst (_perform_statsforecast_inference D d dfp0 n w) = Raise e)
  /\ exists out, fst (inverse_scale_guarded D f w) = Ok out.
Proof.
  intros Hm Hs He. split; [|split].
  - intros Hp.
    unfold _perform_prophet_inference, _timed_predict, inverse_scale_plain,
      bind, get, emit, modify, lift. simpl.
    rewrite Hm. simpl. rewrite Hp. simpl. rewrite Hs. simpl. rewrite He. reflexivity.
  - intros exog Hno Hsel Hp.
    unfold _perform_statsforecast_inference.
    unfold bind at 1. unfold param at 1. unfold bind at 1. unfold get at 1. simpl.
    destruct Hno as [H0 | (fr & Hd & Hf)].
    + rewrite H0. simpl. unfold bind at 1. simpl. unfold bind at 1.
      unfold bind at 1. unfold lift at 1. rewrite Hsel. simpl.
      apply (stats_tail_raises m sc _ f e w Hm Hs Hp He).
    + rewrite Hd. simpl. unfold bind at 1.
      destruct (bool_decide (fr = "0")) eqn:E0; simpl.
      * unfold bind at 1. unfold bind at 1. unfold lift at 1. rewrite Hsel. simpl.
        apply (stats_tail_raises m sc _ f e w Hm Hs Hp He).
      * unfold bind at 1. unfold param at 1. unfold bind at 1. unfold get at 1. simpl.
        rewrite Hf. simpl. rewrite bool_decide_eq_true_2 by reflexivity.
        unfold bind at 1. unfold bind at 1. unfold lift at 1. rewrite Hsel. simpl.
        apply (stats_tail_raises m sc _ f e w Hm Hs Hp He).
  - apply inverse_scale_guarded_total.
Qed.

End InverseScaling.

Lemma inverse_scaling_failure_propagates_witness :
  current_model (self (Demo.world_of
      (Demo.loaded Demo.seasonal_model (Some Demo.broken_scaler) "prophet" 0 0 ∅) []))
    = Some Demo.seasonal_model
  /\ current_scaler (self (Demo.world_of
      (Demo.loaded Demo.seasonal_model (Some Demo.broken_scaler) "prophet" 0 0 ∅) []))
    = Some Demo.broken_scaler
  /\ fst (_perform_prophet_inference Demo.table3 Demo.horizon5 5
            (Demo.world_of
               (Demo.loaded Demo.seasonal_model (Some Demo.broken_scaler) "prophet" 0 0 ∅) []))
     = Raise (Exception "ValueError"
                "X has 1 features, but MinMaxScaler is expecting 2 features as input").
Proof.
  split; [reflexivity|]. split; [reflexivity|].
  refine (proj1 (inverse_scaling_failure_propagates Demo.deps
                   (Demo.world_of
                      (Demo.loaded Demo.seasonal_model (Some Demo.broken_scaler) "prophet" 0 0 ∅) [])
                   Demo.seasonal_model Demo.broken_scaler
                   (mkDataFrame (index Demo.horizon5) ["value"]
                                ((fun _ => [1%float]) <$> index Demo.horizon5))
                   _ Demo.table3 Demo.horizon5 5 eq_refl eq_refl eq_refl) _).
  reflexivity.
Defined.

(** The same through the endpoint: a seasonal model whose scaler rejects
    the frame fails the whole request with the 500-equivalent, where the
    sequence model answers with the raw values. *)
Example seasonal_request_fails_on_scaler :
  answer (predict Demo.deps Demo.api_deps (Some Demo.payload3) (Some 5) "r1"
            (Demo.server_of
               (Demo.loaded Demo.seasonal_model (Some Demo.broken_scaler) "prophet" 0 0 ∅) 2))
    = Some (Raise (HTTPException 500 "Inference execution failed"))
  /\ exists r,
       answer (predict Demo.deps Demo.api_deps (Some Demo.payload3) (Some 2) "r1"
                 (Demo.server_of
                    (Demo.loaded Demo.sequence_model (Some Demo.broken_scaler) "pytorch" 1 1 ∅) 2))
       = Some (Ok (Fresh r))
       /\ length (predictions r) = 2%nat.
Proof.
  split; [vm_compute; reflexivity|].
  eexists. split; [vm_compute; reflexivity | reflexivity].
Qed.

(** ** Deduplication of the log line *)

Section Dedup.
Variable D : Deps.

Lemma appends_app l1 l2 : appends (l1 ++ l2) = (appends l1 + appends l2)%nat.
Proof. unfold appends. rewrite List.filter_app, length_app. reflexivity. Qed.

Lemma appends_snoc l e :
  appends (l ++ [e])
  = (appends l + match e with PostFile _ _ _ true => 1 | _ => 0 end)%nat.
Proof. rewrite appends_app. f_equal. destruct e as [| | | ? ? ? []| |]; reflexivity. Qed.

(** The guarded fetch never raises and only records the call; a fetch
    the gateway fails answers as if there were no object. *)
Lemma fetch_guarded bucket key w :
  exists o w1,
    try_except (get_file bucket key) (fun _ => ret None) w = (Ok o, w1)
    /\ self w1 = self w
    /\ post_file_faults w1 = post_file_faults w
    /\ objects w1 = objects w
    /\ events w1 = events w ++ [GetFile bucket key]
    /\ get_file_faults w1 = tail (get_file_faults w)
    /\ o = match get_file_faults w with
           | true :: _ => None
           | _ => objects w !! (bucket, key)
           end.
Proof.
  unfold try_except, get_file, ret.
  destruct (get_file_faults w) as [|[|] rest]; simpl;
    eexists; eexists; (split; [reflexivity|]); simpl; repeat split.
Qed.

(** An attempt the gateway fails: nothing is appended and the loop goes
    on with the next attempt. *)
Lemma upload_attempt_fails bucket key line attempt rest w faults :
  post_file_faults w = true :: faults ->
  exists w1,
    upload_attempts D bucket key line (attempt :: rest) w
      = upload_attempts D bucket key line rest w1
    /\ self w1 = self w
    /\ post_file_faults w1 = faults
    /\ appends (events w1) = appends (events w).
Proof.
  intros Hf. simpl upload_attempts.
  unfold bind at 1. unfold try_except at 1. unfold bind at 1.
  destruct (fetch_guarded bucket key w) as (o & w0 & -> & Hs & Hp & _ & He & _).
  unfold bind at 1. unfold post_file at 1. rewrite Hp, Hf. cbv beta iota.
  destruct (attempt =? 3); [destruct (USE_KAFKA D)|];
    unfold bind, emit, print, modify, ret; cbv beta iota;
    eexists; (split; [reflexivity|]); simpl;
    rewrite ?appends_snoc, ?He, ?appends_snoc; simpl; repeat split;
    first [assumption | lia].
Qed.

(** An attempt that goes through appends once and ends the loop. *)
Lemma upload_attempt_succeeds bucket key line attempt rest w :
  (forall faults, post_file_faults w <> true :: faults) ->
  exists w',
    upload_attempts D bucket key line (attempt :: rest) w = (Ok tt, w')
    /\ self w' = self w
    /\ appends (events w') = S (appends (events w)).
Proof.
  intros Hf. simpl upload_attempts.
  unfold bind at 1. unfold try_except at 1. unfold bind at 1.
  destruct (fetch_guarded bucket key w) as (o & w0 & -> & Hs & Hp & _ & He & _).
  unfold bind at 1. unfold post_file at 1. rewrite Hp.
  destruct (post_file_faults w) as [|[|] faults]; cbv beta iota.
  - unfold bind, print, emit, modify, ret. simpl. eexists. split; [reflexivity|]. simpl.
    rewrite !appends_snoc, He, appends_snoc. simpl. split; [assumption | lia].
  - exfalso. apply (Hf faults). reflexivity.
  - unfold bind, print, emit, modify, ret. simpl. eexists. split; [reflexivity|]. simpl.
    rewrite !appends_snoc, He, appends_snoc. simpl. split; [assumption | lia].
Qed.

(** The append loop never raises, leaves the instance alone, and appends
    once if one of its attempts goes through, not at all otherwise. *)
Lemma upload_attempts_spec bucket key line attempts w :
  exists w',
    upload_attempts D bucket key line attempts w = (Ok tt, w')
    /\ self w' = self w
    /\ appends (events w')
       = (appends (events w)
          + if some_attempt_succeeds (post_file_faults w) (length attempts) then 1 else 0)%nat.
Proof.
  revert w. induction attempts as [|attempt rest IH]; intros w.
  - exists w. simpl. repeat split; first [reflexivity | lia].
  - simpl length. simpl some_attempt_succeeds.
    destruct (post_file_faults w) as [|[|] faults] eqn:Hf.
    + destruct (upload_attempt_succeeds bucket key line attempt rest w) as (w' & H1 & H2 & H3).
      { intros faults. rewrite Hf. discriminate. }
      exists w'. repeat split; [exact H1 | exact H2 | lia].
    + destruct (upload_attempt_fails bucket key line attempt rest w faults Hf)
        as (w1 & Heq & Hs & Hp & Ha).
      rewrite Heq. destruct (IH w1) as (w' & H1 & H2 & H3). rewrite Hp in H3.
      exists w'. repeat split; [exact H1 | congruence | lia].
    + destruct (upload_attempt_succeeds bucket key line attempt rest w) as (w' & H1 & H2 & H3).
      { intros faults'. rewrite Hf. discriminate. }
      exists w'. repeat split; [exact H1 | exact H2 | lia].
Qed.

Lemma nonempty_true (s : string) : s <> "" -> nonempty s = true.
Proof. intros H. unfold nonempty. rewrite bool_decide_eq_false_2 by exact H. reflexivity. Qed.

Local Opaque upload_attempts.

(** One call of [_save_and_publish_predictions] with a usable dedup key:
    it never raises; afterwards the key is recorded; a repeated key is
    skipped without a write, a new key leads to at most one append. *)
Lemma save_call_spec (w : World) (t : DataFrame) (d : option DataFrame) (r h : string) :
  INFERENCE_DISABLE_LOG_UPLOAD D = false ->
  current_run_id (self w) = Some r -> r <> "" ->
  sha256_16 D (head_rows 3 t) = Ok h -> h <> "" ->
  exists w',
    _save_and_publish_predictions D t d w = (Ok tt, w')
    /\ current_run_id (self w') = Some r
    /\ (r, h) ∈ _emitted_prediction_keys (self w')
    /\ (if bool_decide ((r, h) ∈ _emitted_prediction_keys (self w))
        then events w' = events w ++ [Print "duplicate_prediction_skip"]
             /\ objects w' = objects w
        else appends (events w')
             = (appends (events w)
                + if some_attempt_succeeds (post_file_faults w) 3 then 1 else 0)%nat).
Proof.
  intros Hdis Hrun Hr Hhash Hh.
  unfold _save_and_publish_predictions. rewrite Hdis.
  unfold bind at 1. unfold get at 1. simpl.
  rewrite Hrun, Hhash. simpl. rewrite (nonempty_true r Hr), (nonempty_true h Hh). simpl.
  destruct (bool_decide ((r, h) ∈ _emitted_prediction_keys (self w))) eqn:Hk.
  - unfold bind, print, emit, modify, ret. simpl.
    eexists. split; [reflexivity|]. simpl.
    apply bool_decide_eq_true_1 in Hk. repeat split; assumption.
  - unfold bind at 1. unfold modify at 1. simpl. unfold bind at 1.
    match goal with |- context [upload_attempts D ?b ?k ?l ?a ?w1] =>
      destruct (upload_attempts_spec b k l a w1) as (w2 & Heq & Hs & Ha); rewrite Heq
    end.
    simpl in Hs, Ha. simpl.
    destruct (USE_KAFKA D); unfold emit, set_last_prediction, modify; simpl;
      eexists; (split; [reflexivity|]); simpl; rewrite ?Hs; simpl.
    + rewrite appends_snoc. simpl. repeat split; [exact Hrun | set_solver | lia].
    + repeat split; [exact Hrun | set_solver | lia].
Qed.

Local Transparent upload_attempts.

(** C9 (amended). Two consecutive calls of
    [_save_and_publish_predictions] for the same prediction table, under
    a non-empty run identifier and with a non-empty content hash (log
    upload not disabled): neither call raises; the second call is skipped
    as a duplicate and writes nothing; the two calls together perform one
    append if the key had not been emitted before and one of the up to
    three upload attempts of the first call goes through, and no append
    otherwise. *)
Theorem duplicate_prediction_skipped (w : World) (t : DataFrame)
    (d1 d2 : option DataFrame) (r h : string) :
  INFERENCE_DISABLE_LOG_UPLOAD D = false ->
  current_run_id (self w) = Some r -> r <> "" ->
  sha256_16 D (head_rows 3 t) = Ok h -> h <> "" ->
  exists w1 w2,
    _save_and_publish_predictions D t d1 w = (Ok tt, w1)
    /\ _save_and_publish_predictions D t d2 w1 = (Ok tt, w2)
    /\ events w2 = events w1 ++ [Print "duplicate_prediction_skip"]
    /\ objects w2 = objects w1
    /\ appends (events w2)
       = (appends (events w)
          + if bool_decide ((r, h) ∈ _emitted_prediction_keys (self w)) then 0
            else if some_attempt_succeeds (post_file_faults w) 3 then 1 else 0)%nat.
Proof.
  intros Hdis Hrun Hr Hhash Hh.
  destruct (save_call_spec w t d1 r h Hdis Hrun Hr Hhash Hh) as (w1 & E1 & Hrun1 & Hkey1 & H1).
  destruct (save_call_spec w1 t d2 r h Hdis Hrun1 Hr Hhash Hh) as (w2 & E2 & _ & _ & H2).
  rewrite (bool_decide_eq_true_2 _ Hkey1) in H2. destruct H2 as [Hev Hobj].
  exists w1, w2. repeat split; try assumption.
  rewrite Hev, appends_snoc. cbv beta iota.
  destruct (bool_decide ((r, h) ∈ _emitted_prediction_keys (self w))).
  - destruct H1 as [Hev1 _]. rewrite Hev1, appends_snoc. cbv beta iota. lia.
  - rewrite H1. lia.
Qed.

End Dedup.

Lemma duplicate_prediction_skipped_witness :
  INFERENCE_DISABLE_LOG_UPLOAD Demo.deps = false
  /\ current_run_id (self (Demo.world_of
        (Demo.loaded Demo.sequence_model None "pytorch" 1 1 ∅) [true])) = Some "run123"
  /\ "run123" <> ""
  /\ sha256_16 Demo.deps (head_rows 3 Demo.table3) = Ok "rows3"
  /\ "rows3" <> ""
  /\ exists w1 w2,
       _save_and_publish_predictions Demo.deps Demo.table3 None
         (Demo.world_of (Demo.loaded Demo.sequence_model None "pytorch" 1 1 ∅) [true])
       = (Ok tt, w1)
       /\ _save_and_publish_predictions Demo.deps Demo.table3 None w1 = (Ok tt, w2)
       /\ appends (events w2) = 1%nat.
Proof.
  assert (Hr : "run123" <> "") by discriminate.
  assert (Hh : "rows3" <> "") by discriminate.
  assert (Hs : sha256_16 Demo.deps (head_rows 3 Demo.table3) = Ok "rows3")
    by (vm_compute; reflexivity).
  split; [reflexivity|]. split; [reflexivity|]. split; [exact Hr|].
  split; [exact Hs|]. split; [exact Hh|].
  destruct (duplicate_prediction_skipped Demo.deps
              (Demo.world_of (Demo.loaded Demo.sequence_model None "pytorch" 1 1 ∅) [true])
              Demo.table3 None None "run123" "rows3" eq_refl eq_refl Hr Hs Hh)
    as (w1 & w2 & E1 & E2 & _ & _ & Ha).
  exists w1, w2. split; [exact E1|]. split; [exact E2|].
  rewrite Ha. vm_compute. reflexivity.
Defined.

(** The claim as stated fails: the gateway is down for the three upload
    attempts of the first call, the key is recorded all the same, and the
    second call is skipped; the two calls together append nothing. *)
Lemma no_append_when_sink_down :
  exists w1 w2,
    _save_and_publish_predictions Demo.deps Demo.table3 None
      (Demo.world_of (Demo.loaded Demo.sequence_model None "pytorch" 1 1 ∅)
                     [true; true; true])
    = (Ok tt, w1)
    /\ _save_and_publish_predictions Demo.deps Demo.table3 None w1 = (Ok tt, w2)
    /\ current_run_id (self w1) = Some "run123"
    /\ appends (events w2) = 0%nat
    /\ objects w2 = ∅.
Proof.
  eexists. eexists.
  split; [vm_compute; reflexivity|].
  split; [vm_compute; reflexivity|].
  split; [reflexivity|]. split; reflexivity.
Qed.

(** ** The number of predicted rows *)

Section ReturnRules.
Context {S : Type}.

Lemma returns_ret {T} (a : T) (P : T -> Prop) : P a -> returns (@ret S T a) P.
Proof. intros H s b s' E. inversion E; subst. exact H. Qed.

Lemma returns_raise {T} e (P : T -> Prop) : returns (@raise S T e) P.
Proof. intros s b s' E. discriminate E. Qed.

Lemma returns_lift {T} (r : result T) (P : T -> Prop) :
  (forall a, r = Ok a -> P a) -> returns (@lift S T r) P.
Proof. intros H s b s' E. unfold lift in E. inversion E; subst. apply H. reflexivity. Qed.

Lemma returns_bind {T U} (m : M S T) (k : T -> M S U) (Q : T -> Prop) (P : U -> Prop) :
  returns m Q -> (forall a, Q a -> returns (k a) P) -> returns (bind m k) P.
Proof.
  intros Hm Hk s b s' E. unfold bind in E.
  destruct (m s) as [[a|e] s1] eqn:Em; [|discriminate E].
  exact (Hk a (Hm _ _ _ Em) _ _ _ E).
Qed.

Lemma returns_bind_any {T U} (m : M S T) (k : T -> M S U) (P : U -> Prop) :
  (forall a, returns (k a) P) -> returns (bind m k) P.
Proof.
  intros Hk. apply (returns_bind m k (fun _ => True)); [intros ? ? ? ?; exact I|].
  intros a _. apply Hk.
Qed.

Lemma returns_try_except {T} (body : M S T) (handler : exn -> M S T) (P : T -> Prop) :
  returns body P -> (forall e, returns (handler e) P) ->
  returns (try_except body handler) P.
Proof.
  intros Hb Hh s b s' E. unfold try_except in E.
  destruct (body s) as [[a|e] s1] eqn:Eb.
  - inversion E; subst. exact (Hb _ _ _ Eb).
  - exact (Hh e _ _ _ E).
Qed.

Lemma returns_try_finally {T} (body : M S T) (fin : M S unit) (P : T -> Prop) :
  returns body P -> returns (try_finally body fin) P.
Proof.
  intros Hb s b s' E. unfold try_finally in E.
  destruct (body s) as [r s1] eqn:Eb. destruct (fin s1) as [[u|e] s2]; [|discriminate E].
  inversion E; subst. exact (Hb _ _ _ Eb).
Qed.

Lemma returns_in_weaken {T} (I : S -> Prop) (m : M S T) (P : T -> Prop) :
  returns m P -> returns_in I m P.
Proof. intros H s a s' _ E. exact (H _ _ _ E). Qed.

Lemma returns_in_get (I : S -> Prop) : returns_in I get I.
Proof. intros s a s' H E. unfold get in E. inversion E; subst. exact H. Qed.

Lemma returns_in_bind {T U} (I : S -> Prop) (m : M S T) (k : T -> M S U)
    (Q : T -> Prop) (P : U -> Prop) :
  preserves I m -> returns_in I m Q -> (forall a, Q a -> returns_in I (k a) P) ->
  returns_in I (bind m k) P.
Proof.
  intros Hp Hm Hk s b s' Hs E. unfold bind in E.
  pose proof (Hp s Hs) as Hs1.
  destruct (m s) as [[a|e] s1] eqn:Em; [|discriminate E].
  exact (Hk a (Hm _ _ _ Hs Em) _ _ _ Hs1 E).
Qed.

Lemma returns_in_bind_last {T U} (I : S -> Prop) (m : M S T) (k : T -> M S U)
    (Q : T -> Prop) (P : U -> Prop) :
  returns_in I m Q -> (forall a, Q a -> returns (k a) P) ->
  returns_in I (bind m k) P.
Proof.
  intros Hm Hk s b s' Hs E. unfold bind in E.
  destruct (m s) as [[a|e] s1] eqn:Em; [|discriminate E].
  exact (Hk a (Hm _ _ _ Hs Em) _ _ _ E).
Qed.

Lemma returns_in_try_finally {T} (I : S -> Prop) (body : M S T) (fin : M S unit)
    (P : T -> Prop) :
  returns_in I body P -> returns_in I (try_finally body fin) P.
Proof.
  intros Hb s b s' Hs E. unfold try_finally in E.
  destruct (body s) as [r s1] eqn:Eb. destruct (fin s1) as [[u|e] s2]; [|discriminate E].
  inversion E; subst. exact (Hb _ _ _ Hs Eb).
Qed.

End ReturnRules.

Section RowCount.
Variable D : Deps.

Lemma over_index_len idx f : over_index idx f -> len f = Z.of_nat (length idx).
Proof. intros [H _]. unfold len. rewrite H. reflexivity. Qed.

Lemma loc_rows_length allcols label cols vals idx rows rows' :
  loc_rows allcols label cols vals idx rows = Ok rows' -> length rows' = length rows.
Proof.
  revert rows rows'. induction idx as [|t idx IH]; intros rows rows' E.
  - destruct rows; simpl in E; inversion E; reflexivity.
  - destruct rows as [|r rows]; simpl in E; [inversion E; reflexivity|].
    destruct (if bool_decide (t = label) then write_cells allcols r cols vals else Ok r)
      as [r'|e]; [|discriminate E].
    destruct (loc_rows allcols label cols vals idx rows) as [rest|e] eqn:Er; [|discriminate E].
    inversion E; subst. simpl. f_equal. apply (IH _ _ Er).
Qed.

Lemma loc_set_over_index idx f label cols vals f' :
  over_index idx f -> loc_set f label cols vals = Ok f' -> over_index idx f'.
Proof.
  intros [Hi Hv] E. unfold loc_set in E.
  destruct (loc_rows (columns f) label cols vals (index f) (values f)) as [rows|e] eqn:Er;
    [|discriminate E].
  inversion E; subst. split; simpl; [reflexivity|].
  rewrite (loc_rows_length _ _ _ _ _ _ _ Er). exact Hv.
Qed.

Lemma set_column_over_index idx f c col :
  over_index idx f -> length col = length idx -> over_index idx (set_column f c col).
Proof.
  intros [Hi Hv] Hc. unfold set_column.
  destruct (col_pos (columns f) c); split; simpl; try exact Hi;
    rewrite length_zip_with; lia.
Qed.

Lemma nan_frame_over_index idx cols : over_index idx (nan_frame idx cols).
Proof. split; simpl; [reflexivity | apply length_replicate]. Qed.

Lemma time_to_feature_over_index idx f :
  over_index idx f -> over_index idx (time_to_feature D f).
Proof.
  unfold time_to_feature. generalize TIME_FEATURES. intros names. revert f.
  induction names as [|c names IH]; intros f H; simpl; [exact H|].
  apply IH. apply set_column_over_index; [exact H|].
  rewrite length_fmap. destruct H as [-> _]. reflexivity.
Qed.

Lemma drop_columns_over_index idx f cols f' :
  over_index idx f -> drop_columns f cols = Ok f' -> over_index idx f'.
Proof.
  intros [Hi Hv] E. unfold drop_columns in E.
  destruct (List.filter _ cols); [|discriminate E].
  inversion E; subst. split; simpl; [reflexivity | rewrite length_fmap; exact Hv].
Qed.

Lemma mk_frame_over_index data idx cols f :
  mk_frame data idx cols = Ok f -> over_index idx f.
Proof.
  unfold mk_frame, shape_ok. intros E.
  destruct (bool_decide (length data = length idx)) eqn:Hl; simpl in E; [|discriminate E].
  destruct (forallb _ data); [|discriminate E].
  inversion E; subst. split; simpl; [reflexivity | exact (bool_decide_eq_true_1 _ Hl)].
Qed.

(** The forecasting loop writes into rows of the prediction frame and
    never adds or removes one. *)
Lemma block_step_over_index idx c multi_step_pred step i st :
  over_index idx (df_predictions st) ->
  returns (block_step D c multi_step_pred step i st)
          (fun r => over_index idx (df_predictions (fst r))).
Proof.
  intros H. unfold block_step.
  destruct (local_inference_length c <=? step + i); [apply returns_ret; exact H|].
  apply returns_bind_any; intros pred.
  apply (returns_bind _ _ (over_index idx)).
  - destruct (Z.of_nat (length pred) =? Z.of_nat (length (FEATURES c))).
    + apply returns_bind_any; intros label. apply returns_lift. intros a Ea.
      exact (loc_set_over_index _ _ _ _ _ _ H Ea).
    + destruct (Z.of_nat (length pred) =? 1).
      * apply returns_bind_any; intros label. apply returns_lift. intros a Ea.
        exact (loc_set_over_index _ _ _ _ _ _ H Ea).
      * apply returns_bind_any; intros u. apply returns_ret. exact H.
  - intros dfp Hd.
    destruct (SAMPLE_IDX D + (step + i) + 1 <? Z.of_nat (length (X (X_eval_tensor c)))).
    + apply returns_bind_any; intros window. apply returns_ret. exact Hd.
    + destruct (step + i + 1 - available_future_steps c <? len dfp).
      * apply returns_bind_any; intros window. apply returns_bind_any; intros u.
        apply returns_ret. exact Hd.
      * apply returns_bind_any; intros u. apply returns_ret. exact Hd.
Qed.

Lemma block_loop_over_index idx c multi_step_pred step todo st :
  over_index idx (df_predictions st) ->
  returns (block_loop D c multi_step_pred step todo st)
          (fun st' => over_index idx (df_predictions st')).
Proof.
  revert st. induction todo as [|i rest IH]; intros st H; simpl.
  - apply returns_ret. exact H.
  - eapply returns_bind; [apply (block_step_over_index idx), H|].
    intros [st1 brk] H1. simpl in *.
    destruct brk; [apply returns_ret; exact H1 | apply IH, H1].
Qed.

Lemma step_body_over_index idx c step st :
  over_index idx (df_predictions st) ->
  returns (step_body D c step st) (fun st' => over_index idx (df_predictions st')).
Proof.
  intros H. unfold step_body.
  apply returns_bind_any; intros multi_step_pred.
  eapply returns_bind; [apply (block_loop_over_index idx), H|].
  intros st1 H1. apply returns_bind_any; intros u. apply returns_ret. exact H1.
Qed.

Lemma forecast_loop_over_index idx c steps st :
  over_index idx (df_predictions st) ->
  returns (forecast_loop D c steps st) (fun st' => over_index idx (df_predictions st')).
Proof.
  revert st. induction steps as [|step rest IH]; intros st H; simpl.
  - apply returns_ret. exact H.
  - eapply returns_bind; [apply (step_body_over_index idx), H|].
    intros st1 H1. apply IH, H1.
Qed.

(** Inverse scaling keeps the index, whether it succeeds or falls back
    to the raw frame. *)
Lemma inverse_scale_guarded_over_index idx dfp :
  over_index idx dfp -> returns (inverse_scale_guarded D dfp) (over_index idx).
Proof.
  intros H. unfold inverse_scale_guarded.
  apply returns_bind_any; intros w.
  destruct (current_scaler (self w)) as [sc|].
  - apply returns_try_except.
    + apply returns_bind_any; intros sub. apply returns_bind_any; intros inv.
      apply returns_lift. intros a Ea. destruct H as [Hi _]. rewrite <- Hi.
      exact (mk_frame_over_index _ _ _ _ Ea).
    + intros e. apply returns_bind_any; intros u. apply returns_ret. exact H.
  - apply returns_bind_any; intros u. apply returns_ret. exact H.
Qed.

Lemma pytorch_over_index idx d dfp0 n :
  over_index idx dfp0 ->
  returns (_perform_pytorch_inference D d dfp0 n) (over_index idx).
Proof.
  intros H. unfold _perform_pytorch_inference.
  apply returns_bind_any; intros w.
  apply returns_bind_any; intros X_eval.
  apply returns_bind_any; intros first.
  match goal with |- returns (bind (forecast_loop D ?c ?steps ?st0) _) _ =>
    apply (returns_bind _ _ (fun st' => over_index idx (df_predictions st')));
      [apply forecast_loop_over_index|] end.
  - simpl. destruct (has_col dfp0 _); [exact H|].
    apply set_column_over_index; [exact H|].
    rewrite length_replicate. destruct H as [-> _]. reflexivity.
  - intros st Hst.
    apply (returns_bind _ _ (over_index idx)).
    + apply returns_lift. intros a Ea. exact (drop_columns_over_index _ _ _ _ Hst Ea).
    + intros dfp2 H2.
      apply (returns_bind _ _ (over_index idx));
        [apply inverse_scale_guarded_over_index, H2|].
      intros out Hout. repeat (apply returns_bind_any; intros ?). apply returns_ret. exact Hout.
Qed.

Lemma date_range_length start n freq idx :
  date_range start n freq = Ok idx -> length idx = Z.to_nat n /\ 0 <= n.
Proof.
  unfold date_range. destruct (n <? 0) eqn:Hn; [discriminate|].
  intros [= <-]. unfold range. rewrite !length_fmap, length_seq.
  split; [reflexivity | apply Z.ltb_ge, Hn].
Qed.

(** The seasonal branch, and the tail of the statistical branch: one
    predictor call, and the table returned has the index of the frame the
    predictor answered with. *)
Lemma predict_then_scale (input_dict : payload) (msg : string) (s : World)
    (out : DataFrame) (s' : World) :
  (o <- _timed_predict input_dict ;;
   dfp <- lift (as_frame o) ;;
   out <- inverse_scale_plain dfp ;;
   print msg ;;;
   ret out) s = (Ok out, s') ->
  exists m f,
    current_model (self s) = Some m
    /\ Inferencer.predict m input_dict = Ok (OFrame f)
    /\ index out = index f.
Proof.
  unfold _timed_predict, inverse_scale_plain, bind, get, emit, print, modify, lift, ret.
  simpl. destruct (current_model (self s)) as [m|]; [|discriminate]. simpl.
  destruct (Inferencer.predict m input_dict) as [[a|f|]|e] eqn:Ep; simpl; try discriminate.
  destruct (current_scaler (self s)) as [sc|]; simpl.
  - destruct (inverse_transform sc f) as [inv|e]; simpl; [|discriminate].
    destruct (mk_frame inv (index f) (columns f)) as [g|e] eqn:Eg; simpl; [|discriminate].
    intros [= <- _]. exists m, f.
    destruct (mk_frame_over_index _ _ _ _ Eg) as [Hi _].
    split; [reflexivity|]. split; [exact Ep | exact Hi].
  - intros [= <- _]. exists m, f.
    split; [reflexivity|]. split; [exact Ep | reflexivity].
Qed.

Lemma select_index f cols g : select f cols = Ok g -> index g = index f.
Proof.
  unfold select. destruct (List.filter _ cols); [|discriminate].
  intros [= <-]. reflexivity.
Qed.


Lemma bind_ok_inv {S A B} (m : M S A) (k : A -> M S B) s b s' :
  bind m k s = (Ok b, s') ->
  exists a s1, m s = (Ok a, s1) /\ k a s1 = (Ok b, s').
Proof.
  unfold bind. destruct (m s) as [[a|e] s1]; [|discriminate].
  intros E. exists a, s1. split; [reflexivity | exact E].
Qed.

Lemma param_ok_inv key (s : World) v s1 :
  param key s = (Ok v, s1) -> params (self s) !! key = Some v /\ s1 = s.
Proof.
  unfold param, bind, get. destruct (params (self s) !! key) as [x|]; [|discriminate].
  unfold ret. intros [= -> ->]. split; reflexivity.
Qed.

Lemma lift_ok_inv {S A} (r : result A) (s : S) a s1 :
  lift r s = (Ok a, s1) -> r = Ok a /\ s1 = s.
Proof. unfold lift. intros [= -> ->]. split; reflexivity. Qed.

Lemma ret_ok_inv {S A} (a : A) (s : S) b s1 :
  ret a s = (Ok b, s1) -> b = a /\ s1 = s.
Proof. unfold ret. intros [= -> ->]. split; reflexivity. Qed.

Ltac inv_bind E x s1 E1 :=
  apply bind_ok_inv in E; destruct E as (x & s1 & E1 & E).
Ltac inv_param E1 H :=
  apply param_ok_inv in E1; destruct E1 as [H ->].
Ltac inv_lift E1 H :=
  apply lift_ok_inv in E1; destruct E1 as [H ->].
Ltac inv_ret E1 H :=
  apply ret_ok_inv in E1; destruct E1 as [H ->].

(** The statistical branch: one predictor call; with resampling
    configured, for the recomputed number of steps over a frame of that
    many rows. *)
Lemma stats_branch_inv d dfp0 n s out s' :
  _perform_statsforecast_inference D d dfp0 n s = (Ok out, s') ->
  exists m h X f,
    current_model (self s) = Some m
    /\ Inferencer.predict m (PForecast h X) = Ok (OFrame f)
    /\ index out = index f
    /\ (~ no_resampling (params (self s)) ->
        exists ds fr downsampling frequency exog,
          params (self s) !! "downsampling" = Some ds
          /\ params (self s) !! "frequency" = Some fr
          /\ Timedelta D ds = Ok downsampling
          /\ Timedelta D fr = Ok frequency
          /\ resampled_length n frequency downsampling = Ok h
          /\ X = Some exog /\ len exog = h).
Proof.
  intros E. unfold _perform_statsforecast_inference in E.
  inv_bind E ds s1 E1. inv_param E1 Hds.
  inv_bind E nr s1 E1.
  inv_bind E input_dict s2 E2.
  destruct (predict_then_scale _ _ _ _ _ E) as (m & f & Hm & Hp & Hi).
  clear E.
  assert (Hnr : s1 = s /\ (nr = true -> no_resampling (params (self s)))
                /\ (nr = false -> exists fr, params (self s) !! "frequency" = Some fr)).
  { destruct (bool_decide (ds = "0")) eqn:H0.
    - inv_ret E1 Hr. split; [reflexivity|]. split.
      + intros _. left. rewrite Hds. apply bool_decide_eq_true_1 in H0.
        rewrite H0. reflexivity.
      + intros ->. discriminate Hr.
    - inv_bind E1 fr s3 E3. inv_param E3 Hfr. inv_ret E1 Hr.
      split; [reflexivity|]. split.
      + intros ->. right. exists fr. symmetry in Hr.
        apply bool_decide_eq_true_1 in Hr. subst ds. split; assumption.
      + intros _. exists fr. exact Hfr. }
  destruct Hnr as (-> & Ht & Hf).
  destruct nr.
  - inv_bind E2 exog s3 E3. inv_lift E3 Hsel. inv_ret E2 Hin. subst input_dict.
    exists m, (INFERENCE_LENGTH D), (Some exog), f.
    repeat split; try assumption.
    intros Hn. exfalso. apply Hn, Ht. reflexivity.
  - destruct (Hf eq_refl) as [fr Hfr].
    inv_bind E2 ds' s3 E3. inv_param E3 Hds'.
    inv_bind E2 downsampling s3 E3. inv_lift E3 Hd.
    inv_bind E2 fr' s3 E3. inv_param E3 Hfr'.
    inv_bind E2 frequency s3 E3. inv_lift E3 Hfq.
    inv_bind E2 inf_len s3 E3. inv_lift E3 Hr.
    inv_bind E2 start s3 E3. inv_lift E3 Hst.
    inv_bind E2 idx s3 E3. inv_lift E3 Hidx.
    cbv zeta in E2.
    inv_bind E2 exog s3 E3. inv_lift E3 Hsel. inv_ret E2 Hin. subst input_dict.
    assert (ds' = ds) as -> by congruence.
    assert (fr' = fr) as -> by congruence.
    exists m, inf_len, (Some exog), f.
    repeat split; try assumption.
    intros _. exists ds, fr, downsampling, frequency, exog.
    repeat split; try assumption.
    unfold len. rewrite (select_index _ _ _ Hsel).
    destruct (time_to_feature_over_index idx _ (nan_frame_over_index idx (columns d)))
      as [-> _].
    destruct (date_range_length _ _ _ _ Hidx) as [-> Hn]. lia.
Qed.

Lemma emit_same_model i e : preserves (same_model i) (emit e).
Proof. apply preserves_modify. intros w H; exact H. Qed.

Lemma mark_job_started_same_model i : preserves (same_model i) _mark_job_started.
Proof. apply preserves_modify. intros w H; exact H. Qed.

(** What the guarded part of [perform_inference] returns, per model
    class. *)
Lemma run_inference_rows i d n :
  returns_in (same_model i) (run_inference D d n)
             (fun r => forall t, r = Some t -> rows_as_designed D i n t).
Proof.
  unfold run_inference.
  eapply returns_in_bind; [apply preserves_get | apply returns_in_get |].
  intros w (Hm & Hsc & Hcls & Hps & Hin & Hout).
  destruct ((0 <? input_seq_len (self w))
            && (len d <? input_seq_len (self w) + output_seq_len (self w))).
  { apply returns_in_weaken, returns_bind_any; intros u. apply returns_ret. discriminate. }
  destruct (len d =? 0).
  { apply returns_in_weaken, returns_bind_any; intros u. apply returns_ret. discriminate. }
  eapply (returns_in_bind _ _ _ (fun _ => True)).
  { destruct (len d <=? SAMPLE_IDX D + input_seq_len (self w)).
    - apply preserves_bind; [apply emit_same_model | intros u; apply preserves_ret].
    - apply preserves_ret. }
  { intros ? ? ? ? ?; exact I. }
  intros adjusted_start_pos _.
  eapply (returns_in_bind _ _ _ (fun _ => True));
    [apply emit_same_model | intros ? ? ? ? ?; exact I |].
  intros u _.
  eapply (returns_in_bind _ _ _ (fun _ => True));
    [apply preserves_lift | intros ? ? ? ? ?; exact I |].
  intros timedelta _.
  eapply (returns_in_bind _ _ _ (fun _ => True));
    [apply preserves_lift | intros ? ? ? ? ?; exact I |].
  intros start_timestamp _.
  eapply (returns_in_bind _ _ _ (fun idx => length idx = Z.to_nat n /\ 0 <= n));
    [apply preserves_lift | |].
  { apply returns_in_weaken, returns_lift. intros idx Ei.
    exact (date_range_length _ _ _ _ Ei). }
  intros idx [Hlen Hn].
  pose proof (time_to_feature_over_index idx _ (nan_frame_over_index idx (columns d)))
    as Hdfp.
  apply (returns_in_bind_last _ _ _ (rows_as_designed D i n)).
  - rewrite Hcls.
    destruct (bool_decide (model_class i = "pytorch")) eqn:C1.
    { apply bool_decide_eq_true_1 in C1.
      intros s out s' _ E. pose proof (pytorch_over_index idx d _ n Hdfp _ _ _ E) as Ho.
      split; [|split]; intros C; try (rewrite C in C1; discriminate C1).
      split.
      - rewrite (over_index_len _ _ Ho), Hlen. lia.
      - destruct Ho as [_ Hv]. rewrite Hv. exact Hlen. }
    destruct (bool_decide (model_class i = "prophet")) eqn:C2.
    { apply bool_decide_eq_true_1 in C2.
      intros s out s' (Hm' & _) E.
      destruct (predict_then_scale _ _ _ _ _ E) as (m & f & Hcm & Hp & Hi).
      split; [|split]; intros C; try (rewrite C in C2; discriminate C2).
      exists m, (time_to_feature D (nan_frame idx (columns d))), f.
      repeat split; try assumption; [congruence|].
      rewrite (over_index_len _ _ Hdfp), Hlen. lia. }
    destruct (bool_decide (model_class i = "statsforecast")) eqn:C3.
    { apply bool_decide_eq_true_1 in C3.
      intros s out s' (Hm' & _ & _ & Hps' & _) E.
      destruct (stats_branch_inv _ _ _ _ _ _ E) as (m & h & Xf & f & Hcm & Hp & Hi & Hre).
      split; [|split]; intros C.
      - apply bool_decide_eq_false_1 in C1. contradiction.
      - apply bool_decide_eq_false_1 in C2. contradiction.
      - exists m, h, Xf, f. rewrite <- Hm', <- Hps'. repeat split; assumption. }
    apply returns_in_weaken, returns_raise.
  - intros out Hrows. repeat (apply returns_bind_any; intros ?). apply returns_ret.
    intros t [= <-]. exact Hrows.
Qed.

(** C2 (amended). Whenever [perform_inference] returns a prediction
    table for the horizon [n] (the requested one, else the process
    default): in the sequence branch the table has exactly [n] rows; in
    the seasonal branch it has the rows of the frame the predictor
    answered with when handed the [n]-row time-feature frame; in the
    multi-horizon-stats branch it has the rows of the frame the predictor
    answered with, the predictor having been asked, when resampling is
    configured, for [int(ceil(n * frequency / downsampling))] steps. *)
Theorem predicted_rows (w : World) (df_eval : option DataFrame)
    (inference_length : option Z) (t : DataFrame) (w' : World) :
  perform_inference D df_eval inference_length w = (Ok (Some t), w') ->
  rows_as_designed D (self w) (default (INFERENCE_LENGTH D) inference_length) t.
Proof.
  intros E. unfold perform_inference in E.
  unfold bind at 1 in E. unfold get at 1 in E. cbv beta iota in E.
  destruct (match df_eval with Some d => Some d | None => df (self w) end) as [d|].
  - destruct (current_model (self w)) as [m|] eqn:Hm.
    + match type of E with ?F w = _ =>
        assert (HR : returns_in (same_model (self w)) F
                       (fun r => forall t, r = Some t ->
                          rows_as_designed D (self w)
                            (default (INFERENCE_LENGTH D) inference_length) t)) end.
      { eapply (returns_in_bind _ _ _ (fun _ => True));
          [apply mark_job_started_same_model | intros ? ? ? ? ?; exact I |].
        intros u _.
        eapply (returns_in_bind _ _ _ (fun _ => True));
          [apply emit_same_model | intros ? ? ? ? ?; exact I |].
        intros u' _. apply returns_in_try_finally, run_inference_rows. }
      refine (HR _ _ _ _ E t eq_refl). repeat split.
    + unfold bind, print, emit, modify, ret in E. discriminate E.
  - unfold bind, print, emit, modify, ret in E. discriminate E.
Qed.

End RowCount.

Lemma predicted_rows_witness :
  exists t w',
    perform_inference Demo.deps (Some Demo.prepared3) (Some 3)
      (Demo.world_of (Demo.loaded Demo.sequence_model None "pytorch" 1 1 ∅) [])
    = (Ok (Some t), w')
    /\ len t = 3.
Proof.
  destruct (perform_inference Demo.deps (Some Demo.prepared3) (Some 3)
              (Demo.world_of (Demo.loaded Demo.sequence_model None "pytorch" 1 1 ∅) []))
    as [[[t|]|e] w'] eqn:E.
  - exists t, w'. split; [reflexivity|].
    exact (proj1 (proj1 (predicted_rows Demo.deps _ _ _ _ _ E) eq_refl)).
  - exfalso. vm_compute in E. discriminate E.
  - exfalso. vm_compute in E. discriminate E.
Defined.

(** The claim as stated fails: a statistical model trained at five
    minutes over data at one minute is asked for a horizon of five steps;
    the branch recomputes the horizon to one step, the predictor answers
    one row, and the executor returns that one-row table. *)
Lemma stats_rows_differ_from_horizon :
  exists t w',
    perform_inference Demo.deps (Some Demo.prepared3) (Some 5)
      (Demo.world_of
         (Demo.loaded Demo.stats_model None "statsforecast" 0 0
                      {[ "downsampling" := "5min"; "frequency" := "1min" ]}) [])
    = (Ok (Some t), w')
    /\ len t = 1
    /\ len t <> 5.
Proof.
  set (r := perform_inference _ _ _ _).
  assert (H : fst r = Ok (Some {| Frame.index := [1704067200000000000];
                                  columns := ["value"];
                                  values := [[1%float]] |}))
    by (vm_compute; reflexivity).
  clearbody r. destruct r as [a w']. simpl in H. subst a.
  eexists. exists w'. split; [reflexivity|].
  split; [reflexivity | discriminate].
Qed.

(** * Further properties of the serving code *)

Import Observations Probes .

Section ExecutorInvariants.
Variable D : Deps.
Variable I : World -> Prop.
Hypothesis I_emit : forall e, preserves I (emit e).
Hypothesis I_self_errors :
  forall l, preserves I (modify (with_self (set_last_per_step_errors l))).
Hypothesis I_self_keys :
  forall k, preserves I (modify (with_self (fun i =>
     set_emitted_prediction_keys ({[ k ]} ∪ _emitted_prediction_keys i) i))).
Hypothesis I_self_last : forall p, preserves I (set_last_prediction p).
Hypothesis I_upload :
  forall bucket key line attempts, preserves I (upload_attempts D bucket key line attempts).

Ltac leaf :=
  first [ apply I_emit | apply I_self_errors | apply I_self_keys | apply I_self_last
        | apply I_upload ].

Lemma timed_predict_inv p : preserves I (_timed_predict p).
Proof. unfold _timed_predict. repeat (preserve_step; cbv beta); leaf. Qed.

Lemma predict_with_fallbacks_inv a : preserves I (predict_with_fallbacks a).
Proof.
  unfold predict_with_fallbacks, print.
  repeat (first [apply timed_predict_inv | preserve_step]; cbv beta); leaf.
Qed.

Lemma block_step_inv c o step i st : preserves I (block_step D c o step i st).
Proof.
  unfold block_step, print.
  repeat (preserve_step; cbv beta); leaf.
Qed.

Lemma block_loop_inv c o step todo st : preserves I (block_loop D c o step todo st).
Proof.
  revert st. induction todo as [|i rest IH]; intros st; simpl.
  - apply preserves_ret.
  - apply preserves_bind; [apply block_step_inv|]. intros r.
    destruct (snd r); [apply preserves_ret | apply IH].
Qed.

Lemma step_body_inv c step st : preserves I (step_body D c step st).
Proof.
  unfold step_body, print.
  apply preserves_bind; [apply predict_with_fallbacks_inv | intros o].
  apply preserves_bind; [apply block_loop_inv | intros st1].
  repeat (preserve_step; cbv beta); leaf.
Qed.

Lemma forecast_loop_inv c steps st : preserves I (forecast_loop D c steps st).
Proof.
  revert st. induction steps as [|s rest IH]; intros st; simpl.
  - apply preserves_ret.
  - apply preserves_bind; [apply step_body_inv | intros st'; apply IH].
Qed.

Lemma inverse_scale_guarded_inv dfp : preserves I (inverse_scale_guarded D dfp).
Proof. unfold inverse_scale_guarded, print. repeat (preserve_step; cbv beta); leaf. Qed.

Lemma inverse_scale_plain_inv dfp : preserves I (inverse_scale_plain dfp).
Proof. unfold inverse_scale_plain, print. repeat (preserve_step; cbv beta); leaf. Qed.

Lemma pytorch_inv d dfp0 n : preserves I (_perform_pytorch_inference D d dfp0 n).
Proof.
  unfold _perform_pytorch_inference, print.
  apply preserves_bind; [apply preserves_get | intros w; cbv beta zeta].
  apply preserves_bind; [apply preserves_lift | intros X_eval].
  apply preserves_bind; [apply preserves_lift | intros first].
  apply preserves_bind; [apply forecast_loop_inv | intros st].
  apply preserves_bind; [apply preserves_lift | intros dfp2].
  apply preserves_bind; [apply inverse_scale_guarded_inv | intros out].
  repeat (preserve_step; cbv beta); leaf.
Qed.

Lemma prophet_inv d dfp0 n : preserves I (_perform_prophet_inference d dfp0 n).
Proof.
  unfold _perform_prophet_inference, print.
  apply preserves_bind; [apply timed_predict_inv | intros o].
  apply preserves_bind; [apply preserves_lift | intros dfp].
  apply preserves_bind; [apply inverse_scale_plain_inv | intros out].
  repeat (preserve_step; cbv beta); leaf.
Qed.

Lemma param_inv key : preserves I (param key).
Proof. unfold param. repeat (preserve_step; cbv beta). Qed.

Lemma statsforecast_inv d dfp0 n : preserves I (_perform_statsforecast_inference D d dfp0 n).
Proof.
  unfold _perform_statsforecast_inference, print.
  apply preserves_bind; [apply param_inv | intros ds].
  apply preserves_bind.
  { destruct (bool_decide (ds = "0")); [apply preserves_ret|].
    apply preserves_bind; [apply param_inv | intros; apply preserves_ret]. }
  intros nr. apply preserves_bind.
  { destruct nr.
    - apply preserves_bind; [apply preserves_lift | intros; apply preserves_ret].
    - repeat (first [apply param_inv | preserve_step]; cbv beta zeta). }
  intros input.
  apply preserves_bind; [apply timed_predict_inv | intros o].
  apply preserves_bind; [apply preserves_lift | intros dfp].
  apply preserves_bind; [apply inverse_scale_plain_inv | intros out].
  repeat (preserve_step; cbv beta); leaf.
Qed.

Lemma save_and_publish_inv t d : preserves I (_save_and_publish_predictions D t d).
Proof.
  unfold _save_and_publish_predictions, print.
  destruct (INFERENCE_DISABLE_LOG_UPLOAD D); [apply preserves_ret|].
  apply preserves_bind; [apply preserves_get | intros w; cbv beta zeta].
  repeat (preserve_step; cbv beta); leaf.
Qed.

Lemma run_inference_inv d n : preserves I (run_inference D d n).
Proof.
  unfold run_inference, print.
  apply preserves_bind; [apply preserves_get | intros w; cbv beta zeta].
  destruct (_ && _); [repeat (preserve_step; cbv beta); leaf|].
  destruct (len d =? 0); [repeat (preserve_step; cbv beta); leaf|].
  apply preserves_bind; [repeat (preserve_step; cbv beta); leaf | intros pos].
  apply preserves_bind; [leaf | intros _].
  apply preserves_bind; [apply preserves_lift | intros td].
  apply preserves_bind; [apply preserves_lift | intros start].
  apply preserves_bind; [apply preserves_lift | intros idx].
  apply preserves_bind.
  { destruct (bool_decide _); [apply pytorch_inv|].
    destruct (bool_decide _); [apply prophet_inv|].
    destruct (bool_decide _); [apply statsforecast_inv | apply preserves_raise]. }
  intros out.
  apply preserves_bind; [apply save_and_publish_inv | intros _].
  repeat (preserve_step; cbv beta); leaf.
Qed.

End ExecutorInvariants.

(** An invariant that reads the instance only. *)
Section InstanceInvariants.
Variable D : Deps.
Variable P : Inferencer -> Prop.
Hypothesis P_errors : forall l i, P i -> P (set_last_per_step_errors l i).
Hypothesis P_keys : forall k i, P i -> P (set_emitted_prediction_keys k i).
Hypothesis P_last : forall p i, P i -> P (set_last_prediction_response p i).

Lemma post_file_self bucket key body w :
  self (snd (post_file bucket key body w)) = self w.
Proof. unfold post_file. destruct (post_file_faults w) as [|[] ?]; reflexivity. Qed.

Lemma get_file_self bucket key w :
  self (snd (get_file bucket key w)) = self w.
Proof. unfold get_file. destruct (get_file_faults w) as [|[] ?]; reflexivity. Qed.

Lemma upload_attempts_instance bucket key line attempts :
  preserves (fun w => P (self w)) (upload_attempts D bucket key line attempts).
Proof.
  induction attempts as [|a rest IH]; simpl; [apply preserves_ret|].
  apply preserves_bind.
  - apply preserves_try_except.
    + apply preserves_bind.
      * apply preserves_try_except; [|intros; apply preserves_ret].
        intros w H. rewrite get_file_self. exact H.
      * intros o. apply preserves_bind.
        { intros w H. rewrite post_file_self. exact H. }
        intros _. unfold print. repeat (preserve_step; cbv beta).
        apply preserves_modify. intros w H; exact H.
    + intros e. unfold print.
      repeat (preserve_step; cbv beta); apply preserves_modify; intros w H; exact H.
  - intros [|]; [apply preserves_ret | exact IH].
Qed.

Lemma run_inference_instance d n :
  preserves (fun w => P (self w)) (run_inference D d n).
Proof.
  apply run_inference_inv.
  - intros e. apply preserves_modify. intros w H; exact H.
  - intros l. apply preserves_modify. intros w H. apply P_errors, H.
  - intros k. apply preserves_modify. intros w H. apply P_keys, H.
  - intros p. apply preserves_modify. intros w H. apply P_last, H.
  - apply upload_attempts_instance.
Qed.

End InstanceInvariants.

Section JobCounter.
Variable D : Deps.

(** X1. The executor leaves its count of running jobs as it found it:
    whatever [perform_inference] does (answer with a table, skip, or
    raise out of any of its stages), [active_inference_jobs] after the
    call equals its value before, provided that value was not negative. *)
Theorem active_jobs_restored (df_eval : option DataFrame) (n : option Z) (w : World) :
  0 <= active_inference_jobs (self w) ->
  active_inference_jobs (self (snd (perform_inference D df_eval n w)))
  = active_inference_jobs (self w).
Proof.
  intros Hk. unfold perform_inference, bind, get. cbv beta iota.
  destruct (match df_eval with Some d => Some d | None => df (self w) end) as [d|];
    [|reflexivity].
  destruct (current_model (self w)) as [m|]; [|reflexivity].
  unfold _mark_job_started, print, emit, modify. cbv beta iota.
  unfold try_finally.
  match goal with |- context [run_inference D d ?k ?s0] =>
    pose proof (run_inference_instance D
                  (fun i => _active_jobs i = _active_jobs (self w) + 1)
                  (fun _ _ H => H) (fun _ _ H => H) (fun _ _ H => H) d k s0 eq_refl) as Hr;
    destruct (run_inference D d k s0) as [r s3]
  end.
  simpl in Hr. unfold _mark_job_finished, modify, active_inference_jobs in *. simpl.
  rewrite Hr. lia.
Qed.

End JobCounter.

Lemma active_jobs_restored_witness :
  let w := Demo.world_of (Demo.loaded Demo.sequence_model None "pytorch" 1 1 ∅) [] in
  0 <= active_inference_jobs (self w)
  /\ active_inference_jobs
       (self (snd (perform_inference Demo.deps (Some Demo.prepared3) (Some 3) w)))
     = active_inference_jobs (self w).
Proof.
  split; [simpl; lia|].
  apply (active_jobs_restored Demo.deps). simpl. lia.
Defined.

Lemma string_app_assoc (a b c : string) : (a +:+ b) +:+ c = a +:+ (b +:+ c).
Proof.
  induction a as [|x a IH]; [reflexivity|].
  change (String x ((a +:+ b) +:+ c) = String x (a +:+ (b +:+ c))). rewrite IH. reflexivity.
Qed.

Lemma string_app_empty_r (a : string) : a +:+ "" = a.
Proof.
  induction a as [|x a IH]; [reflexivity|].
  change (String x (a +:+ "") = String x a). rewrite IH. reflexivity.
Qed.

Section AppendOnly.
Variable D : Deps.

Lemma log_extends_refl o : log_extends o o.
Proof. intros key old H. exists "". rewrite string_app_empty_r. exact H. Qed.

Lemma emit_objects o e :
  preserves (fun w => fetches_succeed w /\ log_extends o (objects w)) (emit e).
Proof. apply preserves_modify. intros w H; exact H. Qed.

Lemma setter_objects o (f : Inferencer -> Inferencer) :
  preserves (fun w => fetches_succeed w /\ log_extends o (objects w))
            (modify (with_self f)).
Proof. apply preserves_modify. intros w H; exact H. Qed.

Lemma log_extends_insert o o' bucket key line :
  log_extends o o' ->
  log_extends o (<[(bucket, key) := default "" (o' !! (bucket, key)) +:+ line]> o').
Proof.
  intros H k old Hk. destruct (decide (k = (bucket, key))) as [->|Hne].
  - destruct (H _ _ Hk) as [sfx Hs]. exists (sfx +:+ line).
    rewrite lookup_insert_eq, Hs. cbn [default from_option id].
    rewrite string_app_assoc. reflexivity.
  - rewrite lookup_insert_ne by congruence. apply H, Hk.
Qed.

(** One pass of the append loop when the fetch goes through: the object
    is fetched, one line is put after it, and the whole is uploaded. *)
Lemma upload_attempts_extends o bucket key line attempts :
  preserves (fun w => fetches_succeed w /\ log_extends o (objects w))
            (upload_attempts D bucket key line attempts).
Proof.
  induction attempts as [|a rest IH]; simpl; [apply preserves_ret|].
  apply preserves_bind; [|intros [|]; [apply preserves_ret | exact IH]].
  apply preserves_try_except.
  - intros w [Hg H].
    match goal with |- fetches_succeed (snd ?t) /\ _ => destruct t as [r w'] eqn:E end.
    unfold bind at 1 in E.
    destruct (fetch_guarded bucket key w) as (o' & w1 & Ef & _ & Hp & Ho & _ & Hgf & Hval).
    rewrite Ef in E. clear Ef.
    assert (Hval' : o' = objects w1 !! (bucket, key)).
    { rewrite Ho. unfold fetches_succeed in Hg.
      destruct (get_file_faults w) as [|[|] ?]; [exact Hval | | exact Hval].
      inversion Hg; discriminate. }
    assert (Hg1 : fetches_succeed w1).
    { unfold fetches_succeed in *. rewrite Hgf.
      destruct (get_file_faults w); [constructor | inversion Hg; assumption]. }
    rewrite <- Ho in H. clear Hval. subst o'.
    unfold bind at 1 in E. unfold post_file at 1 in E.
    destruct (post_file_faults w1) as [|[|] faults]; cbv beta iota in E;
      unfold bind, print, emit, modify, ret in E; simpl in E;
      injection E as <- <-; simpl;
      (split; [exact Hg1|]); first [exact H | apply log_extends_insert, H].
  - intros e. unfold print.
    repeat (preserve_step; cbv beta); apply emit_objects.
Qed.

(** X2. As long as the log sink answers the fetches, the executor only
    ever appends to the inference log: after [perform_inference],
    whatever its outcome and whatever the gateway does to the uploads,
    every object the log sink held before is still there and its old
    content is a prefix of its new content. *)
Theorem inference_log_append_only (df_eval : option DataFrame) (n : option Z) (w : World) :
  fetches_succeed w ->
  log_extends (objects w) (objects (snd (perform_inference D df_eval n w))).
Proof.
  intros Hg.
  assert (H : preserves (fun w' => fetches_succeed w' /\ log_extends (objects w) (objects w'))
                        (perform_inference D df_eval n)).
  { unfold perform_inference, print.
    apply preserves_bind; [apply preserves_get | intros w0; cbv beta].
    destruct (match df_eval with Some d => Some d | None => df (self w0) end) as [d|].
    - destruct (current_model (self w0)).
      + apply preserves_bind; [apply setter_objects | intros _].
        apply preserves_bind; [apply emit_objects | intros _].
        apply preserves_try_finally; [|apply setter_objects].
        apply run_inference_inv.
        * apply emit_objects.
        * intros ?. apply setter_objects.
        * intros ?. apply setter_objects.
        * intros ?. apply setter_objects.
        * apply upload_attempts_extends.
      + apply preserves_bind; [apply emit_objects | intros; apply preserves_ret].
    - apply preserves_bind; [apply emit_objects | intros; apply preserves_ret]. }
  apply H. split; [exact Hg | apply log_extends_refl].
Qed.

(** X12. A fetch the gateway fails is taken for a missing object: when
    the upload that follows goes through, the append loop leaves the new
    line alone under the key, whatever was stored there before. *)
Theorem failed_fetch_replaces_object bucket key line (a : Z) (rest : list Z) (w : World)
    (fetches : list bool) :
  get_file_faults w = true :: fetches ->
  (forall faults, post_file_faults w <> true :: faults) ->
  objects (snd (upload_attempts D bucket key line (a :: rest) w)) !! (bucket, key)
  = Some line.
Proof.
  intros Hgf Hpf. simpl upload_attempts.
  unfold bind at 1. unfold try_except at 1. unfold bind at 1.
  destruct (fetch_guarded bucket key w) as (o' & w1 & -> & _ & Hp & _ & _ & _ & Hval).
  rewrite Hgf in Hval. subst o'.
  unfold bind at 1. unfold post_file at 1. rewrite Hp.
  destruct (post_file_faults w) as [|[|] faults]; cbv beta iota.
  - unfold bind, print, emit, modify, ret. simpl. apply lookup_insert_eq.
  - exfalso. apply (Hpf faults). reflexivity.
  - unfold bind, print, emit, modify, ret. simpl. apply lookup_insert_eq.
Qed.

End AppendOnly.

Lemma inference_log_append_only_witness :
  let w := Demo.world_with_log (Demo.loaded Demo.sequence_model None "pytorch" 1 1 ∅)
                               "earlier line" [false] in
  fetches_succeed w
  /\ log_extends (objects w)
        (objects (snd (perform_inference Demo.deps (Some Demo.prepared3) (Some 3) w))).
Proof.
  intros w.
  assert (H : fetches_succeed w) by (repeat constructor).
  split; [exact H|]. apply (inference_log_append_only Demo.deps). exact H.
Defined.

Lemma failed_fetch_replaces_object_witness :
  let w := Demo.world_with_log Demo.fresh "earlier line" [true] in
  get_file_faults w = [true]
  /\ objects w !! ("inference-logs", "default/20240101/results.jsonl") = Some "earlier line"
  /\ objects (snd (upload_attempts Demo.deps "inference-logs" "default/20240101/results.jsonl"
                     "new line" [1; 2; 3] w))
       !! ("inference-logs", "default/20240101/results.jsonl")
     = Some "new line".
Proof.
  intros w. split; [reflexivity|]. split; [vm_compute; reflexivity|].
  apply (failed_fetch_replaces_object Demo.deps _ _ _ 1 [2; 3] w []); [reflexivity|].
  intros faults H. discriminate H.
Defined.

(** The same through [perform_inference]: the gateway fails the one
    fetch of a served prediction, and the log object, which held an
    earlier line, holds the new line only. *)
Lemma log_line_lost_when_fetch_fails :
  let w := Demo.world_with_log (Demo.loaded Demo.sequence_model None "pytorch" 1 1 ∅)
                               "earlier line" [true] in
  let w' := snd (perform_inference Demo.deps (Some Demo.prepared3) (Some 3) w) in
  ~ log_extends (objects w) (objects w').
Proof.
  intros w w' H.
  destruct (H ("inference-logs", "default/20240101/results.jsonl") "earlier line")
    as [suffix Hs]; [vm_compute; reflexivity|].
  destruct (objects w' !! ("inference-logs", "default/20240101/results.jsonl"))
    as [body|] eqn:E; [|discriminate Hs].
  vm_compute in E. injection E as <-. injection Hs as Hs. discriminate Hs.
Qed.

(** ** Tables and models the executor does not run *)

Section ExecutorEdges.
Variable D : Deps.

(** X3. A table without rows is never run: for every instance, whether
    the table is passed in or is the cached one, [perform_inference]
    answers [None] without raising, calls no predictor and writes nothing
    to the log sink. *)
Theorem empty_table_skipped (w : World) (df_eval : option DataFrame) (d : DataFrame)
    (n : option Z) :
  match df_eval with Some d' => Some d' | None => df (self w) end = Some d ->
  index d = [] ->
  fst (perform_inference D df_eval n w) = Ok None
  /\ predictor_calls (events (snd (perform_inference D df_eval n w)))
     = predictor_calls (events w)
  /\ objects (snd (perform_inference D df_eval n w)) = objects w.
Proof.
  intros Hd Hidx.
  unfold perform_inference, bind, get. cbv beta iota. rewrite Hd.
  destruct (current_model (self w)) as [m|].
  - unfold _mark_job_started, print, emit, modify, try_finally, run_inference, bind, get.
    cbv beta iota zeta. cbn [self input_seq_len output_seq_len with_self set_active_jobs].
    assert (Hlen : len d = 0) by (unfold len; rewrite Hidx; reflexivity).
    rewrite Hlen.
    destruct ((0 <? input_seq_len (self w))
              && (0 <? input_seq_len (self w) + output_seq_len (self w))).
    + simpl. rewrite !predictor_calls_app. simpl. rewrite !app_nil_r.
      repeat split; reflexivity.
    + simpl. rewrite !predictor_calls_app. simpl. rewrite !app_nil_r.
      repeat split; reflexivity.
  - simpl. rewrite predictor_calls_app. simpl. rewrite app_nil_r.
    repeat split; reflexivity.
Qed.

(** X4. A model class other than the three the executor knows is never
    run: [perform_inference] returns no table (it raises, at the latest
    with [ValueError: Unsupported model class], or skips), calls no
    predictor and writes nothing to the log sink. *)
Theorem unsupported_model_class (w : World) (df_eval : option DataFrame) (n : option Z) :
  model_class (self w) <> "pytorch" ->
  model_class (self w) <> "prophet" ->
  model_class (self w) <> "statsforecast" ->
  (forall t, fst (perform_inference D df_eval n w) <> Ok (Some t))
  /\ predictor_calls (events (snd (perform_inference D df_eval n w)))
     = predictor_calls (events w)
  /\ objects (snd (perform_inference D df_eval n w)) = objects w.
Proof.
  intros H1 H2 H3.
  unfold perform_inference, bind, get. cbv beta iota.
  destruct (match df_eval with Some d => Some d | None => df (self w) end) as [d|].
  2:{ simpl. rewrite predictor_calls_app. simpl. rewrite app_nil_r.
      repeat split; try reflexivity. discriminate. }
  destruct (current_model (self w)) as [m|].
  2:{ simpl. rewrite predictor_calls_app. simpl. rewrite app_nil_r.
      repeat split; try reflexivity. discriminate. }
  unfold _mark_job_started, print, emit, modify, try_finally, run_inference, bind, get, lift.
  cbv beta iota zeta.
  cbn [self input_seq_len output_seq_len model_class with_self set_active_jobs].
  rewrite (bool_decide_eq_false_2 _ H1), (bool_decide_eq_false_2 _ H2),
    (bool_decide_eq_false_2 _ H3).
  repeat (simpl;
          match goal with
          | |- context [if ?b then _ else _] => destruct b
          | |- context [check_uniform D ?x] => destruct (check_uniform D x)
          | |- context [Py.index ?l ?i] => destruct (Py.index l i)
          | |- context [date_range ?a ?b ?c] => destruct (date_range a b c)
          end);
    simpl; rewrite ?predictor_calls_app; simpl; rewrite ?app_nil_r;
    (repeat split; try reflexivity; discriminate).
Qed.

End ExecutorEdges.

Lemma empty_table_skipped_witness :
  let w := Demo.world_of (Demo.loaded Demo.seasonal_model None "prophet" 0 0 ∅) [] in
  let d := mkDataFrame [] ["value"] [] in
  match Some d with Some d' => Some d' | None => df (self w) end = Some d
  /\ index d = []
  /\ fst (perform_inference Demo.deps (Some d) (Some 5) w) = Ok None.
Proof.
  split; [reflexivity|]. split; [reflexivity|].
  apply (empty_table_skipped Demo.deps _ (Some (mkDataFrame [] ["value"] []))
           (mkDataFrame [] ["value"] []) (Some 5)); reflexivity.
Defined.

Lemma unsupported_model_class_witness :
  let w := Demo.world_of (Demo.loaded Demo.sequence_model None "xgboost" 1 1 ∅) [] in
  model_class (self w) <> "pytorch"
  /\ model_class (self w) <> "prophet"
  /\ model_class (self w) <> "statsforecast"
  /\ predictor_calls
       (events (snd (perform_inference Demo.deps (Some Demo.prepared3) (Some 3) w)))
     = predictor_calls (events w).
Proof.
  split; [discriminate|]. split; [discriminate|]. split; [discriminate|].
  apply (unsupported_model_class Demo.deps _ (Some Demo.prepared3) (Some 3)); discriminate.
Defined.

(** ** The columns a request has to carry *)

Section RequiredColumns.

Lemma insert_sorted_perm s l : insert_sorted s l ≡ₚ s :: l.
Proof.
  induction l as [|t rest IH]; simpl; [reflexivity|].
  destruct (String.leb s t); [reflexivity|].
  rewrite IH. apply Permutation_swap.
Qed.

Lemma sorted_perm l : sorted l ≡ₚ l.
Proof.
  unfold sorted. induction l as [|s rest IH]; simpl; [reflexivity|].
  rewrite insert_sorted_perm, IH. reflexivity.
Qed.

Lemma filter_list_elem {T} (p : T -> bool) (l : list T) (x : T) :
  x ∈ List.filter p l <-> x ∈ l /\ p x = true.
Proof. rewrite !list_elem_of_In. apply List.filter_In. Qed.

Lemma filter_list_nodup {T} (p : T -> bool) (l : list T) :
  NoDup l -> NoDup (List.filter p l).
Proof.
  intros H. apply NoDup_ListNoDup. apply List.NoDup_filter. apply NoDup_ListNoDup, H.
Qed.

(** X5. [_expected_feature_columns] answers with exactly the columns of
    the cached table (when there is one and it is not empty) and of the
    instance's [expected_feature_columns] that are not time-feature
    columns, each once; without an instance it answers with nothing.  No
    time-feature column is ever required of a request. *)
Theorem expected_feature_columns_spec (service : option Inferencer) (col : string) :
  NoDup (_expected_feature_columns service)
  /\ (col ∈ _expected_feature_columns service <->
      (col ∉ TIME_FEATURE_COLUMNS)
      /\ exists svc, service = Some svc
           /\ ((exists base_df, df svc = Some base_df /\ is_empty base_df = false
                                /\ col ∈ columns base_df)
               \/ (exists extra, expected_feature_columns svc = Some extra /\ col ∈ extra))).
Proof.
  unfold _expected_feature_columns. destruct service as [svc|].
  2:{ split; [constructor|]. split.
      - intros H. inversion H.
      - intros (_ & svc & Hs & _). discriminate Hs. }
  split.
  - rewrite sorted_perm. apply filter_list_nodup, NoDup_remove_dups.
  - rewrite sorted_perm, filter_list_elem, elem_of_remove_dups, elem_of_app.
    rewrite negb_true_iff, bool_decide_eq_false. split.
    + intros [Hin Hnt]. split; [exact Hnt|]. exists svc. split; [reflexivity|].
      destruct Hin as [Hin|Hin].
      * left. destruct (df svc) as [base_df|]; [|inversion Hin].
        destruct (is_empty base_df) eqn:He; [inversion Hin|].
        exists base_df. repeat split; assumption.
      * right. destruct (expected_feature_columns svc) as [extra|]; [|inversion Hin].
        exists extra. split; [reflexivity | exact Hin].
    + intros (Hnt & svc' & [= <-] & Hin). split; [|exact Hnt].
      destruct Hin as [(base_df & Hd & He & Hc)|(extra & Hx & Hc)].
      * left. rewrite Hd, He. exact Hc.
      * right. rewrite Hx. exact Hc.
Qed.

End RequiredColumns.

(** ** What a prepared request looks like *)

Section Prepared.
Variable D : Deps.
Variable A : ApiDeps.

Lemma col_pos_elem cols c : c ∈ cols <-> exists j, col_pos cols c = Some j.
Proof.
  induction cols as [|c' rest IH]; simpl.
  - split; [intros H; inversion H | intros [j H]; discriminate H].
  - rewrite elem_of_cons, IH. destruct (bool_decide (c' = c)) eqn:E.
    + apply bool_decide_eq_true_1 in E. split; [eauto | intros _; left; congruence].
    + apply bool_decide_eq_false_1 in E. split.
      * intros [->|[j Hj]]; [congruence | rewrite Hj; eauto].
      * intros [j Hj]. right. destruct (col_pos rest c); [eauto | discriminate Hj].
Qed.

Lemma set_column_columns f c col x :
  x ∈ columns (set_column f c col) <-> x ∈ columns f \/ x = c.
Proof.
  unfold set_column. destruct (col_pos (columns f) c) as [j|] eqn:E; simpl.
  - split; [auto|]. intros [H| ->]; [exact H|]. apply col_pos_elem. eauto.
  - rewrite elem_of_app, list_elem_of_singleton. reflexivity.
Qed.

Lemma add_columns_columns (g : string -> Z -> float) names f x :
  x ∈ columns (foldl (fun acc name => set_column acc name (g name <$> index acc)) f names)
  <-> x ∈ columns f \/ x ∈ names.
Proof.
  revert f. induction names as [|nm rest IH]; intros f; simpl.
  - split; [auto | intros [H|H]; [exact H | inversion H]].
  - rewrite IH, set_column_columns, elem_of_cons. tauto.
Qed.

Lemma time_to_feature_columns f x :
  x ∈ columns (time_to_feature D f) <-> x ∈ columns f \/ x ∈ TIME_FEATURES.
Proof. apply add_columns_columns. Qed.

(** When every column converts, the numeric table has the columns of the
    request, in its order. *)
Lemma converted_names (cols : list (string * list json)) :
  omap (fun p : string * result (list float) =>
          match snd p with Raise _ => Some (fst p) | Ok _ => None end)
       ((fun p => (fst p, to_numeric A (snd p))) <$> cols) = [] ->
  fst <$> omap (fun p : string * result (list float) =>
                  match snd p with Ok v => Some (fst p, v) | Raise _ => None end)
               ((fun p => (fst p, to_numeric A (snd p))) <$> cols)
  = column_names cols.
Proof.
  induction cols as [|[c a] rest IH]; simpl; [reflexivity|].
  destruct (to_numeric A a); simpl; [|discriminate].
  intros H. f_equal. apply IH, H.
Qed.

Lemma frame_of_columns_over_index idx cols : over_index idx (frame_of_columns idx cols).
Proof.
  split; simpl; [reflexivity|]. rewrite length_fmap, length_seq. reflexivity.
Qed.

Lemma filter_nil_elem {T} (p : T -> bool) (l : list T) (x : T) :
  List.filter p l = [] -> x ∈ l -> p x = false.
Proof.
  intros H Hx. destruct (p x) eqn:E; [|reflexivity].
  assert (Hin : x ∈ List.filter p l) by (apply filter_list_elem; auto).
  rewrite H in Hin. inversion Hin.
Qed.

Lemma and_then_ok_inv {T U} (r : result T) (k : T -> result U) (b : U) :
  Py.and_then r k = Ok b -> exists a, r = Ok a /\ k a = Ok b.
Proof. destruct r as [a|e]; simpl; [eauto | discriminate]. Qed.

Lemma normalize_request_not_empty req df_tmp :
  normalize_request A req = Ok df_tmp -> raw_empty df_tmp = false.
Proof.
  unfold normalize_request.
  destruct (data req) as [[|c cols]|]; try discriminate.
  destruct (frame_rows (c :: cols)) as [[|k]|e]; try discriminate.
  destruct (index_candidates req (c :: cols)) as [|cand cands]; [discriminate|].
  intros H. apply and_then_ok_inv in H as ([r|] & _ & H); [|discriminate H].
  apply and_then_ok_inv in H as (stripped & _ & H).
  destruct (raw_empty stripped) eqn:E; [discriminate H|].
  injection H as <-. exact E.
Qed.

(** X6. A request the preparer accepts comes out as a table that has at
    least one row, the six time-feature columns, and every base feature
    column the instance requires; the list of required columns it
    reports is [_expected_feature_columns] of the instance.  So the
    endpoint's own check of the required columns cannot fail for a table
    that came out of the preparer. *)
Theorem prepared_frame_columns (req_obj : PredictRequest) (service : option Inferencer)
    (prepared : DataFrame) (required : list string) :
  _prepare_dataframe_for_inference D A req_obj service = Ok (prepared, required) ->
  required = _expected_feature_columns service
  /\ 0 < len prepared
  /\ (forall c, c ∈ TIME_FEATURES -> has_col prepared c = true)
  /\ (forall c, c ∈ required -> has_col prepared c = true)
  /\ List.filter (fun col => negb (has_col prepared col)) required = [].
Proof.
  unfold _prepare_dataframe_for_inference. intros H.
  apply and_then_ok_inv in H as (df_tmp & Hn & H).
  apply normalize_request_not_empty in Hn.
  unfold validate_normalized in H.
  destruct ((nunique (raw_index df_tmp) =? 1) && _).
  { apply and_then_ok_inv in H as (first & _ & H). discriminate H. }
  match type of H with
  | match ?failures with _ => _ end = _ => destruct failures eqn:Hconv; [|discriminate H]
  end.
  match type of H with
  | match ?missing with _ => _ end = _ => destruct missing eqn:Hmiss; [|discriminate H]
  end.
  injection H as <- <-.
  assert (Hreq : forall c, c ∈ _expected_feature_columns service ->
                   has_col (time_to_feature D
                              (frame_of_columns (raw_index df_tmp)
                                 (omap (fun p : string * result (list float) =>
                                          match snd p with
                                          | Ok v => Some (fst p, v)
                                          | Raise _ => None
                                          end)
                                       ((fun p => (fst p, to_numeric A (snd p)))
                                          <$> raw_columns df_tmp)))) c = true).
  { intros c Hc. unfold has_col. apply bool_decide_eq_true_2.
    apply time_to_feature_columns. left. simpl. rewrite (converted_names _ Hconv).
    pose proof (filter_nil_elem _ _ c Hmiss Hc) as Hf.
    apply negb_false_iff, bool_decide_eq_true_1 in Hf. exact Hf. }
  split; [reflexivity|]. split.
  - rewrite (over_index_len (raw_index df_tmp)).
    + unfold raw_empty in Hn. apply orb_false_elim in Hn as [Hn _].
      apply bool_decide_eq_false_1 in Hn.
      destruct (raw_index df_tmp); [congruence | simpl; lia].
    + apply time_to_feature_over_index, frame_of_columns_over_index.
  - split; [|split; [exact Hreq|]].
    + intros c Hc. unfold has_col. apply bool_decide_eq_true_2.
      apply time_to_feature_columns. right. exact Hc.
    + match goal with |- List.filter ?p ?l = [] =>
        destruct (List.filter p l) as [|x rest] eqn:E; [reflexivity|] end.
      assert (Hx : x ∈ x :: rest) by (left).
      rewrite <- E in Hx. apply filter_list_elem in Hx as [Hx1 Hx2].
      rewrite (Hreq x Hx1) in Hx2. discriminate Hx2.
Qed.

End Prepared.

Lemma prepared_frame_columns_witness :
  _prepare_dataframe_for_inference Demo.deps Demo.api_deps Demo.payload3 (Some Demo.fresh)
  = Ok (Demo.prepared3, [])
  /\ 0 < len Demo.prepared3.
Proof.
  assert (H : _prepare_dataframe_for_inference Demo.deps Demo.api_deps Demo.payload3
                (Some Demo.fresh) = Ok (Demo.prepared3, []))
    by (vm_compute; reflexivity).
  split; [exact H|].
  exact (proj1 (proj2 (prepared_frame_columns Demo.deps Demo.api_deps _ _ _ _ H))).
Defined.

(** ** Before the gate, the only failure is a 400 *)

Section RaiseRules.
Context {S : Type}.

Lemma raises_ret {T} (a : T) (P : exn -> Prop) : raises (@ret S T a) P.
Proof. intros s e s' E. discriminate E. Qed.

Lemma raises_raise {T} e (P : exn -> Prop) : P e -> raises (@raise S T e) P.
Proof. intros H s e' s' E. unfold raise in E. injection E as <- _. exact H. Qed.

Lemma raises_get (P : exn -> Prop) : raises (@get S) P.
Proof. intros s e s' E. discriminate E. Qed.

Lemma raises_modify (f : S -> S) (P : exn -> Prop) : raises (modify f) P.
Proof. intros s e s' E. discriminate E. Qed.

Lemma raises_bind {T U} (m : M S T) (k : T -> M S U) (P : exn -> Prop) :
  raises m P -> (forall a, raises (k a) P) -> raises (bind m k) P.
Proof.
  intros Hm Hk s e s' E. unfold bind in E.
  destruct (m s) as [[a|e0] s1] eqn:Em.
  - exact (Hk a _ _ _ E).
  - injection E as <- <-. exact (Hm _ _ _ Em).
Qed.

End RaiseRules.

Section OnlyBadRequest.
Variable D : Deps.
Variable A : ApiDeps.

(** [strip_timezones] is a data helper: it has no HTTP answers of its
    own to raise. *)
Hypothesis strip_timezones_plain :
  forall r code detail, strip_timezones A r <> Raise (HTTPException code detail).

Lemma assign_index_raises cols candidates e :
  assign_index A cols candidates = Raise e -> bad_request_error e.
Proof.
  induction candidates as [|c rest IH]; simpl; [discriminate|].
  destruct (get_column cols c) as [col|]; [|exact IH].
  destruct (to_datetime A col) as [idx|e0]; [|exact IH].
  destruct (existsb _ idx); [|discriminate].
  unfold bad_request. intros [= <-]. eexists. reflexivity.
Qed.

Lemma normalize_request_raises req code detail :
  normalize_request A req = Raise (HTTPException code detail) -> code = 400.
Proof.
  unfold normalize_request, bad_request.
  destruct (data req) as [[|c cols]|]; try (intros [= <- _]; reflexivity).
  destruct (frame_rows (c :: cols)) as [[|k]|e]; try (intros [= <- _]; reflexivity).
  destruct (index_candidates req (c :: cols)) as [|cand cands];
    [intros [= <- _]; reflexivity|].
  destruct (assign_index A (c :: cols) (cand :: cands)) as [[r|]|e] eqn:Ea; simpl.
  - destruct (strip_timezones A (sort_index r)) as [stripped|e] eqn:Es; simpl.
    + destruct (raw_empty stripped); [intros [= <- _]; reflexivity | discriminate].
    + intros [= ->]. exfalso. exact (strip_timezones_plain _ _ _ Es).
  - intros [= <- _]; reflexivity.
  - intros [= ->]. apply assign_index_raises in Ea as [d [= -> _]]. reflexivity.
Qed.

Lemma py_index_raises {T} (l : list T) i code detail :
  Py.index l i <> Raise (HTTPException code detail).
Proof.
  unfold Py.index. destruct (_ && _); [|discriminate].
  destruct (l !! _); discriminate.
Qed.

Lemma validate_normalized_raises df_tmp service code detail :
  validate_normalized D A df_tmp service = Raise (HTTPException code detail) -> code = 400.
Proof.
  unfold validate_normalized, bad_request.
  destruct ((nunique (raw_index df_tmp) =? 1) && _).
  - destruct (Py.index (raw_index df_tmp) 0) as [first|e] eqn:Ei; simpl.
    + intros [= <- _]; reflexivity.
    + intros [= ->]. exfalso. exact (py_index_raises _ _ _ _ Ei).
  - match goal with |- match ?failures with _ => _ end = _ -> _ =>
      destruct failures; [|intros [= <- _]; reflexivity] end.
    match goal with |- match ?missing with _ => _ end = _ -> _ =>
      destruct missing; [discriminate | intros [= <- _]; reflexivity] end.
Qed.

Lemma prepare_dataframe_raises req service code detail :
  _prepare_dataframe_for_inference D A req service = Raise (HTTPException code detail) ->
  code = 400.
Proof.
  unfold _prepare_dataframe_for_inference.
  destruct (normalize_request A req) as [df_tmp|e] eqn:En; simpl.
  - apply validate_normalized_raises.
  - intros [= ->]. exact (normalize_request_raises _ _ _ En).
Qed.

Lemma prepare_request_raises req q :
  raises (prepare_request D A req q) bad_request_error.
Proof.
  unfold prepare_request.
  apply raises_bind; [apply raises_get | intros s; cbv beta zeta].
  apply raises_bind.
  - destruct req as [r|]; [|apply raises_ret].
    destruct (falsy_data r); [apply raises_ret|].
    destruct (_prepare_dataframe_for_inference D A r (get_service s)) as [p|e] eqn:Ep;
      [apply raises_ret|].
    destruct e as [msg|code detail|cls msg].
    + apply raises_raise. eexists; reflexivity.
    + apply raises_raise. rewrite (prepare_dataframe_raises _ _ _ _ Ep). eexists; reflexivity.
    + apply raises_raise. eexists; reflexivity.
  - intros prepared. apply raises_bind.
    + destruct prepared as [p|]; [apply raises_ret|].
      destruct (get_service s) as [svc|]; [|apply raises_raise; eexists; reflexivity].
      destruct (get_df_copy svc); [apply raises_ret | apply raises_raise; eexists; reflexivity].
    + intros d. destruct (List.filter _ _).
      * apply raises_bind; [apply raises_modify | intros _].
        apply raises_bind; [apply raises_modify | intros _]. apply raises_ret.
      * apply raises_raise. eexists; reflexivity.
Qed.

(** X7. Whatever the request, everything the handler does before it asks
    for a slot fails in one way only: with a 400 answer.  Exceptions of
    the preparer that are not HTTP answers are wrapped into a 400
    ("Failed to parse provided data"), and neither the cache lookup nor
    the force-ok switch can fail. *)
Theorem before_gate_only_bad_request (req : option PredictRequest) (q : option Z)
    (rid : string) (s : Server) (e : exn) :
  fst (predict_before_gate D A req q rid s) = Raise e ->
  exists detail, e = HTTPException 400 detail.
Proof.
  assert (H : raises (predict_before_gate D A req q rid) bad_request_error).
  { unfold predict_before_gate.
    apply raises_bind; [apply raises_get | intros s0; cbv beta].
    destruct (cache_lookup A req q s0).
    - apply raises_bind; [apply raises_modify | intros _].
      apply raises_bind; [apply raises_modify | intros _]. apply raises_ret.
    - destruct (PREDICT_FORCE_OK A).
      + apply raises_bind; [apply raises_modify | intros _]. apply raises_ret.
      + apply prepare_request_raises. }
  intros E. destruct (predict_before_gate D A req q rid s) as [r s'] eqn:Ep.
  simpl in E. subst r. exact (H _ _ _ Ep).
Qed.

End OnlyBadRequest.

Lemma before_gate_only_bad_request_witness :
  exists detail,
    fst (predict_before_gate Demo.deps Demo.api_deps (Some Demo.payload_same_instant)
           None "r1" (Demo.server_of Demo.fresh 2))
    = Raise (HTTPException 400 detail).
Proof.
  destruct (fst (predict_before_gate Demo.deps Demo.api_deps (Some Demo.payload_same_instant)
                   None "r1" (Demo.server_of Demo.fresh 2))) as [b|e] eqn:E.
  - exfalso. vm_compute in E. discriminate E.
  - destruct (before_gate_only_bad_request Demo.deps Demo.api_deps
                (fun r code detail H => ltac:(discriminate H))
                _ _ _ _ _ E) as [detail ->].
    exists detail. reflexivity.
Defined.

(** ** The rows of the response *)

Section ResponseRows.
Variable D : Deps.
Variable A : ApiDeps.

(** A Python float: NaN and the infinities become [None]. *)
Lemma json_cell_float x :
  json_cell D (PyFloat x)
  = if PrimFloat.is_nan x || PrimFloat.is_infinity x then CellNull else CellNumber x.
Proof.
  unfold json_cell. simpl.
  destruct (PrimFloat.is_nan x); simpl; [reflexivity|].
  destruct (PrimFloat.is_infinity x); reflexivity.
Qed.

(** A numpy scalar that is not a Python float takes the last branch:
    NaN becomes [None], an infinity is kept. *)
Lemma json_cell_numpy x :
  json_cell D (NpScalar x) = if PrimFloat.is_nan x then CellNull else CellNumber x.
Proof. unfold json_cell. simpl. destruct (PrimFloat.is_nan x); reflexivity. Qed.

(** Whatever the object, what is not a number or a text comes out as
    [None] or as itself. *)
Lemma json_cell_object val v :
  json_cell D val = CellObject v ->
  v = val /\ match val with
             | PyStr s => python_float D s = None
             | PyObject _ => True
             | _ => False
             end.
Proof.
  destruct val as [x|x|z|  |t|r]; unfold json_cell; simpl.
  - destruct (PrimFloat.is_nan x); simpl; [discriminate|].
    destruct (PrimFloat.is_infinity x); discriminate.
  - destruct (PrimFloat.is_nan x); discriminate.
  - destruct (float_of_pyint z); discriminate.
  - discriminate.
  - destruct (python_float D t); [discriminate|]. simpl. intros [= <-]. split; reflexivity.
  - intros [= <-]. split; [reflexivity | exact I].
Qed.

Lemma Forall_zip_with {T U V} (P : V -> Prop) (f : T -> U -> V) (l : list T) (k : list U) :
  (forall a b, P (f a b)) -> Forall P (zip_with f l k).
Proof.
  intros H. revert k. induction l as [|a l IH]; intros [|b k]; simpl; constructor; auto.
Qed.

(** X8. For a result table of dtype [float64], whose cells reach the
    loop as Python floats, the response never carries a number JSON
    cannot hold: in every prediction entry a cell is either [None] (the
    JSON [null]) or a finite number, never NaN and never an infinity; and
    when the table has a [value] column the entries carry that column
    only. *)
Theorem response_cells_finite (result_df : DataFrame) :
  (forall col x, row_cell A result_df col x = PyFloat x) ->
  Forall (fun e =>
            Forall (fun cell : string * cell_value =>
                      snd cell = CellNull
                      \/ exists x, snd cell = CellNumber x
                                   /\ PrimFloat.is_nan x = false
                                   /\ PrimFloat.is_infinity x = false)
                   (entry_cells e)
            /\ (has_col result_df "value" = true -> fst <$> entry_cells e = ["value"]))
         (serialize D A result_df).
Proof.
  intros Hf. unfold serialize. apply Forall_zip_with. intros ts row. simpl. split.
  - apply Forall_fmap, Forall_forall. intros col _. simpl.
    rewrite Hf, json_cell_float.
    match goal with |- context [PrimFloat.is_nan ?x || PrimFloat.is_infinity ?x] =>
      destruct (PrimFloat.is_nan x || PrimFloat.is_infinity x) eqn:E;
      [left; reflexivity | right; exists x; apply orb_false_elim in E; tauto] end.
  - intros ->. reflexivity.
Qed.

End ResponseRows.

Lemma response_cells_finite_witness :
  let t := mkDataFrame [Demo.t0; Demo.t0 + Demo.minute; Demo.t0 + 2 * Demo.minute] ["value"]
                       [[1%float]; [nan]; [infinity]] in
  (forall col x, row_cell Demo.api_deps t col x = PyFloat x)
  /\ (fun e => snd <$> entry_cells e) <$> serialize Demo.deps Demo.api_deps t
     = [[CellNumber 1%float]; [CellNull]; [CellNull]]
  /\ Forall (fun e =>
               Forall (fun cell : string * cell_value =>
                         snd cell = CellNull
                         \/ exists x, snd cell = CellNumber x
                                      /\ PrimFloat.is_nan x = false
                                      /\ PrimFloat.is_infinity x = false)
                      (entry_cells e)
               /\ (has_col t "value" = true -> fst <$> entry_cells e = ["value"]))
            (serialize Demo.deps Demo.api_deps t).
Proof.
  intros t. split; [reflexivity|]. split; [vm_compute; reflexivity|].
  apply (response_cells_finite Demo.deps Demo.api_deps t). reflexivity.
Defined.

(** A table of another dtype: the cells are numpy scalars, and an
    infinity is handed on as a number. *)
Lemma numpy_infinity_in_response :
  let A := mkApiDeps false false Demo.demo_to_datetime Demo.demo_to_numeric
                     (fun t => pretty t) (fun t => pretty t) (fun _ _ x => NpScalar x)
                     (fun r => Ok r) in
  let t := mkDataFrame [Demo.t0; Demo.t0 + Demo.minute; Demo.t0 + 2 * Demo.minute] ["value"]
                       [[1%float]; [nan]; [infinity]] in
  (fun e => snd <$> entry_cells e) <$> serialize Demo.deps A t
  = [[CellNumber 1%float]; [CellNull]; [CellNumber infinity]].
Proof. vm_compute. reflexivity. Qed.

(** ** A served prediction is what the cache answers with next *)

Section MonadInversion.
Context {S : Type}.

Lemma try_finally_ok_inv {T} (body : M S T) (fin : M S unit) s a s' :
  try_finally body fin s = (Ok a, s') ->
  exists s1, body s = (Ok a, s1) /\ fin s1 = (Ok tt, s').
Proof.
  unfold try_finally. destruct (body s) as [r s1]. destruct (fin s1) as [[[]|e] s2] eqn:Ef.
  - intros [= -> ->]. exists s1. split; [reflexivity | exact Ef].
  - discriminate.
Qed.

Lemma try_except_ok_inv {T} (body : M S T) (handler : exn -> M S T) s a s' :
  try_except body handler s = (Ok a, s') ->
  body s = (Ok a, s') \/ exists e s1, body s = (Raise e, s1) /\ handler e s1 = (Ok a, s').
Proof.
  unfold try_except. destruct (body s) as [[b|e] s1].
  - intros [= -> ->]. left. reflexivity.
  - intros H. right. exists e, s1. split; [reflexivity | exact H].
Qed.

Lemma modify_ok_inv (f : S -> S) s u s' : modify f s = (Ok u, s') -> s' = f s.
Proof. unfold modify. intros [= _ <-]. reflexivity. Qed.

Lemma get_ok_inv (s a s' : S) : get s = (Ok a, s') -> a = s /\ s' = s.
Proof. unfold get. intros [= <- <-]. split; reflexivity. Qed.

End MonadInversion.

Section CacheRoundTrip.
Variable D : Deps.
Variable A : ApiDeps.

Lemma on_execute_error_raises exc s r s' :
  on_execute_error exc s = (r, s') -> exists e, r = Raise e.
Proof.
  destruct exc; unfold on_execute_error, bind, with_metrics, _queue_log, modify, raise;
    simpl; intros [= <- _]; eexists; reflexivity.
Qed.

Lemma execute_ok_importable d n s res s1 :
  execute D d n s = (Ok res, s1) -> inferencer_importable s = true.
Proof.
  unfold execute, bind, get, get_service. simpl.
  destruct (inferencer_importable s); [reflexivity|].
  unfold with_metrics, _queue_log, modify, raise. simpl. discriminate.
Qed.

(** A fresh answer is stored as the last prediction of an instance that
    is there. *)
Lemma after_gate_fresh d n rid s r s' :
  predict_after_gate D A d n rid s = (Ok (Fresh r), s') ->
  inferencer_importable s' = true
  /\ last_prediction_response (self (world s')) = Some (LastResponse r).
Proof.
  intros E.
  pose proof (after_gate_releases D A _ _ _ _ _ _ E) as (_ & _ & _ & Himp).
  unfold predict_after_gate in E.
  apply bind_ok_inv in E as (u1 & s1 & E1 & E).
  destruct (enter_gate_run D s) as (b & w' & Eg & _). rewrite Eg in E1.
  injection E1 as _ <-.
  apply bind_ok_inv in E as (res & s3 & E3 & E).
  apply try_finally_ok_inv in E3 as (s3' & E3 & _).
  apply try_except_ok_inv in E3 as [E3|(e & s4 & _ & E3)].
  2:{ apply on_execute_error_raises in E3 as [e' He]. discriminate He. }
  apply execute_ok_importable in E3.
  apply bind_ok_inv in E as (s5 & s6 & E5 & E). apply get_ok_inv in E5 as [-> ->].
  apply bind_ok_inv in E as (u3 & s7 & E7 & E).
  apply bind_ok_inv in E as (u4 & s8 & E8 & E). apply modify_ok_inv in E8.
  apply ret_ok_inv in E as [Hr ->]. injection Hr as ->.
  split.
  - rewrite Himp. exact E3.
  - subst s8. simpl. unfold on_inferencer, set_last_prediction, modify in E7.
    simpl in E7. injection E7 as _ <-. reflexivity.
Qed.

Lemma before_gate_not_fresh req q rid :
  returns (predict_before_gate D A req q rid) (fun b => forall r, b <> Answered (Fresh r)).
Proof.
  unfold predict_before_gate.
  apply returns_bind_any. intros s0.
  destruct (cache_lookup A req q s0).
  - apply returns_bind_any. intros _. apply returns_bind_any. intros _.
    apply returns_ret. discriminate.
  - destruct (PREDICT_FORCE_OK A).
    + apply returns_bind_any. intros _. apply returns_ret. discriminate.
    + unfold prepare_request.
      apply returns_bind_any. intros s1. cbv beta zeta.
      apply returns_bind_any. intros prepared.
      apply returns_bind_any. intros d.
      destruct (List.filter _ _); [|apply returns_raise].
      apply returns_bind_any. intros _. apply returns_bind_any. intros _.
      apply returns_ret. discriminate.
Qed.

(** X9. What the endpoint has just served is what its cache serves next:
    after a request was answered with a fresh prediction, a request
    without horizon and without data (the cache being enabled), whether
    it has no body at all or the empty body [{}] the endpoint puts in
    its place, is answered with that very response, marked as cached and
    carrying its own request id; the executor and its world are not
    touched, no slot is taken, and [served_cached] goes up by one. *)
Theorem served_from_cache (req req2 : option PredictRequest) (q : option Z)
    (rid rid2 : string) (s s' : Server) (r : Response) :
  ENABLE_PREDICT_CACHE A = true ->
  predict D A req q rid s = Some (Ok (Fresh r), s') ->
  (forall r2, req2 = Some r2 ->
     falsy_data r2 = true /\ ApiServer.inference_length r2 = None) ->
  exists s'',
    predict D A req2 None rid2 s' = Some (Ok (Cached (LastResponse r) rid2), s'')
    /\ world s'' = world s'
    /\ semaphore s'' = semaphore s'
    /\ served_cached (queue_metrics s'') = served_cached (queue_metrics s') + 1.
Proof.
  intros Hc E Hreq.
  assert (Hq : forall st p,
             inferencer_importable st = true ->
             last_prediction_response (self (world st)) = Some p ->
             cache_lookup A req2 None st = Some p).
  { intros st p Hi Hl. unfold cache_lookup, get_service, get_last_prediction_copy.
    rewrite Hc, Hi, Hl. destruct req2 as [r2|]; [|reflexivity].
    destruct (Hreq r2 eq_refl) as [-> ->]. reflexivity. }
  unfold predict in E.
  destruct (predict_before_gate D A req q rid s) as [[[a|d n]|e] s1] eqn:Eb.
  - injection E as -> ->. exfalso.
    exact (before_gate_not_fresh req q rid _ _ _ Eb r eq_refl).
  - destruct (acquire s1) as [s2|]; [|discriminate E].
    injection E as E. apply after_gate_fresh in E as [Hi Hl].
    unfold predict, predict_before_gate, bind, get.
    cbv beta iota. rewrite (Hq _ _ Hi Hl). simpl.
    eexists. split; [reflexivity|]. simpl. repeat split.
  - discriminate E.
Qed.

End CacheRoundTrip.

Lemma served_from_cache_witness :
  let A := mkApiDeps true false Demo.demo_to_datetime Demo.demo_to_numeric
                     (fun t => pretty t) (fun t => pretty t) (fun _ _ x => PyFloat x)
                     (fun r => Ok r) in
  let s := Demo.server_of (Demo.loaded Demo.sequence_model None "pytorch" 1 1 ∅) 2 in
  let empty_body := Some (mkPredictRequest None None None) in
  exists r s' s'',
    predict Demo.deps A (Some Demo.payload3) None "r1" s = Some (Ok (Fresh r), s')
    /\ predict Demo.deps A empty_body None "r2" s'
       = Some (Ok (Cached (LastResponse r) "r2"), s'').
Proof.
  intros A s empty_body.
  destruct (predict Demo.deps A (Some Demo.payload3) None "r1" s) as [[[[r|p i|i]|e] s']|] eqn:E;
    try (exfalso; vm_compute in E; discriminate E).
  destruct (served_from_cache Demo.deps A _ empty_body _ "r1" "r2" _ _ _ eq_refl E)
    as (s'' & H & _).
  { intros r2 [= <-]. split; reflexivity. }
  exists r, s', s''. split; [reflexivity | exact H].
Defined.

(** ** Serving leaves the loaded model alone *)

Section ServingInvariants.
Variable D : Deps.
Variable A : ApiDeps.
Variable P : Inferencer -> Prop.
Hypothesis P_errors : forall l i, P i -> P (set_last_per_step_errors l i).
Hypothesis P_keys : forall k i, P i -> P (set_emitted_prediction_keys k i).
Hypothesis P_last : forall p i, P i -> P (set_last_prediction_response p i).
Hypothesis P_jobs : forall n i, P i -> P (set_active_jobs n i).
Hypothesis P_delay : forall x i, P i -> P (set_simulate_delay_secs x i).

Lemma perform_inference_instance df_eval n :
  preserves (fun w => P (self w)) (perform_inference D df_eval n).
Proof.
  unfold perform_inference, print.
  apply preserves_bind; [apply preserves_get | intros w0; cbv beta].
  destruct (match df_eval with Some d => Some d | None => df (self w0) end) as [d|].
  - destruct (current_model (self w0)).
    + apply preserves_bind.
      { apply preserves_modify. intros w H. apply P_jobs, H. }
      intros _. apply preserves_bind.
      { apply preserves_modify. intros w H; exact H. }
      intros _. apply preserves_try_finally.
      * apply run_inference_instance; assumption.
      * apply preserves_modify. intros w H. apply P_jobs, H.
    + apply preserves_bind; [|intros; apply preserves_ret].
      apply preserves_modify. intros w H; exact H.
  - apply preserves_bind; [|intros; apply preserves_ret].
    apply preserves_modify. intros w H; exact H.
Qed.

Lemma on_inferencer_instance {T} (m : M World T) :
  preserves (fun w => P (self w)) m ->
  preserves (fun s => P (self (world s))) (on_inferencer m).
Proof.
  intros Hm s H. unfold on_inferencer. specialize (Hm (world s) H).
  destruct (m (world s)) as [r w']. exact Hm.
Qed.

Ltac instance_leaf :=
  first [ apply preserves_modify; intros ? H; exact H
        | apply on_inferencer_instance; apply perform_inference_instance
        | apply on_inferencer_instance; apply simulate_delay_instance; exact P_delay
        | apply on_inferencer_instance; apply preserves_modify; intros ? H;
          apply P_last; exact H ].

Lemma before_gate_instance req q rid :
  preserves (fun s => P (self (world s))) (predict_before_gate D A req q rid).
Proof.
  unfold predict_before_gate, prepare_request, with_metrics, _queue_log.
  repeat (preserve_step; cbv beta); instance_leaf.
Qed.

Lemma after_gate_instance d n rid :
  preserves (fun s => P (self (world s))) (predict_after_gate D A d n rid).
Proof.
  unfold predict_after_gate, enter_gate, delay_block, execute, on_execute_error,
    leave_gate, release, with_metrics, _queue_log, set_last_prediction.
  repeat (preserve_step; cbv beta); instance_leaf.
Qed.

Lemma predict_instance req q rid s r s' :
  P (self (world s)) -> predict D A req q rid s = Some (r, s') -> P (self (world s')).
Proof.
  intros H E. unfold predict in E.
  pose proof (before_gate_instance req q rid s H) as Hb.
  destruct (predict_before_gate D A req q rid s) as [[[a|d n]|e] s1]; simpl in Hb.
  - injection E as _ <-. exact Hb.
  - unfold acquire in E. destruct (0 <? semaphore s1); [|discriminate E].
    injection E as E.
    match type of E with predict_after_gate D A d n rid ?s2 = _ =>
      pose proof (after_gate_instance d n rid s2 Hb) as Ha end.
    rewrite E in Ha. exact Ha.
  - injection E as _ <-. exact Hb.
Qed.

End ServingInvariants.

Section ServingKeepsModel.
Variable D : Deps.
Variable A : ApiDeps.

Lemma predict_same_model (req : option PredictRequest) (q : option Z) (rid : string)
    (s s' : Server) (r : result reply) :
  predict D A req q rid s = Some (r, s') ->
  same_model (self (world s)) (world s').
Proof.
  intros E.
  refine (predict_instance D A (fun i => same_model (self (world s)) (mkWorld i [] ∅ [] []))
            _ _ _ _ _ req q rid s r s' _ E);
    try (intros ? i H; exact H).
  repeat split.
Qed.

(** X10. Serving never changes what is loaded: whatever the request and
    however it ends (fresh answer, cached answer, any error), after
    [predict] the instance has the same predictor, scaler, model class,
    parameters and sequence lengths as before. *)
Theorem predict_keeps_model (req : option PredictRequest) (q : option Z) (rid : string)
    (s s' : Server) (r : result reply) :
  predict D A req q rid s = Some (r, s') ->
  current_model (self (world s')) = current_model (self (world s))
  /\ current_scaler (self (world s')) = current_scaler (self (world s))
  /\ model_class (self (world s')) = model_class (self (world s))
  /\ params (self (world s')) = params (self (world s))
  /\ input_seq_len (self (world s')) = input_seq_len (self (world s))
  /\ output_seq_len (self (world s')) = output_seq_len (self (world s)).
Proof. intros E. exact (predict_same_model req q rid s s' r E). Qed.

End ServingKeepsModel.

Lemma predict_keeps_model_witness :
  let s := Demo.server_of (Demo.loaded Demo.sequence_model None "pytorch" 1 1 ∅) 2 in
  exists r s',
    predict Demo.deps Demo.api_deps (Some Demo.payload3) None "r1" s = Some (r, s')
    /\ current_model (self (world s')) = current_model (self (world s)).
Proof.
  intros s.
  destruct (predict Demo.deps Demo.api_deps (Some Demo.payload3) None "r1" s)
    as [[r s']|] eqn:E.
  - exists r, s'. split; [reflexivity|].
    exact (proj1 (predict_keeps_model Demo.deps Demo.api_deps _ _ _ _ _ _ E)).
  - exfalso. vm_compute in E. discriminate E.
Defined.

(** ** The readiness probe and the endpoint agree *)

Section Readiness.
Variable D : Deps.
Variable A : ApiDeps.

Lemma execute_ok_model d n s res s1 :
  execute D d n s = (Ok res, s1) -> model_ready s = true.
Proof.
  intros E. pose proof (execute_ok_importable D d n s res s1 E) as Hi.
  unfold model_ready, get_service. rewrite Hi.
  destruct (current_model (self (world s))) as [m|] eqn:Hm.
  - apply bool_decide_eq_true_2. eauto.
  - exfalso. unfold execute, bind, get, get_service in E. cbv beta iota in E.
    rewrite Hi in E. unfold on_inferencer in E.
    pose proof (perform_inference_no_model D (Some d) (Some n) (world s) Hm) as Hn.
    destruct (perform_inference D (Some d) (Some n) (world s)) as [r w']. simpl in Hn.
    subst r. unfold with_metrics, _queue_log, modify, raise in E. simpl in E.
    discriminate E.
Qed.

Lemma after_gate_ok_model d n rid s a s' :
  predict_after_gate D A d n rid s = (Ok a, s') -> model_ready s = true.
Proof.
  intros E. unfold predict_after_gate in E.
  apply bind_ok_inv in E as (u1 & s1 & E1 & E).
  destruct (enter_gate_run D s) as (b & w' & Eg & Hd). rewrite Eg in E1.
  injection E1 as _ <-.
  apply bind_ok_inv in E as (res & s3 & E3 & _).
  apply try_finally_ok_inv in E3 as (s3' & E3 & _).
  apply try_except_ok_inv in E3 as [E3|(e & s4 & _ & E3)].
  2:{ apply on_execute_error_raises in E3 as [e' He]. discriminate He. }
  apply execute_ok_model in E3.
  unfold model_ready, get_service in *. simpl in E3.
  destruct (inferencer_importable s); [|discriminate E3].
  destruct (simulate_delay_run D (world s)) as (b0 & delay & w0 & E0 & Hs & _).
  rewrite E0 in Hd. injection Hd as _ <-. rewrite Hs in E3. exact E3.
Qed.

(** X11. A fresh prediction is only ever served by a process whose
    readiness probe says 200: if [predict] answers a request with a fresh
    prediction, then [/ready] answers 200 "ready" and [/healthz] reports
    [model_ready] both before the request and after it.  Put the other
    way round: while [/ready] answers 503, no request gets a fresh
    prediction. *)
Theorem fresh_only_when_ready (req : option PredictRequest) (q : option Z) (rid : string)
    (s s' : Server) (r : Response) :
  predict D A req q rid s = Some (Ok (Fresh r), s') ->
  ready s = (200, "ready")
  /\ ready s' = (200, "ready")
  /\ health_model_ready (healthz s) = true
  /\ health_model_ready (healthz s') = true.
Proof.
  intros E.
  assert (H : model_ready s = true).
  { unfold predict in E.
    pose proof (before_gate_world D A req q rid s) as Hw.
    pose proof (before_gate_gate D A s req q rid s) as Hg.
    assert (Hs : gate_as s s) by (repeat split).
    specialize (Hg Hs). destruct Hg as (_ & _ & _ & Hi).
    destruct (predict_before_gate D A req q rid s) as [[[a|d n]|e] s1] eqn:Eb;
      simpl in Hw, Hi.
    - injection E as -> ->. exfalso.
      exact (before_gate_not_fresh D A req q rid _ _ _ Eb r eq_refl).
    - unfold acquire in E. destruct (0 <? semaphore s1); [|discriminate E].
      injection E as E. apply after_gate_ok_model in E.
      unfold model_ready, get_service in *. simpl in E. rewrite Hi, Hw in E. exact E.
    - discriminate E. }
  assert (H' : model_ready s' = true).
  { unfold model_ready, get_service in *.
    destruct (inferencer_importable s) eqn:Hi; [|discriminate H].
    apply bool_decide_eq_true_1 in H as [m Hm].
    assert (Hi' : inferencer_importable s' = true).
    { unfold predict in E.
      destruct (predict_before_gate D A req q rid s) as [[[a|d n]|e] s1] eqn:Eb.
      - injection E as -> ->. exfalso.
        exact (before_gate_not_fresh D A req q rid _ _ _ Eb r eq_refl).
      - destruct (acquire s1); [|discriminate E]. injection E as E.
        exact (proj1 (after_gate_fresh D A _ _ _ _ _ _ E)).
      - discriminate E. }
    rewrite Hi'. apply bool_decide_eq_true_2.
    pose proof (predict_same_model D A req q rid s s' _ E) as (Hm' & _).
    rewrite Hm', Hm. eauto. }
  unfold ready, healthz. simpl. rewrite H, H'. repeat split.
Qed.

End Readiness.

Lemma fresh_only_when_ready_witness :
  let s := Demo.server_of (Demo.loaded Demo.sequence_model None "pytorch" 1 1 ∅) 2 in
  exists r s',
    predict Demo.deps Demo.api_deps (Some Demo.payload3) None "r1" s = Some (Ok (Fresh r), s')
    /\ ready s = (200, "ready")
    /\ ready s' = (200, "ready").
Proof.
  intros s.
  destruct (predict Demo.deps Demo.api_deps (Some Demo.payload3) None "r1" s)
    as [[[[r|p i|i]|e] s']|] eqn:E;
    try (exfalso; vm_compute in E; discriminate E).
  destruct (fresh_only_when_ready Demo.deps Demo.api_deps _ _ _ _ _ _ E) as (H1 & H2 & _).
  exists r, s'. split; [reflexivity|]. split; [exact H1 | exact H2].
Defined.
